(** * Real-time synchronisation layer of the AI task manager

    A shallow embedding of the TypeScript sources

      - models/task.types.ts, models/chat.types.ts      (data model)
      - services/mock-service.ts                        (MockService)
      - services/task-service.ts                        (TaskService)
      - viewmodels/useTaskViewModel.ts                  (task view-model)
      - viewmodels/useChatViewModel.ts                  (chat view-model)
      - services/websocket-service.ts                   (WebSocketService)
      - components/ui/chat-interface.tsx                (handleSubmit)
      - services/api.ts                                 (fetchWithErrorHandling)
      - lib/clsx-utils.ts                               (clsx)
      - viewmodels/useThemeViewModel.ts                 (theme view-model)
      - components/ui/task-list.tsx, task-item.tsx      (filter, sort, delete)

    Conventions of the embedding.

      - A JavaScript [number] that holds an id or a time is a [Z]; an ISO
        date-time string ([created_at], [updated_at], [timestamp]) is
        represented by the instant it denotes, in milliseconds since the
        epoch, which is what [new Date(s).getTime()] reads from it.
      - [due_date] is documented in task.types.ts as an ISO date string
        (YYYY-MM-DD): it is represented by the calendar day it names, counted
        in days since 1970-01-01.
      - [async]/[await] code runs to completion: every function of the
        services and view-models is the sequential composition of its
        awaited steps over an explicit world (mock store, clock, scripted
        remote API); this is the call seen by a caller that awaits it.
      - [throw]/[try]/[catch] is an outcome that is either a value or a
        thrown message; the world survives a throw.
      - A React event handler runs against the state of the latest render:
        one event is handled, the component renders, the next event is
        handled.
      - A call of an [async] function that nobody awaits (the toggle of a
        task item) may overlap with later calls: module [TogglesInFlight]
        follows such calls from one suspension to the next. *)

From Stdlib Require Import ZArith List String Bool Lia QArith Qminmax Permutation Sorted.
Import ListNotations.
Local Open Scope string_scope.
Local Open Scope Z_scope.

Set Implicit Arguments.

(* ===================================================================== *)
(** ** Outcomes and the state-and-exception monad *)
(* ===================================================================== *)

Inductive Outcome (A : Type) : Type :=
| Ok (a : A)
| Throw (msg : string).
Arguments Ok {A} a.
Arguments Throw {A} msg.

Module Eff.

(** A computation over a store [S] that returns or throws. *)
Definition M (S A : Type) : Type := S -> Outcome A * S.

Definition ret {S A} (a : A) : M S A := fun s => (Ok a, s).

Definition bind {S A B} (m : M S A) (k : A -> M S B) : M S B :=
  fun s => match m s with
           | (Ok a, s') => k a s'
           | (Throw e, s') => (Throw e, s')
           end.

Definition throw {S A} (e : string) : M S A := fun s => (Throw e, s).

(** [try { m } catch (error) { h error.message }] *)
Definition try_catch {S A} (m : M S A) (h : string -> M S A) : M S A :=
  fun s => match m s with
           | (Ok a, s') => (Ok a, s')
           | (Throw e, s') => h e s'
           end.

Definition get {S} : M S S := fun s => (Ok s, s).
Definition modify {S} (f : S -> S) : M S unit := fun s => (Ok tt, f s).

(** Run a computation on one component of a pair of stores. *)
Definition on_snd {S1 S2 A} (m : M S2 A) : M (S1 * S2) A :=
  fun s => match m (snd s) with (r, s2) => (r, (fst s, s2)) end.
Definition on_fst {S1 S2 A} (m : M S1 A) : M (S1 * S2) A :=
  fun s => match m (fst s) with (r, s1) => (r, (s1, snd s)) end.

End Eff.

Declare Scope eff_scope.
Delimit Scope eff_scope with eff.
Notation "x <- m ;; k" := (Eff.bind m (fun x => k))
  (at level 61, m at next level, right associativity) : eff_scope.
Notation "m ;;; k" := (Eff.bind m (fun _ => k))
  (at level 61, right associativity) : eff_scope.

(** JavaScript's [a || b] on an optional string: the empty string and
    [undefined] are both falsy. *)
Definition or_string (a : option string) (b : string) : string :=
  match a with
  | Some s => if String.eqb s "" then b else s
  | None => b
  end.

(** [a || b] on an optional value with no falsy inhabitant. *)
Definition or_default {A} (a : option A) (b : A) : A :=
  match a with Some x => x | None => b end.

(* ===================================================================== *)
(** ** models/task.types.ts *)
(* ===================================================================== *)

Inductive TaskStatus := active | completed.
Inductive TaskPriority := high | medium | low.

Definition TaskStatus_eqb (a b : TaskStatus) : bool :=
  match a, b with
  | active, active | completed, completed => true
  | _, _ => false
  end.

Definition TaskPriority_eqb (a b : TaskPriority) : bool :=
  match a, b with
  | high, high | medium, medium | low, low => true
  | _, _ => false
  end.

Record Task := mkTask {
  id : Z;
  title : string;
  description : string;
  status : TaskStatus;
  priority : TaskPriority;
  due_date : option Z;        (* calendar day, days since 1970-01-01 *)
  created_at : Z;             (* instant, ms since the epoch *)
  updated_at : Z
}.

Record TaskCreate := mkTaskCreate {
  c_title : option string;
  c_description : option string;
  c_priority : option TaskPriority;
  c_due_date : option Z
}.

(** [due_date?: string | null]: absent, [null], or a day. *)
Record TaskUpdate := mkTaskUpdate {
  u_title : option string;
  u_description : option string;
  u_status : option TaskStatus;
  u_priority : option TaskPriority;
  u_due_date : option (option Z)
}.

Record TaskFilters := mkTaskFilters {
  f_status : option TaskStatus;
  f_priority : option TaskPriority;
  f_due_date : option Z
}.

Record TaskStats := mkTaskStats {
  total : Z;
  active_count : Z;
  completed_count : Z;
  overdue : Z
}.

Record ApiResponse (T : Type) := mkApiResponse {
  data : T;
  success : bool;
  message : option string
}.

(** [TaskAction]: the agent's vocabulary; [data] is [any] in the source and
    is given here the payload each producer in mock-service.ts puts in it. *)
Inductive TaskAction :=
| ActCreate (t : Task)
| ActUpdate (t : Task)
| ActDelete (i : Z)
| ActList (ts : list Task)
| ActFilter (ts : list Task).

Definition id_is (i : Z) (t : Task) : bool := Z.eqb (id t) i.

(* ===================================================================== *)
(** ** The JavaScript [Date] operations the sources use *)
(* ===================================================================== *)

Module JsDate.

Definition msPerDay : Z := 86400000.

(** [new Date("YYYY-MM-DD")]: a date-only ISO string is read as midnight
    UTC of that day. *)
Definition ofDateOnly (day : Z) : Z := day * msPerDay.

(** The local calendar day of an instant, for a zone whose local time is
    UTC plus [tz] milliseconds. *)
Definition localDay (tz t : Z) : Z := (t + tz) / msPerDay.

(** [d.setHours(0, 0, 0, 0)]: the instant of local midnight of the local
    day of [t].  The offset [tz] is one offset for every instant: the
    embedding covers a zone over a period in which its offset does not
    change; across a daylight-saving change the real [setHours] works with
    the offset in force on the day in question. *)
Definition setHours0 (tz t : Z) : Z := localDay tz t * msPerDay - tz.

End JsDate.

(* ===================================================================== *)
(** ** The world the services run in *)
(* ===================================================================== *)

(** The remote HTTP API is external: each [apiService] call consumes the next
    scripted reply of its endpoint, a parsed body or a thrown error.  A
    script that has run out is a server that cannot be reached.  The body of
    a 2xx reply is returned as it was parsed, without a check that it is
    what the caller expects: where a single task is expected the reply is a
    task or JSON [null] ([None]).  Bodies that are neither (such as the [{}]
    api.ts returns for a 2xx that is not JSON) have no counterpart in the
    typed records of this embedding; the servers considered answer with
    what the endpoint promises, or with [null], or with an error. *)
Record Remote := mkRemote {
  getTasksReplies : list (Outcome (list Task));   (* GET /api/tasks      *)
  getTaskReplies : list (Outcome (option Task));   (* GET /api/tasks/:id  *)
  patchTaskReplies : list (Outcome (option Task)); (* PATCH /api/tasks/:id *)
  getStatsReplies : list (Outcome TaskStats)      (* GET /api/tasks/stats *)
}.

Record World := mkWorld {
  useMockData : bool;        (* process.env.NODE_ENV === 'development' *)
  mockTasks : list Task;     (* MockService.tasks *)
  clock : Z;                 (* the instant [new Date()] / [Date.now()] reads *)
  tz : Z;                    (* local time minus UTC, in ms *)
  remote : Remote
}.

Definition set_tasks (ts : list Task) (w : World) : World :=
  mkWorld (useMockData w) ts (clock w) (tz w) (remote w).
Definition set_clock (c : Z) (w : World) : World :=
  mkWorld (useMockData w) (mockTasks w) c (tz w) (remote w).
Definition set_remote (r : Remote) (w : World) : World :=
  mkWorld (useMockData w) (mockTasks w) (clock w) (tz w) r.

Definition next_reply {A} (script : list (Outcome A)) : Outcome A * list (Outcome A) :=
  match script with
  | [] => (Throw "Failed to fetch", [])
  | r :: rest => (r, rest)
  end.

(* ===================================================================== *)
(** ** services/api.ts, as far as task-service.ts calls it *)
(* ===================================================================== *)

Module ApiService.

Definition get_tasks : Eff.M World (list Task) := fun w =>
  let r := remote w in
  let (o, rest) := next_reply (getTasksReplies r) in
  (o, set_remote (mkRemote rest (getTaskReplies r) (patchTaskReplies r) (getStatsReplies r)) w).

Definition get_task (i : Z) : Eff.M World (option Task) := fun w =>
  let r := remote w in
  let (o, rest) := next_reply (getTaskReplies r) in
  (o, set_remote (mkRemote (getTasksReplies r) rest (patchTaskReplies r) (getStatsReplies r)) w).

Definition patch_task (i : Z) (u : TaskUpdate) : Eff.M World (option Task) := fun w =>
  let r := remote w in
  let (o, rest) := next_reply (patchTaskReplies r) in
  (o, set_remote (mkRemote (getTasksReplies r) (getTaskReplies r) rest (getStatsReplies r)) w).

Definition get_stats : Eff.M World TaskStats := fun w =>
  let r := remote w in
  let (o, rest) := next_reply (getStatsReplies r) in
  (o, set_remote (mkRemote (getTasksReplies r) (getTaskReplies r) (patchTaskReplies r) rest) w).

End ApiService.

(* ===================================================================== *)
(** ** services/mock-service.ts *)
(* ===================================================================== *)

Module MockService.

Local Open Scope eff_scope.

(** [await this.delay(ms)]: the clock moves on by [ms]. *)
Definition delay (ms : Z) : Eff.M World unit :=
  Eff.modify (fun w => set_clock (clock w + ms) w).

(** [Array.prototype.sort] is stable; with the comparator
    [(a, b) => time(b.updated_at) - time(a.updated_at)] an element stays
    behind every earlier element that is at least as recent. *)
Fixpoint insert_by_updated (t : Task) (sorted : list Task) : list Task :=
  match sorted with
  | [] => [t]
  | x :: rest =>
      if updated_at x - updated_at t >? 0
      then x :: insert_by_updated t rest
      else t :: sorted
  end.

Definition sort_by_updated (ts : list Task) : list Task :=
  fold_right insert_by_updated [] ts.

Definition getTasks : Eff.M World (list Task) :=
  delay 300 ;;;
  w <- Eff.get ;;
  Eff.ret (sort_by_updated (mockTasks w)).

Definition createTask (taskData : TaskCreate) : Eff.M World Task :=
  delay 500 ;;;
  w <- Eff.get ;;
  let newTask :=
    {| id := clock w;
       title := or_string (c_title taskData) "Untitled Task";
       description := or_string (c_description taskData) "";
       status := active;
       priority := or_default (c_priority taskData) medium;
       due_date := c_due_date taskData;
       created_at := clock w;
       updated_at := clock w |} in
  Eff.modify (set_tasks (mockTasks w ++ [newTask])) ;;;
  Eff.ret newTask.

(** [{ ...task, ...updates, updated_at: now }] *)
Definition apply_update (t : Task) (updates : TaskUpdate) (now : Z) : Task :=
  {| id := id t;
     title := or_default (u_title updates) (title t);
     description := or_default (u_description updates) (description t);
     status := or_default (u_status updates) (status t);
     priority := or_default (u_priority updates) (priority t);
     due_date := or_default (u_due_date updates) (due_date t);
     created_at := created_at t;
     updated_at := now |}.

(** [this.tasks.findIndex(task => task.id === id)], [None] for [-1]. *)
Fixpoint findIndex (i : Z) (ts : list Task) : option nat :=
  match ts with
  | [] => None
  | t :: rest =>
      if id_is i t then Some O
      else match findIndex i rest with
           | Some n => Some (S n)
           | None => None
           end
  end.

(** [ts[n] = f(ts[n])] for an index inside the array. *)
Fixpoint update_at (n : nat) (f : Task -> Task) (ts : list Task) : list Task :=
  match ts, n with
  | [], _ => []
  | x :: rest, O => f x :: rest
  | x :: rest, S n' => x :: update_at n' f rest
  end.

(** [ts.splice(n, 1)] *)
Fixpoint remove_nth (n : nat) (ts : list Task) : list Task :=
  match ts, n with
  | [], _ => []
  | _ :: rest, O => rest
  | x :: rest, S n' => x :: remove_nth n' rest
  end.

Definition updateTask (i : Z) (updates : TaskUpdate) : Eff.M World (option Task) :=
  delay 400 ;;;
  w <- Eff.get ;;
  match findIndex i (mockTasks w) with
  | None => Eff.throw "Task not found"
  | Some taskIndex =>
      let ts' := update_at taskIndex
                   (fun old => apply_update old updates (clock w)) (mockTasks w) in
      Eff.modify (set_tasks ts') ;;;
      Eff.ret (nth_error ts' taskIndex)
  end.

Definition deleteTask (i : Z) : Eff.M World bool :=
  delay 300 ;;;
  w <- Eff.get ;;
  match findIndex i (mockTasks w) with
  | None => Eff.throw "Task not found"
  | Some taskIndex =>
      Eff.modify (set_tasks (remove_nth taskIndex (mockTasks w))) ;;;
      Eff.ret true
  end.

End MockService.

(* ===================================================================== *)
(** ** services/task-service.ts *)
(* ===================================================================== *)

Module TaskService.

Local Open Scope eff_scope.

(** One iteration of the [forEach] body of [calculateStats]. *)
Definition count_task (today : Z) (tzone : Z) (stats : TaskStats) (task : Task)
  : TaskStats :=
  match status task with
  | active =>
      let stats1 := mkTaskStats (total stats) (active_count stats + 1)
                      (completed_count stats) (overdue stats) in
      match due_date task with
      | Some d =>
          let dueDate := JsDate.setHours0 tzone (JsDate.ofDateOnly d) in
          if dueDate <? today
          then mkTaskStats (total stats1) (active_count stats1)
                 (completed_count stats1) (overdue stats1 + 1)
          else stats1
      | None => stats1
      end
  | completed =>
      mkTaskStats (total stats) (active_count stats)
        (completed_count stats + 1) (overdue stats)
  end.

(** [calculateStats(tasks)], reading the clock [now] in the zone [tzone]. *)
Definition calculateStats (tzone now : Z) (ts : list Task) : TaskStats :=
  let stats := mkTaskStats (Z.of_nat (List.length ts)) 0 0 0 in
  let today := JsDate.setHours0 tzone now in
  fold_left (count_task today tzone) ts stats.

Definition apply_filters (filters : option TaskFilters) (ts : list Task)
  : list Task :=
  match filters with
  | None => ts
  | Some f =>
      let ts1 := match f_status f with
                 | Some s => filter (fun task => TaskStatus_eqb (status task) s) ts
                 | None => ts
                 end in
      match f_priority f with
      | Some p => filter (fun task => TaskPriority_eqb (priority task) p) ts1
      | None => ts1
      end
  end.

Definition getTasks (filters : option TaskFilters)
  : Eff.M World (ApiResponse (list Task)) :=
  Eff.try_catch
    (w <- Eff.get ;;
     if useMockData w then
       d <- MockService.getTasks ;;
       Eff.ret (mkApiResponse (apply_filters filters d) true None)
     else
       d <- ApiService.get_tasks ;;
       Eff.ret (mkApiResponse d true None))
    (fun error =>
       w <- Eff.get ;;
       if negb (useMockData w) then
         Eff.try_catch
           (d <- MockService.getTasks ;;
            Eff.ret (mkApiResponse d true None))
           (fun _ => Eff.ret (mkApiResponse []%list false
              (Some "Failed to fetch tasks from both API and mock service")))
       else Eff.ret (mkApiResponse []%list false (Some error))).

Definition getTask (i : Z) : Eff.M World (ApiResponse (option Task)) :=
  Eff.try_catch
    (w <- Eff.get ;;
     if useMockData w then
       ts <- MockService.getTasks ;;
       Eff.ret (mkApiResponse (find (id_is i) ts) true None)
     else
       d <- ApiService.get_task i ;;
       Eff.ret (mkApiResponse d true None))
    (fun error => Eff.ret (mkApiResponse None false (Some error))).

Definition updateTask (i : Z) (updates : TaskUpdate)
  : Eff.M World (ApiResponse (option Task)) :=
  Eff.try_catch
    (w <- Eff.get ;;
     if useMockData w then
       d <- MockService.updateTask i updates ;;
       Eff.ret (mkApiResponse d true (Some "Task updated successfully"))
     else
       d <- ApiService.patch_task i updates ;;
       Eff.ret (mkApiResponse d true (Some "Task updated successfully")))
    (fun error => Eff.ret (mkApiResponse None false (Some error))).

Definition getTaskStats : Eff.M World (ApiResponse TaskStats) :=
  Eff.try_catch
    (w <- Eff.get ;;
     if useMockData w then
       ts <- MockService.getTasks ;;
       w' <- Eff.get ;;
       Eff.ret (mkApiResponse (calculateStats (tz w') (clock w') ts) true None)
     else
       d <- ApiService.get_stats ;;
       Eff.ret (mkApiResponse d true None))
    (fun error => Eff.ret (mkApiResponse (mkTaskStats 0 0 0 0) false (Some error))).

Definition flip_status (s : TaskStatus) : TaskStatus :=
  match s with active => completed | completed => active end.

Definition toggleTaskStatus (i : Z) : Eff.M World (ApiResponse (option Task)) :=
  Eff.try_catch
    (taskResponse <- getTask i ;;
     match success taskResponse, data taskResponse with
     | true, Some currentTask =>
         let newStatus := flip_status (status currentTask) in
         updateTask i (mkTaskUpdate None None (Some newStatus) None None)
     | _, _ => Eff.throw "Task not found"
     end)
    (fun error => Eff.ret (mkApiResponse None false (Some error))).

End TaskService.

(* ===================================================================== *)
(** ** viewmodels/useTaskViewModel.ts *)
(* ===================================================================== *)

Module TaskViewModel.

Local Open Scope eff_scope.

Record State := mkState {
  tasks : list Task;
  taskStats : TaskStats;
  isLoading : bool;
  error : option string
}.

Definition defaultStats : TaskStats := mkTaskStats 0 0 0 0.

Definition initialState : State := mkState [] defaultStats true None.

(** The view-model runs over its React state and the world of services. *)
Definition VM (A : Type) : Type := Eff.M (State * World) A.

Definition setState (f : State -> State) : VM unit := Eff.on_fst (Eff.modify f).
Definition service {A} (m : Eff.M World A) : VM A := Eff.on_snd m.

Definition refreshTasks (filters : option TaskFilters) : VM unit :=
  setState (fun prev => mkState (tasks prev) (taskStats prev) true None) ;;;
  Eff.try_catch
    (tasksResponse <- service (TaskService.getTasks filters) ;;
     if negb (success tasksResponse)
     then Eff.throw (or_string (message tasksResponse) "Failed to fetch tasks")
     else
       statsResponse <- service TaskService.getTaskStats ;;
       setState (fun prev =>
         mkState (data tasksResponse)
           (if success statsResponse then data statsResponse else defaultStats)
           false (error prev)))
    (fun msg =>
       setState (fun prev => mkState (tasks prev) (taskStats prev) false (Some msg))).

(** The optimistic flip of [toggleTaskStatus]. *)
Definition optimistic_flip (i : Z) (ts : list Task) : list Task :=
  map (fun task =>
         if id_is i task
         then mkTask (id task) (title task) (description task)
                (match status task with active => completed | completed => active end)
                (priority task) (due_date task) (created_at task) (updated_at task)
         else task) ts.

(** [prev.tasks.map(task => task.id === id ? response.data : task)] *)
Definition replace_by_id (i : Z) (confirmed : Task) (ts : list Task) : list Task :=
  map (fun task => if id_is i task then confirmed else task) ts.

(** The [catch] block of [toggleTaskStatus]: revert the optimistic update
    by a reload, then record the message. *)
Definition revert_on_error (msg : string) : VM (option Task) :=
  refreshTasks None ;;;
  setState (fun prev =>
    mkState (tasks prev) (taskStats prev) (isLoading prev) (Some msg)) ;;;
  Eff.ret None.

Definition toggleTaskStatus (i : Z) : VM (option Task) :=
  setState (fun prev => mkState (tasks prev) (taskStats prev) (isLoading prev) None) ;;;
  Eff.try_catch
    (setState (fun prev =>
       mkState (optimistic_flip i (tasks prev)) (taskStats prev)
         (isLoading prev) (error prev)) ;;;
     response <- service (TaskService.toggleTaskStatus i) ;;
     match success response, data response with
     | true, Some confirmed =>
         setState (fun prev =>
           mkState (replace_by_id i confirmed (tasks prev)) (taskStats prev)
             (isLoading prev) (error prev)) ;;;
         res <- service TaskService.getTaskStats ;;
         (if success res
          then setState (fun prev =>
                 mkState (tasks prev) (data res) (isLoading prev) (error prev))
          else Eff.ret tt) ;;;
         Eff.ret (Some confirmed)
     | _, _ =>
         Eff.throw (or_string (message response) "Failed to update task status")
     end)
    revert_on_error.

(** The status the cache shows for an id: that of its first entry. *)
Definition cached_status (i : Z) (ts : list Task) : option TaskStatus :=
  option_map status (find (id_is i) ts).

(** A call succeeded when it returned a task rather than [null]. *)
Definition successful (rs : list (option Task)) : nat :=
  List.length (filter (fun r => match r with Some _ => true | None => false end) rs).

End TaskViewModel.

(* ===================================================================== *)
(** ** components/ui/chat-interface.tsx: the registered mutation handler *)
(* ===================================================================== *)

Module ChatInterface.

(** [(action) => { refreshTasks(); }], the callback [handleSubmit] hands to
    [sendMessage]. *)
Definition onTaskAction (action : TaskAction) : TaskViewModel.VM unit :=
  TaskViewModel.refreshTasks None.

End ChatInterface.

(* ===================================================================== *)
(** ** Counting predicates used to state the statistics *)
(* ===================================================================== *)

Module Stats.

Definition is_active (task : Task) : bool := TaskStatus_eqb (status task) active.
Definition is_completed (task : Task) : bool := TaskStatus_eqb (status task) completed.

(** What one task adds to the [overdue] counter in [calculateStats]. *)
Definition counts_overdue (tzone now : Z) (task : Task) : bool :=
  match status task, due_date task with
  | active, Some d =>
      JsDate.setHours0 tzone (JsDate.ofDateOnly d) <? JsDate.setHours0 tzone now
  | _, _ => false
  end.

(** The statement of the specification: an active task whose due date is a
    calendar day strictly before the current local calendar day. *)
Definition due_before_today (tzone now : Z) (task : Task) : bool :=
  match status task, due_date task with
  | active, Some d => d <? JsDate.localDay tzone now
  | _, _ => false
  end.

(** What the code computes west of UTC: due on or before the current day. *)
Definition due_today_or_before (tzone now : Z) (task : Task) : bool :=
  match status task, due_date task with
  | active, Some d => d <=? JsDate.localDay tzone now
  | _, _ => false
  end.

Definition count (p : Task -> bool) (ts : list Task) : Z :=
  Z.of_nat (List.length (filter p ts)).

Definition bump (b : bool) : Z := if b then 1 else 0.

End Stats.

(* ===================================================================== *)
(** ** Vocabulary of the statements about the task cache *)
(* ===================================================================== *)

Module Reconciler.

(** The collection a reload fetches in the world [w]: the [data] of
    [taskService.getTasks()]. *)
Definition authoritative (w : World) : list Task :=
  match TaskService.getTasks None w with
  | (Ok r, _) => data r
  | (Throw _, _) => []
  end.

(** The confirming request of a toggle failed: it threw, or it reported
    [success: false], or it carried no task. *)
Definition rejected (o : Outcome (ApiResponse (option Task))) : Prop :=
  match o with
  | Throw _ => True
  | Ok r => success r = false \/ data r = None
  end.

(** The message the view-model records for a failed confirming request. *)
Definition rejection_message (o : Outcome (ApiResponse (option Task))) : string :=
  match o with
  | Throw e => e
  | Ok r => or_string (message r) "Failed to update task status"
  end.

(** The status [s] after an odd ([true]) or even ([false]) number of flips. *)
Definition xor_status (s : TaskStatus) (odd : bool) : TaskStatus :=
  if odd then TaskService.flip_status s else s.

(** The specification's [applyMutation(intent)] on a cached collection,
    written from the specification's words: create inserts at the head,
    update replaces the entry by id if present, delete removes the entry by
    id, list and filter replace the collection by the provided set. *)
Definition applyMutation_spec (intent : TaskAction) (cache : list Task) : list Task :=
  match intent with
  | ActCreate t => t :: cache
  | ActUpdate t => map (fun x => if id_is (id t) x then t else x) cache
  | ActDelete i => filter (fun x => negb (id_is i x)) cache
  | ActList ts => ts
  | ActFilter ts => ts
  end.

End Reconciler.

(* ===================================================================== *)
(** ** Concrete worlds used in the examples *)
(* ===================================================================== *)

Module Examples.

(** The three tasks MockService starts with (2025-09-28 is day 20359). *)
Definition task1 : Task :=
  mkTask 1 "Review project proposal"
    "Go through the Q4 project proposal and provide feedback"
    active high (Some 20359) 1758794400000 1758794400000.
Definition task2 : Task :=
  mkTask 2 "Buy groceries" "Milk, eggs, bread, and vegetables"
    active medium (Some 20357) 1758792600000 1758792600000.
Definition task3 : Task :=
  mkTask 3 "Call dentist" "Schedule routine cleaning appointment"
    completed low None 1758722400000 1758787200000.

Definition noRemote : Remote := mkRemote [] [] [] [].

(** [task2] as the mock agent leaves it after marking it completed at
    2025-09-26T12:00:00Z. *)
Definition task2_done : Task :=
  MockService.apply_update task2 (mkTaskUpdate None None (Some completed) None None)
    1758888000000.

(** Development mode, just after the agent has completed [task2] in the
    mock store; the cache still shows the three tasks as first loaded. *)
Definition world_after_agent_update : World :=
  mkWorld true [task1; task2_done; task3] 1758888000000 0 noRemote.
Definition cache_before_agent_update : TaskViewModel.State :=
  TaskViewModel.mkState [task1; task2; task3] (mkTaskStats 3 2 1 0) false None.

(** Production mode: the server answers GET /api/tasks/5 with an error and
    still lists task 5 as active. *)
Definition task5 : Task :=
  mkTask 5 "Water the plants" "" active low None 1758794400000 1758794400000.
Definition world_rejecting : World :=
  mkWorld false [task1; task2; task3] 1758888000000 0
    (mkRemote [Ok [task5]] [Throw "HTTP error 500"] [] [Ok (mkTaskStats 1 1 0 0)]).
Definition cache_task5 : TaskViewModel.State :=
  TaskViewModel.mkState [task5] (mkTaskStats 1 1 0 0) false None.

(** Development mode with the three initial tasks in the store and in the
    cache. *)
Definition world_dev : World :=
  mkWorld true [task1; task2; task3]
    1758888000000 0 noRemote.
Definition cache_dev : TaskViewModel.State :=
  TaskViewModel.mkState [task1; task2; task3]
    (mkTaskStats 3 2 1 0) false None.

End Examples.


(* ===================================================================== *)
(** ** models/chat.types.ts *)
(* ===================================================================== *)

Module ChatTypes.

Inductive MessageType := user | agent | system.

Record ChatMessage := mkChatMessage {
  msg_id : string;
  msg_type : MessageType;
  content : string;
  timestamp : Z
}.

Inductive ChatStatus := connected | connecting | disconnected | error.

End ChatTypes.

(* ===================================================================== *)
(** ** services/websocket-service.ts *)
(* ===================================================================== *)

Module WebSocketService.

Import ChatTypes.

(** A browser WebSocket as the service sees it.  [FAILED] is a socket
    whose connection has failed or dropped: its [readyState] already reads
    CLOSED and its close event is still to be dispatched. *)
Inductive Socket := CONNECTING | OPEN | CLOSING | FAILED | CLOSED.

(** A pending [setTimeout(() => this.connect(), delay)]. *)
Record Timer := mkTimer {
  handle : nat;
  delay : Q
}.

Record State := mkState {
  (* fields of the class *)
  ws : option nat;                   (* index of the socket in [sockets] *)
  reconnectAttempts : nat;
  reconnectTimeout : option nat;     (* the remembered timer handle *)
  status : ChatStatus;
  isManualDisconnect : bool;
  (* the browser around it *)
  sockets : list Socket;             (* every socket constructed so far *)
  timers : list Timer;               (* timers set and neither fired nor cleared *)
  nextHandle : nat;                  (* the handle [setTimeout] returns next *)
  urlValid : bool;                   (* [new WebSocket(url)] does not throw *)
  delivered : list ChatStatus;       (* statuses handed to the listeners *)
  sent : list string                 (* frames written to the transport *)
}.

Definition maxReconnectAttempts : nat := 5.

(** Browser timer handles are positive, so a remembered handle is truthy. *)
Definition initial (url_ok : bool) : State :=
  mkState None 0 None disconnected false [] [] 1 url_ok [] [].

Definition socket_at (i : nat) (st : State) : Socket :=
  nth i (sockets st) CLOSED.

(** [ws.readyState === WebSocket.CONNECTING || ... === WebSocket.OPEN] *)
Definition connecting_or_open (s : Socket) : bool :=
  match s with CONNECTING | OPEN => true | _ => false end.

Definition is_open (s : Socket) : bool :=
  match s with OPEN => true | _ => false end.

Fixpoint set_socket (i : nat) (s : Socket) (l : list Socket) : list Socket :=
  match l, i with
  | [], _ => []
  | _ :: rest, O => s :: rest
  | x :: rest, S i' => x :: set_socket i' s rest
  end.

(** [ws.close()]: starts the closing handshake of a live socket, and does
    nothing to one that is closing or closed. *)
Definition close_socket (i : nat) (l : list Socket) : list Socket :=
  match nth i l CLOSED with
  | CONNECTING | OPEN => set_socket i CLOSING l
  | _ => l
  end.

(** [clearTimeout(h)] *)
Definition clear_timer (h : nat) (l : list Timer) : list Timer :=
  filter (fun t => negb (Nat.eqb (handle t) h)) l.

Definition updateStatus (s : ChatStatus) (st : State) : State :=
  mkState (ws st) (reconnectAttempts st) (reconnectTimeout st) s
    (isManualDisconnect st) (sockets st) (timers st) (nextHandle st)
    (urlValid st) (delivered st ++ [s]) (sent st).

Definition isConnected (st : State) : bool :=
  match ws st with
  | Some i => is_open (socket_at i st)
  | None => false
  end.

Definition connect (st : State) : State :=
  if match ws st with
     | Some i => connecting_or_open (socket_at i st)
     | None => false
     end
  then st
  else
    let st1 := updateStatus connecting st in
    if urlValid st1 then
      mkState (Some (List.length (sockets st1))) (reconnectAttempts st1)
        (reconnectTimeout st1) (status st1) (isManualDisconnect st1)
        (sockets st1 ++ [CONNECTING]) (timers st1) (nextHandle st1)
        (urlValid st1) (delivered st1) (sent st1)
    else updateStatus error st1.

Definition disconnect (st : State) : State :=
  let timers1 := match reconnectTimeout st with
                 | Some h => clear_timer h (timers st)
                 | None => timers st
                 end in
  let sockets1 := match ws st with
                  | Some i => close_socket i (sockets st)
                  | None => sockets st
                  end in
  updateStatus disconnected
    (mkState None (reconnectAttempts st) None (status st) true
       sockets1 timers1 (nextHandle st) (urlValid st) (delivered st) (sent st)).

(** [Math.min(1000 * Math.pow(1.5, attempts), 10000)]; for the attempt
    counts the service reaches the floating-point value is exact. *)
Definition backoff (attempts : nat) : Q :=
  Qmin (1000 * (3 # 2) ^ Z.of_nat attempts) 10000.

Definition tryReconnect (st : State) : State :=
  if isManualDisconnect st || (maxReconnectAttempts <=? reconnectAttempts st)%nat
  then st
  else
    let attempts := S (reconnectAttempts st) in
    let d := backoff attempts in
    mkState (ws st) attempts (Some (nextHandle st)) (status st)
      (isManualDisconnect st) (sockets st)
      (timers st ++ [mkTimer (nextHandle st) d]) (S (nextHandle st))
      (urlValid st) (delivered st) (sent st).

(** [ws.send] cannot throw on an open socket, so the inner [catch] of
    [sendMessage] is never entered. *)
Definition sendMessage (content : string) (st : State) : State :=
  if negb (isConnected st)
  then tryReconnect (updateStatus error st)
  else
    mkState (ws st) (reconnectAttempts st) (reconnectTimeout st) (status st)
      (isManualDisconnect st) (sockets st) (timers st) (nextHandle st)
      (urlValid st) (delivered st) (sent st ++ [content]).

Definition handleOpen (st : State) : State :=
  updateStatus connected
    (mkState (ws st) 0 (reconnectTimeout st) (status st) false
       (sockets st) (timers st) (nextHandle st) (urlValid st)
       (delivered st) (sent st)).

Definition handleClose (st : State) : State :=
  let st1 := mkState None (reconnectAttempts st) (reconnectTimeout st) (status st)
               (isManualDisconnect st) (sockets st) (timers st) (nextHandle st)
               (urlValid st) (delivered st) (sent st) in
  if negb (isManualDisconnect st1)
  then tryReconnect (updateStatus disconnected st1)
  else st1.

Definition handleError (st : State) : State :=
  let st1 := updateStatus error st in
  let st2 := match ws st1 with
             | Some i =>
                 mkState None (reconnectAttempts st1) (reconnectTimeout st1)
                   (status st1) (isManualDisconnect st1)
                   (close_socket i (sockets st1)) (timers st1) (nextHandle st1)
                   (urlValid st1) (delivered st1) (sent st1)
             | None => st1
             end in
  if negb (isManualDisconnect st2) then tryReconnect st2 else st2.

(** *** The events that drive the service *)

Inductive Event :=
| CallConnect                      (* a client calls [connect()] *)
| CallDisconnect                   (* a client calls [disconnect()] *)
| CallSend (content : string)      (* a client calls [sendMessage(content)] *)
| SocketOpens (i : nat)            (* socket [i] dispatches [open] *)
| SocketErrors (i : nat)           (* socket [i] dispatches [error] *)
| SocketCloses (i : nat)           (* socket [i] dispatches [close] *)
| TimerFires (h : nat)             (* the timer with handle [h] expires *)
| SocketStartsClosing (i : nat).   (* the closing handshake of socket [i] is
                                      started by the server: its [readyState]
                                      reads CLOSING, no event is dispatched *)

Definition with_sockets (l : list Socket) (st : State) : State :=
  mkState (ws st) (reconnectAttempts st) (reconnectTimeout st) (status st)
    (isManualDisconnect st) l (timers st) (nextHandle st) (urlValid st)
    (delivered st) (sent st).

Definition with_timers (l : list Timer) (st : State) : State :=
  mkState (ws st) (reconnectAttempts st) (reconnectTimeout st) (status st)
    (isManualDisconnect st) (sockets st) l (nextHandle st) (urlValid st)
    (delivered st) (sent st).

Definition pending (h : nat) (st : State) : bool :=
  existsb (fun t => Nat.eqb (handle t) h) (timers st).

(** What the browser may dispatch in a state: [open] on a connecting
    socket, [error] on a socket that has not finished closing, [close] once
    on any socket, only timers that are pending, and the start of a closing
    handshake on an open socket. *)
Definition enabled (e : Event) (st : State) : bool :=
  match e with
  | CallConnect | CallDisconnect | CallSend _ => true
  | SocketOpens i =>
      (i <? List.length (sockets st))%nat &&
      match socket_at i st with CONNECTING => true | _ => false end
  | SocketErrors i =>
      (i <? List.length (sockets st))%nat &&
      match socket_at i st with CONNECTING | OPEN | CLOSING => true | _ => false end
  | SocketCloses i =>
      (i <? List.length (sockets st))%nat &&
      match socket_at i st with CLOSED => false | _ => true end
  | TimerFires h => pending h st
  | SocketStartsClosing i =>
      (i <? List.length (sockets st))%nat &&
      match socket_at i st with OPEN => true | _ => false end
  end.

Definition step (e : Event) (st : State) : State :=
  match e with
  | CallConnect => connect st
  | CallDisconnect => disconnect st
  | CallSend c => sendMessage c st
  | SocketOpens i => handleOpen (with_sockets (set_socket i OPEN (sockets st)) st)
  | SocketErrors i => handleError (with_sockets (set_socket i FAILED (sockets st)) st)
  | SocketCloses i => handleClose (with_sockets (set_socket i CLOSED (sockets st)) st)
  | TimerFires h => connect (with_timers (clear_timer h (timers st)) st)
  | SocketStartsClosing i => with_sockets (set_socket i CLOSING (sockets st)) st
  end.

(** Run a trace, refusing an event that is not enabled. *)
Fixpoint run (trace : list Event) (st : State) : option State :=
  match trace with
  | [] => Some st
  | e :: rest => if enabled e st then run rest (step e st) else None
  end.

Definition reachable (st : State) : Prop :=
  exists url_ok trace, run trace (initial url_ok) = Some st.

Definition is_connect (e : Event) : bool :=
  match e with CallConnect => true | _ => false end.
Definition is_send (e : Event) : bool :=
  match e with CallSend _ => true | _ => false end.

(** The auto-reconnect budget is spent and nothing is left in flight: the
    counter is at its cap, no timer is pending, no socket is alive, and the
    last close left the status at [disconnected]. *)
Definition exhausted (st : State) : Prop :=
  reconnectAttempts st = maxReconnectAttempts /\
  timers st = [] /\
  ws st = None /\
  Forall (fun s => s = CLOSED) (sockets st) /\
  status st = disconnected.

End WebSocketService.

Module ConnectionPolicy.

Import WebSocketService.

(** Handling an event in [st] scheduled exactly one reconnect: a new
    timer, remembered by the service, with the backoff of the incremented
    attempt counter. *)
Definition scheduled_after (st st' : State) : Prop :=
  timers st' = (timers st
                ++ [mkTimer (nextHandle st) (backoff (S (reconnectAttempts st)))])%list /\
  reconnectAttempts st' = S (reconnectAttempts st) /\
  reconnectTimeout st' = Some (nextHandle st) /\
  nextHandle st' = S (nextHandle st).

(** Two states that agree on what the timer bookkeeping reads. *)
Definition same_timers (st s : State) : Prop :=
  timers s = timers st /\ reconnectAttempts s = reconnectAttempts st /\
  nextHandle s = nextHandle st.

(** Handling an event in [st] set no timer and left the counter alone. *)
Definition nothing_scheduled (st st' : State) : Prop :=
  timers st' = timers st /\
  reconnectAttempts st' = reconnectAttempts st /\
  nextHandle st' = nextHandle st.

(** The delay the specification states for the attempt count [attempt]
    read before the increment. *)
Definition backoff_spec (attempt : nat) : Q :=
  Qmin (1000 * (3 # 2) ^ Z.of_nat attempt) 10000.

(** What stays true once the budget is spent, whatever the status. *)
Definition spent (st : State) : Prop :=
  reconnectAttempts st = maxReconnectAttempts /\
  timers st = [] /\
  ws st = None /\
  Forall (fun s => s = CLOSED) (sockets st).

Definition no_connect (trace : list Event) : bool :=
  forallb (fun e => negb (is_connect e)) trace.
Definition no_send (trace : list Event) : bool :=
  forallb (fun e => negb (is_send e)) trace.

(** A transport that closes without an error event, [k] times in a row:
    socket [j] closes and the timer it scheduled fires. *)
Fixpoint closes_and_retries (j k : nat) : list Event :=
  match k with
  | O => []
  | S k' => SocketCloses j :: TimerFires (S j) :: closes_and_retries (S j) k'
  end.

(** [connect()], then five auto-reconnect attempts that all fail. *)
Definition five_failed_attempts : list Event :=
  (CallConnect :: closes_and_retries 0 5 ++ [SocketCloses 5])%list.

(** The same five failures as browsers report a failed connection: each
    socket dispatches [error] and then [close], and every timer that was
    set fires in turn. *)
Fixpoint errors_and_retries (j k : nat) : list Event :=
  match k with
  | O => []
  | S k' => SocketErrors j :: SocketCloses j :: TimerFires (S j)
            :: errors_and_retries (S j) k'
  end.

Definition five_failed_attempts_with_errors : list Event :=
  (CallConnect :: errors_and_retries 0 5 ++ [SocketErrors 5; SocketCloses 5])%list.

Definition state_after (trace : list Event) : State :=
  match run trace (initial true) with
  | Some st => st
  | None => initial true
  end.

(** A connection attempt that fails the way browsers report it: an
    [error] event followed by the [close] event of the same socket. *)
Definition failed_first_connection : list Event :=
  [CallConnect; SocketErrors 0; SocketCloses 0].

End ConnectionPolicy.

(* ===================================================================== *)
(** ** viewmodels/useChatViewModel.ts *)
(* ===================================================================== *)

Module ChatViewModel.

Import ChatTypes.

Record State := mkState {
  messages : list ChatMessage;
  isProcessing : bool;
  connectionStatus : ChatStatus;
  error : option string
}.

(** [DEFAULT_MESSAGES.WELCOME] of lib/constants.ts. *)
Definition WELCOME : string :=
  "👋 Hello! I'm your AI task assistant. How can I help you today? You can ask me to create, update, list, or delete tasks for you.".

Definition welcomeMessage (now : Z) : ChatMessage :=
  mkChatMessage "1" agent WELCOME now.

Definition initialState (now : Z) : State :=
  mkState [welcomeMessage now] false disconnected None.

(** The hook's state together with the singleton [webSocketService]. *)
Definition App : Type := State * WebSocketService.State.

Definition setState (f : State -> State) (app : App) : App :=
  (f (fst app), snd app).

(** [clearMessages()], called when the clock reads [now]. *)
Definition clearMessages (now : Z) (app : App) : App :=
  setState (fun prev =>
    mkState [mkChatMessage "1" agent WELCOME now]
      (isProcessing prev) (connectionStatus prev) None) app.

Definition clearError (app : App) : App :=
  setState (fun prev =>
    mkState (messages prev) (isProcessing prev) (connectionStatus prev) None) app.

End ChatViewModel.

(* ===================================================================== *)
(** ** Vocabulary of the statements about the mock store *)
(* ===================================================================== *)

Module Store.

(** [a] may stand before [b] in the list [getTasks] returns: it was updated
    no earlier. *)
Definition at_least_as_recent (a b : Task) : Prop := updated_at b <= updated_at a.

(** The tasks of a store other than those with the id [i], in order. *)
Definition without (i : Z) (ts : list Task) : list Task :=
  filter (fun t => negb (id_is i t)) ts.

Definition has_id (i : Z) (ts : list Task) : Prop := exists t, In t ts /\ id t = i.

(** An update that names no field: [{}]. *)
Definition noUpdate : TaskUpdate := mkTaskUpdate None None None None None.

End Store.

(* ===================================================================== *)
(** ** services/task-service.ts: [createTask] and [deleteTask] *)
(* ===================================================================== *)

Module TaskServiceCrud.

Local Open Scope eff_scope.

(** The scripted replies of the two remaining endpoints. *)
Record MoreRemote := mkMoreRemote {
  postTaskReplies : list (Outcome (option Task)); (* POST /api/tasks    *)
  deleteTaskReplies : list (Outcome unit)      (* DELETE /api/tasks/:id *)
}.

(** The world of the services together with those replies. *)
Definition XWorld : Type := World * MoreRemote.

Definition base {A} (m : Eff.M World A) : Eff.M XWorld A := Eff.on_fst m.

Definition post_task (taskData : TaskCreate) : Eff.M XWorld (option Task) := fun x =>
  let (o, rest) := next_reply (postTaskReplies (snd x)) in
  (o, (fst x, mkMoreRemote rest (deleteTaskReplies (snd x)))).

Definition delete_task (i : Z) : Eff.M XWorld unit := fun x =>
  let (o, rest) := next_reply (deleteTaskReplies (snd x)) in
  (o, (fst x, mkMoreRemote (postTaskReplies (snd x)) rest)).

Definition createTask (taskData : TaskCreate)
  : Eff.M XWorld (ApiResponse (option Task)) :=
  Eff.try_catch
    (x <- Eff.get ;;
     if useMockData (fst x) then
       d <- base (MockService.createTask taskData) ;;
       Eff.ret (mkApiResponse (Some d) true (Some "Task created successfully"))
     else
       d <- post_task taskData ;;
       Eff.ret (mkApiResponse d true (Some "Task created successfully")))
    (fun error => Eff.ret (mkApiResponse None false (Some error))).

Definition deleteTask (i : Z) : Eff.M XWorld (ApiResponse bool) :=
  Eff.try_catch
    (x <- Eff.get ;;
     if useMockData (fst x) then
       ok <- base (MockService.deleteTask i) ;;
       Eff.ret (mkApiResponse ok true (Some "Task deleted successfully"))
     else
       delete_task i ;;;
       Eff.ret (mkApiResponse true true (Some "Task deleted successfully")))
    (fun error => Eff.ret (mkApiResponse false false (Some error))).

End TaskServiceCrud.

(* ===================================================================== *)
(** ** viewmodels/useTaskViewModel.ts: the other actions *)
(* ===================================================================== *)

Module TaskViewModelCrud.

Import TaskViewModel.
Local Open Scope eff_scope.

Definition VMX (A : Type) : Type := Eff.M (State * TaskServiceCrud.XWorld) A.

Definition setStateX (f : State -> State) : VMX unit := Eff.on_fst (Eff.modify f).
Definition serviceX {A} (m : Eff.M TaskServiceCrud.XWorld A) : VMX A := Eff.on_snd m.

(** [setState(prev => ({ ...prev, isLoading: true, error: null }))] *)
Definition start_loading : VMX unit :=
  setStateX (fun prev => mkState (tasks prev) (taskStats prev) true None).

(** The [catch] block the four actions share. *)
Definition fail_with (msg : string) : VMX unit :=
  setStateX (fun prev => mkState (tasks prev) (taskStats prev) false (Some msg)).

(** [await taskService.getTaskStats().then(res => { if (res.success) ... })] *)
Definition refresh_stats : VMX unit :=
  res <- serviceX (TaskServiceCrud.base TaskService.getTaskStats) ;;
  if success res
  then setStateX (fun prev =>
         mkState (tasks prev) (data res) (isLoading prev) (error prev))
  else Eff.ret tt.

Definition createTask (taskData : TaskCreate) : VMX (option Task) :=
  start_loading ;;;
  Eff.try_catch
    (response <- serviceX (TaskServiceCrud.createTask taskData) ;;
     match success response, data response with
     | true, Some created =>
         setStateX (fun prev =>
           mkState (created :: tasks prev) (taskStats prev) false (error prev)) ;;;
         refresh_stats ;;;
         Eff.ret (Some created)
     | _, _ => Eff.throw (or_string (message response) "Failed to create task")
     end)
    (fun msg => fail_with msg ;;; Eff.ret None).

Definition updateTask (i : Z) (updates : TaskUpdate) : VMX (option Task) :=
  start_loading ;;;
  Eff.try_catch
    (response <- serviceX (TaskServiceCrud.base (TaskService.updateTask i updates)) ;;
     match success response, data response with
     | true, Some updated =>
         setStateX (fun prev =>
           mkState (replace_by_id i updated (tasks prev)) (taskStats prev)
             false (error prev)) ;;;
         refresh_stats ;;;
         Eff.ret (Some updated)
     | _, _ => Eff.throw (or_string (message response) "Failed to update task")
     end)
    (fun msg => fail_with msg ;;; Eff.ret None).

Definition deleteTask (i : Z) : VMX bool :=
  start_loading ;;;
  Eff.try_catch
    (response <- serviceX (TaskServiceCrud.deleteTask i) ;;
     if negb (success response)
     then Eff.throw (or_string (message response) "Failed to delete task")
     else
       setStateX (fun prev =>
         mkState (filter (fun task => negb (id_is i task)) (tasks prev))
           (taskStats prev) false (error prev)) ;;;
       refresh_stats ;;;
       Eff.ret true)
    (fun msg => fail_with msg ;;; Eff.ret false).

Definition filterTasks (filters : TaskFilters) : VMX unit :=
  start_loading ;;;
  Eff.try_catch
    (response <- serviceX (TaskServiceCrud.base (TaskService.getTasks (Some filters))) ;;
     if negb (success response)
     then Eff.throw (or_string (message response) "Failed to filter tasks")
     else
       setStateX (fun prev =>
         mkState (data response) (taskStats prev) false (error prev)))
    (fun msg => fail_with msg).

Definition clearError : VMX unit :=
  setStateX (fun prev => mkState (tasks prev) (taskStats prev) (isLoading prev) None).

(** The world of a fresh development session around a mock store. *)
Definition dev_world (store : list Task) (now : Z) : TaskServiceCrud.XWorld :=
  (mkWorld true store now 0 (mkRemote [] [] [] []),
   TaskServiceCrud.mkMoreRemote [] []).

End TaskViewModelCrud.

Module MoreExamples.

(** Production mode with a server that cannot be reached. *)
Definition world_offline : World :=
  mkWorld false [Examples.task1; Examples.task2; Examples.task3]
    1758888000000 0 Examples.noRemote.

(** A cache that shows task 2 as completed, as the agent left it. *)
Definition cache_task2_done : TaskViewModel.State :=
  TaskViewModel.mkState [Examples.task1; Examples.task2_done; Examples.task3]
    (mkTaskStats 3 1 2 0) false None.

Definition only_completed : TaskFilters := mkTaskFilters (Some completed) None None.

(** A development session around the three initial tasks. *)
Definition xworld_dev : TaskServiceCrud.XWorld :=
  TaskViewModelCrud.dev_world [Examples.task1; Examples.task2; Examples.task3]
    1758888000000.

End MoreExamples.

(* ===================================================================== *)
(** ** Vocabulary of the statements about the connection service *)
(* ===================================================================== *)

Module ConnectionInvariants.

Import WebSocketService.


(** The socket the service holds, if any, exists and has not finished
    closing: it is connecting, open, or closing since the server started
    the closing handshake. *)
Definition current_socket_held (st : State) : Prop :=
  match ws st with
  | Some i =>
      (i < List.length (sockets st))%nat /\
      match socket_at i st with
      | CONNECTING | OPEN | CLOSING => True
      | FAILED | CLOSED => False
      end
  | None => True
  end.

Definition within_budget (st : State) : Prop :=
  (reconnectAttempts st <= maxReconnectAttempts)%nat.




End ConnectionInvariants.

(* ===================================================================== *)
(** ** services/websocket-service.ts: the listener registry *)
(* ===================================================================== *)

Module ChatFrames.

(** [WebSocketMessage]: [payload] is [any] in the source and is given here
    the fields the chat view-model reads from it for each [type]. *)
Inductive WebSocketMessage :=
| ChatFrame (response : string) (actions : option (list TaskAction))
| TaskUpdateFrame (message : string)
| ErrorFrame (message : option string).

End ChatFrames.

Module Subscriptions.

Import ChatTypes ChatFrames.

(** A callback is known by its identity, a number: [cb !== callback]
    compares function values. *)

Record Registry := mkRegistry {
  messageListeners : list nat;
  statusListeners : list nat;
  status : ChatStatus;
  (* what the callbacks have been called with, oldest first *)
  statusCalls : list (nat * ChatStatus);
  messageCalls : list (nat * WebSocketMessage)
}.

Definition is_not (cb : nat) (other : nat) : bool := negb (Nat.eqb other cb).

(** [onMessage(callback)] *)
Definition onMessage (cb : nat) (r : Registry) : Registry :=
  mkRegistry (messageListeners r ++ [cb]) (statusListeners r) (status r)
    (statusCalls r) (messageCalls r).

(** The function [onMessage(callback)] returns, applied later. *)
Definition unsubscribeMessage (cb : nat) (r : Registry) : Registry :=
  mkRegistry (filter (is_not cb) (messageListeners r)) (statusListeners r) (status r)
    (statusCalls r) (messageCalls r).

(** [onStatusChange(callback)]: registers, then calls back at once. *)
Definition onStatusChange (cb : nat) (r : Registry) : Registry :=
  mkRegistry (messageListeners r) (statusListeners r ++ [cb]) (status r)
    (statusCalls r ++ [(cb, status r)]) (messageCalls r).

Definition unsubscribeStatus (cb : nat) (r : Registry) : Registry :=
  mkRegistry (messageListeners r) (filter (is_not cb) (statusListeners r)) (status r)
    (statusCalls r) (messageCalls r).

Definition updateStatus (s : ChatStatus) (r : Registry) : Registry :=
  mkRegistry (messageListeners r) (statusListeners r) s
    (statusCalls r ++ map (fun listener => (listener, s)) (statusListeners r))
    (messageCalls r).

(** [handleMessage(event)]: [parsed] is what [JSON.parse(event.data)] gives,
    [None] when it throws; the listeners return normally. *)
Definition handleMessage (parsed : option WebSocketMessage) (r : Registry) : Registry :=
  match parsed with
  | Some data =>
      mkRegistry (messageListeners r) (statusListeners r) (status r) (statusCalls r)
        (messageCalls r ++ map (fun listener => (listener, data)) (messageListeners r))
  | None => r
  end.

(** What a callback has been called with, in order. *)
Definition statuses_seen (cb : nat) (r : Registry) : list ChatStatus :=
  map snd (filter (fun c => Nat.eqb (fst c) cb) (statusCalls r)).
Definition frames_seen (cb : nat) (r : Registry) : list WebSocketMessage :=
  map snd (filter (fun c => Nat.eqb (fst c) cb) (messageCalls r)).

Definition updates (ss : list ChatStatus) (r : Registry) : Registry :=
  fold_left (fun acc s => updateStatus s acc) ss r.
Definition arrivals (ds : list (option WebSocketMessage)) (r : Registry) : Registry :=
  fold_left (fun acc d => handleMessage d acc) ds r.

(** The frames among the arrivals that parsed. *)
Fixpoint parsed_frames (ds : list (option WebSocketMessage)) : list WebSocketMessage :=
  match ds with
  | [] => []
  | Some m :: rest => m :: parsed_frames rest
  | None :: rest => parsed_frames rest
  end.

End Subscriptions.

(* ===================================================================== *)
(** ** Calls of [toggleTaskStatus] that overlap *)
(* ===================================================================== *)

(** The task item calls [onToggleStatus(task.id)] without awaiting the
    promise and without disabling the button, so a call may start while
    earlier ones are suspended.  This module follows the calls of the
    view-model's [toggleTaskStatus] in development mode between their
    suspension points: every [await] that suspends a call is a
    [setTimeout] of the mock service, and what a call does between two of
    them runs to completion. *)

Module TogglesInFlight.

(** Where a call is suspended. *)
Inductive Suspended :=
| InGetTask                            (* getTask: mockService.getTasks(), 300 ms *)
| InUpdateTask (newStatus : TaskStatus)  (* mockService.updateTask, 400 ms *)
| InGetStats (confirmed : Task)        (* getTaskStats: mockService.getTasks(), 300 ms *)
| InReloadTasks (msg : string)         (* catch, refreshTasks: getTasks, 300 ms *)
| InReloadStats (msg : string) (loaded : list Task).  (* refreshTasks: getTaskStats *)

Record Call := mkCall {
  target : Z;                (* the id the call was made with *)
  wakeAt : Z;                (* when its timer fires *)
  suspended : Suspended
}.

Record Session := mkSession {
  view : TaskViewModel.State;
  world : World;
  inflight : list Call;              (* the suspended calls, oldest first *)
  returned : list (option Task)      (* what the calls returned, in order of return *)
}.

(** [toggleTaskStatus(i)] is called at the instant [t] and runs up to its
    first suspension: the error is cleared, the cache is flipped, and the
    confirming request waits in [getTask]. *)
Definition start (t i : Z) (s : Session) : Session :=
  let v := view s in
  mkSession
    (TaskViewModel.mkState (TaskViewModel.optimistic_flip i (TaskViewModel.tasks v))
       (TaskViewModel.taskStats v) (TaskViewModel.isLoading v) None)
    (set_clock t (world s))
    (inflight s ++ [mkCall i (t + 300) InGetTask])
    (returned s).

(** The confirming request has failed: the [catch] block calls
    [refreshTasks()], which sets [isLoading], clears the error and waits in
    [getTasks]. *)
Definition begin_reload (v : TaskViewModel.State) : TaskViewModel.State :=
  TaskViewModel.mkState (TaskViewModel.tasks v) (TaskViewModel.taskStats v) true None.

Inductive Next :=
| Continue (c : Call)
| Return (r : option Task).

(** The timer of the call [c] fires: the call runs up to its next
    suspension, or returns. *)
Definition resume (c : Call) (v : TaskViewModel.State) (w0 : World)
  : TaskViewModel.State * World * Next :=
  let now := wakeAt c in
  let w := set_clock now w0 in
  let i := target c in
  match suspended c with
  | InGetTask =>
      match find (id_is i) (MockService.sort_by_updated (mockTasks w)) with
      | Some currentTask =>
          let newStatus := TaskService.flip_status (status currentTask) in
          (v, w, Continue (mkCall i (now + 400) (InUpdateTask newStatus)))
      | None =>
          (begin_reload v, w, Continue (mkCall i (now + 300) (InReloadTasks "Task not found")))
      end
  | InUpdateTask newStatus =>
      match MockService.findIndex i (mockTasks w) with
      | Some taskIndex =>
          let updates := mkTaskUpdate None None (Some newStatus) None None in
          let ts' := MockService.update_at taskIndex
                       (fun old => MockService.apply_update old updates now)
                       (mockTasks w) in
          match nth_error ts' taskIndex with
          | Some confirmed =>
              (TaskViewModel.mkState
                 (TaskViewModel.replace_by_id i confirmed (TaskViewModel.tasks v))
                 (TaskViewModel.taskStats v) (TaskViewModel.isLoading v)
                 (TaskViewModel.error v),
               set_tasks ts' w,
               Continue (mkCall i (now + 300) (InGetStats confirmed)))
          | None =>
              (begin_reload v, set_tasks ts' w,
               Continue (mkCall i (now + 300) (InReloadTasks "Task updated successfully")))
          end
      | None =>
          (begin_reload v, w, Continue (mkCall i (now + 300) (InReloadTasks "Task not found")))
      end
  | InGetStats confirmed =>
      let stats := TaskService.calculateStats (tz w) now
                     (MockService.sort_by_updated (mockTasks w)) in
      (TaskViewModel.mkState (TaskViewModel.tasks v) stats (TaskViewModel.isLoading v)
         (TaskViewModel.error v),
       w, Return (Some confirmed))
  | InReloadTasks msg =>
      (v, w,
       Continue (mkCall i (now + 300)
                   (InReloadStats msg (MockService.sort_by_updated (mockTasks w)))))
  | InReloadStats msg loaded =>
      let stats := TaskService.calculateStats (tz w) now
                     (MockService.sort_by_updated (mockTasks w)) in
      (TaskViewModel.mkState loaded stats false (Some msg), w, Return None)
  end.

Inductive Event :=
| Click (t : Z) (i : Z)     (* the user toggles task [i] at the instant [t] *)
| Resume (k : nat).         (* the timer of the suspended call number [k] fires *)

Fixpoint put_call (k : nat) (n : Next) (l : list Call) : list Call :=
  match l, k with
  | [], _ => []
  | _ :: rest, O => match n with Continue c => c :: rest | Return _ => rest end
  | x :: rest, S k' => x :: put_call k' n rest
  end.

(** Time does not run backwards and timers fire in the order of their
    deadlines: a click comes before every pending deadline, and the call
    that resumes has the earliest one. *)
Definition enabled (e : Event) (s : Session) : bool :=
  match e with
  | Click t _ =>
      (clock (world s) <=? t) && forallb (fun c => t <? wakeAt c) (inflight s)
  | Resume k =>
      match nth_error (inflight s) k with
      | Some c => forallb (fun d => wakeAt c <=? wakeAt d) (inflight s)
      | None => false
      end
  end.

Definition step (e : Event) (s : Session) : Session :=
  match e with
  | Click t i => start t i s
  | Resume k =>
      match nth_error (inflight s) k with
      | Some c =>
          match resume c (view s) (world s) with
          | (v, w, n) =>
              mkSession v w (put_call k n (inflight s))
                match n with
                | Return r => (returned s ++ [r])%list
                | Continue _ => returned s
                end
          end
      | None => s
      end
  end.

Fixpoint run (trace : list Event) (s : Session) : option Session :=
  match trace with
  | [] => Some s
  | e :: rest => if enabled e s then run rest (step e s) else None
  end.

(** The page with no call in flight. *)
Definition idle (v : TaskViewModel.State) (w : World) : Session :=
  mkSession v w [] [].

Definition clicks (trace : list Event) : nat :=
  List.length (filter (fun e => match e with Click _ _ => true | Resume _ => false end)
                 trace).

Definition clicks_on (i : Z) (trace : list Event) : bool :=
  forallb (fun e => match e with Click _ j => Z.eqb j i | Resume _ => true end) trace.

(** One call that runs alone, from the click to its return. *)
Definition alone (t i : Z) : list Event := [Click t i; Resume 0; Resume 0; Resume 0].

(** Calls on [i] at the instants [times], each of which has returned
    before the next one starts. *)
Definition awaited (i : Z) (times : list Z) : list Event :=
  flat_map (fun t => alone t i) times.

(** The click instants leave each call the second it takes. *)
Fixpoint spaced (from : Z) (times : list Z) : Prop :=
  match times with
  | [] => True
  | t :: rest => from <= t /\ spaced (t + 1000) rest
  end.

Definition is_some (r : option Task) : bool :=
  match r with Some _ => true | None => false end.

(** The call has written the store and the cache and is waiting for the
    statistics. *)
Definition has_written (c : Call) : bool :=
  match suspended c with InGetStats _ => true | _ => false end.

(** The calls in flight are calls on [i] that found the task. *)
Definition on_found_task (i : Z) (c : Call) : Prop :=
  target c = i /\
  match suspended c with
  | InGetTask | InUpdateTask _ => True
  | InGetStats confirmed => id confirmed = i
  | InReloadTasks _ | InReloadStats _ _ => False
  end.

(** The cache [ts] is the cache [ts0] up to its entries with the id [i]. *)
Definition same_but (i : Z) (ts ts0 : list Task) : Prop :=
  Forall2 (fun a b => if id_is i b then id a = i else a = b) ts ts0.

(** What holds while calls on the stored task [i] are in flight, for a
    cache that was [ts0] when the first of them started. *)
Definition settling (i : Z) (ts0 : list Task) (s : Session) : Prop :=
  useMockData (world s) = true /\
  NoDup (map id (mockTasks (world s))) /\
  (exists stored, find (id_is i) (mockTasks (world s)) = Some stored) /\
  Forall (on_found_task i) (inflight s) /\
  forallb is_some (returned s) = true /\
  same_but i (TaskViewModel.tasks (view s)) ts0 /\
  (forallb has_written (inflight s) = true ->
   (returned s = [] /\ inflight s = []) \/
   exists stored, find (id_is i) (mockTasks (world s)) = Some stored /\
     TaskViewModel.tasks (view s) = TaskViewModel.replace_by_id i stored ts0).

(** The session a trace leads to. *)
Definition session_after (trace : list Event) (s : Session) : Session :=
  match run trace s with
  | Some s' => s'
  | None => s
  end.

(** Two clicks on the checkbox of task [i], 100 ms apart: the second call
    starts while the first is suspended in [getTask], and the two calls
    then take turns. *)
Definition double_click (t i : Z) : list Event :=
  [Click t i; Click (t + 100) i;
   Resume 0; Resume 1;      (* both read the task: at t+300 and t+400 *)
   Resume 0; Resume 1;      (* both write it: at t+700 and t+800 *)
   Resume 0; Resume 0].     (* both return: at t+1000 and t+1100 *)

End TogglesInFlight.

(* ===================================================================== *)
(** ** What the answers of the task service can look like *)
(* ===================================================================== *)

Module ServiceAnswers.


(** The task a view-model action takes from the answer of the service:
    [!response.success || !response.data] rejects everything else. *)
Definition accepted_task (o : Outcome (ApiResponse (option Task))) : option Task :=
  match o with
  | Ok r => if success r then data r else None
  | Throw _ => None
  end.

(** [deleteTask] looks at [response.success] only. *)
Definition accepted_delete (o : Outcome (ApiResponse bool)) : bool :=
  match o with
  | Ok r => success r
  | Throw _ => false
  end.

(** The message a view-model action records when it rejects the answer:
    [response.message || fallback], or the message of what was thrown. *)
Definition failure_text {A} (fallback : string) (o : Outcome (ApiResponse A)) : string :=
  match o with
  | Ok r => or_string (message r) fallback
  | Throw e => e
  end.


End ServiceAnswers.

(* ===================================================================== *)
(** ** viewmodels/useChatViewModel.ts: the two socket handlers *)
(* ===================================================================== *)

Module ChatHandlers.

Import ChatTypes ChatFrames.

(** [DEFAULT_MESSAGES] of lib/constants.ts. *)
Definition ERROR : string :=
  "I'm sorry, there was an error processing your request. Please try again.".
Definition CONNECTION_ERROR : string :=
  "Connection error. The server may be unavailable. Please try again later.".

(** The hook: its React state, [taskActionCallbackRef.current] (a callback is
    known by its identity) and what that callback has been called with. *)
Record Hook := mkHook {
  state : ChatViewModel.State;
  taskActionCallbackRef : option nat;
  actionCalls : list (nat * TaskAction)
}.

Definition setState (f : ChatViewModel.State -> ChatViewModel.State) (h : Hook) : Hook :=
  mkHook (f (state h)) (taskActionCallbackRef h) (actionCalls h).

(** [setState(prev => ({ ...prev, messages: [...prev.messages, m] }))] *)
Definition push (m : ChatMessage) (prev : ChatViewModel.State) : ChatViewModel.State :=
  ChatViewModel.mkState (ChatViewModel.messages prev ++ [m])
    (ChatViewModel.isProcessing prev) (ChatViewModel.connectionStatus prev)
    (ChatViewModel.error prev).

(** [if (ref.current && actions && actions.length > 0) actions.forEach(...)];
    the callback itself does not touch the hook (chat-interface.tsx passes
    one that reloads the tasks). *)
Definition run_actions (actions : option (list TaskAction)) (h : Hook) : Hook :=
  match taskActionCallbackRef h, actions with
  | Some cb, Some (a :: rest) =>
      mkHook (state h) (taskActionCallbackRef h)
        (actionCalls h ++ map (fun action => (cb, action)) (a :: rest))
  | _, _ => h
  end.

(** [handleWebSocketMessage(wsMessage)]; [id] is what [generateId()] returns
    and [now] what the clock reads. *)
Definition handleWebSocketMessage (id : string) (now : Z) (wsMessage : WebSocketMessage)
    (h : Hook) : Hook :=
  match wsMessage with
  | ChatFrame response actions =>
      let agentMessage := mkChatMessage id agent response now in
      let h1 := setState (fun prev =>
                  ChatViewModel.mkState (ChatViewModel.messages prev ++ [agentMessage])
                    false (ChatViewModel.connectionStatus prev)
                    (ChatViewModel.error prev)) h in
      run_actions actions h1
  | TaskUpdateFrame message =>
      let taskUpdateMessage :=
        mkChatMessage id agent ("Task updated: " ++ message) now in
      setState (push taskUpdateMessage) h
  | ErrorFrame message =>
      let h1 := setState (fun prev =>
                  ChatViewModel.mkState (ChatViewModel.messages prev) false
                    (ChatViewModel.connectionStatus prev)
                    (Some (or_string message ERROR))) h in
      let errorMessage := mkChatMessage id agent (or_string message ERROR) now in
      setState (push errorMessage) h1
  end.

(** [handleStatusChange(status)] *)
Definition handleStatusChange (s : ChatStatus) (h : Hook) : Hook :=
  let h1 := setState (fun prev =>
              ChatViewModel.mkState (ChatViewModel.messages prev)
                (ChatViewModel.isProcessing prev) s (ChatViewModel.error prev)) h in
  match s with
  | ChatTypes.error | disconnected =>
      setState (fun prev =>
        ChatViewModel.mkState (ChatViewModel.messages prev) false
          (ChatViewModel.connectionStatus prev)
          (match s with
           | ChatTypes.error => Some CONNECTION_ERROR
           | _ => None
           end)) h1
  | _ => h1
  end.

(** What the socket hands to the hook, in order. *)
Inductive Delivery :=
| Frame (id : string) (now : Z) (wsMessage : WebSocketMessage)
| Status (s : ChatStatus).

Definition deliver (d : Delivery) (h : Hook) : Hook :=
  match d with
  | Frame id now m => handleWebSocketMessage id now m h
  | Status s => handleStatusChange s h
  end.

Definition deliver_all (ds : list Delivery) (h : Hook) : Hook :=
  fold_left (fun acc d => deliver d acc) ds h.

Definition deliver_statuses (ss : list ChatStatus) (h : Hook) : Hook :=
  deliver_all (map Status ss) h.

(** The chat bubble a frame is shown as. *)
Definition bubble (id : string) (now : Z) (m : WebSocketMessage) : ChatMessage :=
  mkChatMessage id agent
    match m with
    | ChatFrame response _ => response
    | TaskUpdateFrame message => "Task updated: " ++ message
    | ErrorFrame message => or_string message ERROR
    end
    now.

Fixpoint bubbles (ds : list Delivery) : list ChatMessage :=
  match ds with
  | [] => []
  | Frame id now m :: rest => bubble id now m :: bubbles rest
  | Status _ :: rest => bubbles rest
  end.

(** The agent actions the deliveries carry, in order. *)
Fixpoint carried_actions (ds : list Delivery) : list TaskAction :=
  match ds with
  | [] => []
  | Frame _ _ (ChatFrame _ (Some actions)) :: rest => actions ++ carried_actions rest
  | _ :: rest => carried_actions rest
  end.

End ChatHandlers.

(* ===================================================================== *)
(** ** websocket-service.ts: traces in which no socket opens *)
(* ===================================================================== *)

Module ManualFlag.

Import WebSocketService.

Definition is_open_event (e : Event) : bool :=
  match e with SocketOpens _ => true | _ => false end.
Definition no_open (trace : list Event) : bool :=
  forallb (fun e => negb (is_open_event e)) trace.

End ManualFlag.

(* ===================================================================== *)
(** ** lib/clsx-utils.ts *)
(* ===================================================================== *)

Module Clsx.

(** [ClassValue].  A number is given by the text [' ' + n] appends for it;
    an object by its own enumerable keys in [for...in] order, each with the
    truthiness of its value. *)
#[local] Set Warnings "-register-all".
Inductive ClassValue :=
| CString (s : string)
| CNumber (shown : string)
| CBoolean (b : bool)
| CUndefined
| CNull
| CObject (entries : list (string * bool))
| CArray (items : list ClassValue).

(** [classes.substring(1)] *)
Definition substring1 (s : string) : string :=
  match s with
  | EmptyString => ""
  | String _ rest => rest
  end.

(** [classes] after a loop that appends the pieces one by one. *)
Definition appended_all (pieces : list string) : string :=
  fold_right String.append "" pieces.

(** What one turn of the loop of [clsx] appends to [classes]. *)
Fixpoint appended (input : ClassValue) : string :=
  match input with
  | CString s => " " ++ s
  | CNumber shown => " " ++ shown
  | CArray items => " " ++ substring1 (appended_all (map appended items))
  | CObject entries =>
      appended_all
        (map (fun e : string * bool => if snd e then " " ++ fst e else "") entries)
  | CBoolean _ | CUndefined | CNull => ""
  end.

Definition clsx (inputs : list ClassValue) : string :=
  substring1 (appended_all (map appended inputs)).

(** The class names an input stands for: an array is one name, the result
    of [clsx] on its items. *)
Definition tokens (input : ClassValue) : list string :=
  match input with
  | CString s => [s]
  | CNumber shown => [shown]
  | CArray items => [clsx items]
  | CObject entries => map fst (filter (fun e : string * bool => snd e) entries)
  | CBoolean _ | CUndefined | CNull => []
  end.

End Clsx.

(* ===================================================================== *)
(** ** useThemeViewModel *)
(* ===================================================================== *)

Module ThemeViewModel.

(** [THEME_SETTINGS] of lib/constants.ts. *)
Definition DARK : string := "dark".
Definition LIGHT : string := "light".

(** The browser as the hook sees it. *)
Record Browser := mkBrowser {
  storedTheme : option string;   (* localStorage.getItem(LOCAL_STORAGE_KEYS.THEME) *)
  systemDark : bool;             (* matchMedia('(prefers-color-scheme: dark)').matches *)
  domDark : bool;                (* documentElement.classList.contains('dark') *)
  listening : bool               (* the hook's 'change' handler is registered *)
}.

Record State := mkState {
  isDark : bool;
  isLoading : bool
}.

Definition Hook : Type := State * Browser.

Definition theme_name (dark : bool) : string := if dark then DARK else LIGHT.

Definition checkUserColorScheme (b : Browser) : bool :=
  match storedTheme b with
  | Some s =>
      if String.eqb s DARK then true
      else if String.eqb s LIGHT then false
      else systemDark b
  | None => systemDark b
  end.

(** [classList.add('dark')] or [classList.remove('dark')] *)
Definition set_dom (dark : bool) (b : Browser) : Browser :=
  mkBrowser (storedTheme b) (systemDark b) dark (listening b).
Definition set_stored (v : option string) (b : Browser) : Browser :=
  mkBrowser v (systemDark b) (domDark b) (listening b).

Definition toggleTheme (h : Hook) : Hook :=
  let newIsDark := negb (isDark (fst h)) in
  let b1 := set_dom newIsDark (snd h) in
  (mkState newIsDark (isLoading (fst h)),
   set_stored (Some (theme_name newIsDark)) b1).

Definition setTheme (dark : bool) (h : Hook) : Hook :=
  let b1 := set_dom dark (snd h) in
  (mkState dark (isLoading (fst h)), set_stored (Some (theme_name dark)) b1).

Definition resetTheme (h : Hook) : Hook :=
  let systemPrefersDark := systemDark (snd h) in
  let b1 := set_dom systemPrefersDark (snd h) in
  (mkState systemPrefersDark (isLoading (fst h)), set_stored None b1).

(** [!storedTheme]: nothing stored, or the empty string. *)
Definition nothing_stored (b : Browser) : bool :=
  match storedTheme b with
  | Some s => String.eqb s ""
  | None => true
  end.

(** The mount effect, run once on a page whose browser is [b]. *)
Definition mount (b : Browser) : Hook :=
  let prefersDark := checkUserColorScheme b in
  let b1 := set_dom prefersDark b in
  (mkState prefersDark false,
   mkBrowser (storedTheme b1) (systemDark b1) (domDark b1) (nothing_stored b1)).

(** The system preference changes to [matches]: the media query dispatches
    'change', which runs [handleChange] if it is registered. *)
Definition systemChanges (matches : bool) (h : Hook) : Hook :=
  let h1 := (fst h, mkBrowser (storedTheme (snd h)) matches (domDark (snd h))
                      (listening (snd h))) in
  if listening (snd h1) then setTheme matches h1 else h1.

Inductive Event :=
| Toggle
| SetTheme (dark : bool)
| Reset
| SystemChanges (matches : bool).

Definition step (e : Event) (h : Hook) : Hook :=
  match e with
  | Toggle => toggleTheme h
  | SetTheme dark => setTheme dark h
  | Reset => resetTheme h
  | SystemChanges m => systemChanges m h
  end.

Definition run (es : list Event) (h : Hook) : Hook :=
  fold_left (fun acc e => step e acc) es h.

(** The page is closed and opened again: the browser keeps its storage and
    its system preference, the hook starts afresh. *)
Definition reload (h : Hook) : Hook := mount (snd h).

(** What holds of the hook between two events, once it is mounted. *)
Definition theme_in_sync (h : Hook) : Prop :=
  domDark (snd h) = isDark (fst h) /\
  isLoading (fst h) = false /\
  (storedTheme (snd h) = Some DARK -> isDark (fst h) = true) /\
  (storedTheme (snd h) = Some LIGHT -> isDark (fst h) = false).

(** *** Several hooks on one page

    Every component that calls [useThemeViewModel] (the layout and the theme
    toggle both do) has a React state and a 'change' handler of its own; the
    document, the storage and the system preference are shared. *)

Record Instance := mkInstance {
  hook_state : State;
  hook_listening : bool
}.

Record Page := mkPage {
  instances : list Instance;
  page_stored : option string;
  page_system : bool;
  page_dom : bool
}.

(** The page as the hook [inst] sees it. *)
Definition view (p : Page) (inst : Instance) : Hook :=
  (hook_state inst,
   mkBrowser (page_stored p) (page_system p) (page_dom p) (hook_listening inst)).

Fixpoint set_instance (k : nat) (inst : Instance) (l : list Instance) : list Instance :=
  match l, k with
  | [], _ => []
  | _ :: rest, O => inst :: rest
  | x :: rest, S k' => x :: set_instance k' inst rest
  end.

(** The hook number [k] runs [f]: its own state changes, and what [f] does
    to the document and the storage is seen by all. *)
Definition on_instance (k : nat) (f : Hook -> Hook) (p : Page) : Page :=
  match nth_error (instances p) k with
  | Some inst =>
      let h := f (view p inst) in
      mkPage (set_instance k (mkInstance (fst h) (listening (snd h))) (instances p))
        (storedTheme (snd h)) (systemDark (snd h)) (domDark (snd h))
  | None => p
  end.

(** One more component mounts: its mount effect runs on the shared page. *)
Definition mount_one (p : Page) : Page :=
  let h := mount (mkBrowser (page_stored p) (page_system p) (page_dom p) false) in
  mkPage (instances p ++ [mkInstance (fst h) (listening (snd h))])
    (storedTheme (snd h)) (systemDark (snd h)) (domDark (snd h)).

(** A page on which [n] components use the hook, opened in the browser [b]. *)
Definition open_page (n : nat) (b : Browser) : Page :=
  Nat.iter n mount_one (mkPage [] (storedTheme b) (systemDark b) (domDark b)).

Inductive PageEvent :=
| ToggleOn (k : nat)                    (* [toggleTheme()] of hook [k] *)
| SetThemeOn (k : nat) (dark : bool)    (* [setTheme(dark)] of hook [k] *)
| ResetOn (k : nat)                     (* [resetTheme()] of hook [k] *)
| SystemChangesTo (matches : bool).     (* the media query dispatches 'change' *)

(** The registered handlers run in turn, hook [0] first. *)
Fixpoint dispatch_change (matches : bool) (k : nat) (p : Page) : Page :=
  match k with
  | O => p
  | S k' =>
      on_instance k' (fun h => if listening (snd h) then setTheme matches h else h)
        (dispatch_change matches k' p)
  end.

Definition page_step (e : PageEvent) (p : Page) : Page :=
  match e with
  | ToggleOn k => on_instance k toggleTheme p
  | SetThemeOn k dark => on_instance k (setTheme dark) p
  | ResetOn k => on_instance k resetTheme p
  | SystemChangesTo m =>
      dispatch_change m (List.length (instances p))
        (mkPage (instances p) (page_stored p) m (page_dom p))
  end.

Definition page_run (es : list PageEvent) (p : Page) : Page :=
  fold_left (fun acc e => page_step e acc) es p.

(** The page is closed and opened again with as many hooks. *)
Definition page_reload (p : Page) : Page :=
  open_page (List.length (instances p))
    (mkBrowser (page_stored p) (page_system p) (page_dom p) false).

(** What holds of a page between two events. *)
Definition page_in_sync (p : Page) : Prop :=
  Forall (fun inst => isLoading (hook_state inst) = false) (instances p) /\
  (page_stored p = Some DARK -> page_dom p = true) /\
  (page_stored p = Some LIGHT -> page_dom p = false).

(** What every action of the hook does to the page it runs on: it keeps
    [isLoading], keeps a stored preference in step with the document, and
    leaves the acting hook in step with the document. *)
Definition keeps_page_in_sync (f : Hook -> Hook) : Prop :=
  forall h,
    isLoading (fst (f h)) = isLoading (fst h) /\
    ((storedTheme (snd h) = Some DARK -> domDark (snd h) = true) ->
     (storedTheme (snd h) = Some LIGHT -> domDark (snd h) = false) ->
     (storedTheme (snd (f h)) = Some DARK -> domDark (snd (f h)) = true) /\
     (storedTheme (snd (f h)) = Some LIGHT -> domDark (snd (f h)) = false)) /\
    (domDark (snd h) = isDark (fst h) -> domDark (snd (f h)) = isDark (fst (f h))).

(** All the hooks of the page show the theme of the document. *)
Definition all_agree (p : Page) : Prop :=
  Forall (fun inst => isDark (hook_state inst) = page_dom p) (instances p).

End ThemeViewModel.

(* ===================================================================== *)
(** ** services/api.ts: fetchWithErrorHandling *)
(* ===================================================================== *)

From Stdlib Require DecimalString.

Module ApiFetch.

Section Fetch.

(** Parsed JSON; [message_of j] is [j.message], which throws when [j] is
    [null]; [empty_object] is [{}]. *)
Variable Json : Type.
Variable message_of : Json -> Outcome (option string).
Variable empty_object : Json.

Record Response := mkResponse {
  ok : bool;
  http_status : Z;
  content_type : option string;     (* response.headers.get('content-type') *)
  json : Outcome Json               (* what [await response.json()] gives *)
}.

(** [`${response.status}`] for a status code. *)
Definition show_status (n : Z) : string :=
  DecimalString.NilZero.string_of_int (Z.to_int n).

(** [s.includes(sub)] *)
Definition includes (s sub : string) : bool :=
  match String.index 0 sub s with
  | Some _ => true
  | None => false
  end.

(** [fetched] is what [await fetch(fullUrl, ...)] gives. *)
Definition fetchWithErrorHandling (fetched : Outcome Response) : Outcome Json :=
  match fetched with
  | Throw e => Throw e
  | Ok response =>
      if negb (ok response) then
        let tried : Outcome Json :=
          match json response with
          | Ok errorData =>
              match message_of errorData with
              | Ok m =>
                  Throw (or_string m ("HTTP error " ++ show_status (http_status response)))
              | Throw e => Throw e
              end
          | Throw e => Throw e
          end in
        match tried with
        | Ok v => Ok v
        | Throw jsonError => Throw ("HTTP error " ++ show_status (http_status response))
        end
      else
        match content_type response with
        | Some contentType =>
            if negb (String.eqb contentType "")
               && includes contentType "application/json"
            then json response
            else Ok empty_object
        | None => Ok empty_object
        end
  end.

End Fetch.

End ApiFetch.

(* ===================================================================== *)
(** ** components/ui/task-list.tsx: the tasks the list shows *)
(* ===================================================================== *)

Module TaskList.

Inductive SortBy := by_priority | by_due_date | by_created_at.

(** [tasks.filter(...)]; [None] is the filter value ['all']. *)
Definition filteredTasks (statusFilter : option TaskStatus)
    (priorityFilter : option TaskPriority) (tasks : list Task) : list Task :=
  filter (fun task =>
    match statusFilter with
    | Some s => TaskStatus_eqb (status task) s
    | None => true
    end &&
    match priorityFilter with
    | Some p => TaskPriority_eqb (priority task) p
    | None => true
    end) tasks.

Definition priorityOrder (p : TaskPriority) : Z :=
  match p with high => 0 | medium => 1 | low => 2 end.

(** The comparator handed to [sort]. *)
Definition compare (sortBy : SortBy) (a b : Task) : Z :=
  match sortBy with
  | by_priority => priorityOrder (priority a) - priorityOrder (priority b)
  | by_due_date =>
      match due_date a, due_date b with
      | None, None => 0
      | None, Some _ => 1
      | Some _, None => -1
      | Some da, Some db => JsDate.ofDateOnly da - JsDate.ofDateOnly db
      end
  | by_created_at => created_at b - created_at a
  end.

(** [Array.prototype.sort] is stable: an element moves behind an earlier
    one only if the comparator puts it strictly after. *)
Fixpoint insert_with (cmp : Task -> Task -> Z) (t : Task) (sorted : list Task)
  : list Task :=
  match sorted with
  | [] => [t]
  | x :: rest =>
      if cmp t x >? 0 then x :: insert_with cmp t rest else t :: sorted
  end.

Definition sort_with (cmp : Task -> Task -> Z) (ts : list Task) : list Task :=
  fold_right (insert_with cmp) [] ts.

Definition sortedTasks (sortBy : SortBy) (statusFilter : option TaskStatus)
    (priorityFilter : option TaskPriority) (tasks : list Task) : list Task :=
  sort_with (compare sortBy) (filteredTasks statusFilter priorityFilter tasks).

Definition has_priority (p : TaskPriority) (t : Task) : bool :=
  TaskPriority_eqb (priority t) p.

End TaskList.

(* ===================================================================== *)
(** ** components/ui/task-item.tsx: the delete button *)
(* ===================================================================== *)

Module TaskItem.

Record Item := mkItem {
  confirmDelete : bool;
  deleteCalls : nat;        (* calls of [onDelete(task.id)] so far *)
  resetTimers : nat         (* pending [setTimeout(..., 3000)] *)
}.

Definition initial : Item := mkItem false 0 0.

Definition handleDelete (it : Item) : Item :=
  if confirmDelete it
  then mkItem false (S (deleteCalls it)) (resetTimers it)
  else mkItem true (deleteCalls it) (S (resetTimers it)).

(** One of the pending timers runs [setConfirmDelete(false)]. *)
Definition timerFires (it : Item) : Item :=
  mkItem false (deleteCalls it) (pred (resetTimers it)).

Inductive Event := Click | TimerFires.

Definition enabled (e : Event) (it : Item) : bool :=
  match e with
  | Click => true
  | TimerFires => (0 <? resetTimers it)%nat
  end.

Definition step (e : Event) (it : Item) : Item :=
  match e with
  | Click => handleDelete it
  | TimerFires => timerFires it
  end.

Fixpoint run (trace : list Event) (it : Item) : option Item :=
  match trace with
  | [] => Some it
  | e :: rest => if enabled e it then run rest (step e it) else None
  end.

Definition clicks (trace : list Event) : nat :=
  List.length (filter (fun e => match e with Click => true | _ => false end) trace).

End TaskItem.

(* ********************************************************************* *)
(** * Part II: properties *)
(* ********************************************************************* *)

Unset Implicit Arguments.

(** Unfold the plumbing of the monad, leaving the services' own steps. *)
Ltac eff_run :=
  cbv beta iota delta [Eff.bind Eff.ret Eff.get Eff.modify Eff.throw
                       Eff.try_catch Eff.on_fst Eff.on_snd fst snd].
(* ===================================================================== *)
(** * Statistics *)
(* ===================================================================== *)

Section Statistics.

Import Stats.

Variables tzone now : Z.

Lemma count_cons p t ts : count p (t :: ts) = bump (p t) + count p ts.
Proof.
  unfold count, bump; simpl. destruct (p t); simpl List.length; lia.
Qed.

(** One pass of the [forEach] body. *)
Lemma count_task_effect s t :
  let r := TaskService.count_task (JsDate.setHours0 tzone now) tzone s t in
  total r = total s /\
  active_count r = active_count s + bump (is_active t) /\
  completed_count r = completed_count s + bump (is_completed t) /\
  overdue r = overdue s + bump ((counts_overdue tzone now) t).
Proof.
  unfold TaskService.count_task, is_active, is_completed, counts_overdue, bump.
  destruct (status t); [destruct (due_date t) as [d|]; [destruct (_ <? _)|]|];
    cbn; repeat split; lia.
Qed.

(** The loop of [calculateStats] adds the three counts to the counters it
    starts from and leaves [total] alone. *)
Lemma fold_count_task ts : forall s,
  let r := fold_left (TaskService.count_task (JsDate.setHours0 tzone now) tzone) ts s in
  total r = total s /\
  active_count r = active_count s + count is_active ts /\
  completed_count r = completed_count s + count is_completed ts /\
  overdue r = overdue s + count (counts_overdue tzone now) ts.
Proof.
  induction ts as [|t ts IH]; intros s; cbn zeta.
  - unfold count; simpl; repeat split; lia.
  - simpl fold_left.
    specialize (IH (TaskService.count_task (JsDate.setHours0 tzone now) tzone s t)).
    cbn zeta in IH. destruct IH as (Ht & Ha & Hc & Ho).
    destruct (count_task_effect s t) as (Et & Ea & Ec & Eo).
    rewrite Ht, Ha, Hc, Ho, Et, Ea, Ec, Eo, !count_cons.
    repeat split; lia.
Qed.

Lemma calculateStats_counts ts :
  let r := TaskService.calculateStats tzone now ts in
  total r = Z.of_nat (List.length ts) /\
  active_count r = count is_active ts /\
  completed_count r = count is_completed ts /\
  overdue r = count (counts_overdue tzone now) ts.
Proof.
  unfold TaskService.calculateStats.
  pose proof (fold_count_task ts (mkTaskStats (Z.of_nat (List.length ts)) 0 0 0)) as H.
  cbn zeta in *. simpl in H. exact H.
Qed.

Lemma count_partition ts :
  count is_active ts + count is_completed ts = Z.of_nat (List.length ts).
Proof.
  induction ts as [|t ts IH]; [reflexivity|].
  rewrite !count_cons. simpl List.length. unfold is_active at 1, is_completed at 1.
  destruct (status t); unfold bump; simpl TaskStatus_eqb; lia.
Qed.

Lemma count_overdue_le_active ts :
  count (counts_overdue tzone now) ts <= count is_active ts.
Proof.
  induction ts as [|t ts IH]; [reflexivity|].
  rewrite !count_cons. unfold counts_overdue at 1, is_active at 1, bump.
  destruct (status t); simpl TaskStatus_eqb; cbv iota.
  - destruct (due_date t); [destruct (_ <? _)|]; lia.
  - lia.
Qed.

End Statistics.

(** C4: every recompute of the statistics, over any task collection, at any
    instant and in any time zone, yields [active + completed = total] and
    [overdue <= active]. *)
Theorem calculateStats_invariant (tzone now : Z) (ts : list Task) :
  let r := TaskService.calculateStats tzone now ts in
  active_count r + completed_count r = total r /\ overdue r <= active_count r.
Proof.
  destruct (calculateStats_counts tzone now ts) as (Ht & Ha & Hc & Ho).
  cbn zeta. rewrite Ht, Ha, Hc, Ho. split.
  - apply count_partition.
  - apply count_overdue_le_active.
Qed.

(* ===================================================================== *)
(** ** The date-only comparison *)
(* ===================================================================== *)

Section DateOnly.

Import JsDate.

(** Truncating two instants to local midnight and comparing them compares
    their local calendar days. *)
Lemma setHours0_ltb (tzone a b : Z) :
  (setHours0 tzone a <? setHours0 tzone b) = (localDay tzone a <? localDay tzone b).
Proof.
  unfold setHours0, msPerDay.
  destruct (Z.ltb_spec (localDay tzone a) (localDay tzone b));
    [apply Z.ltb_lt | apply Z.ltb_ge]; lia.
Qed.

(** East of Greenwich (and at UTC) midnight UTC of a day falls on that same
    local day. *)
Lemma localDay_ofDateOnly_east (tzone d : Z) :
  0 <= tzone < msPerDay -> localDay tzone (ofDateOnly d) = d.
Proof.
  unfold localDay, ofDateOnly, msPerDay; intros H.
  symmetry; apply Z.div_unique with (r := tzone); lia.
Qed.

(** West of Greenwich midnight UTC of a day is still the evening of the
    local day before. *)
Lemma localDay_ofDateOnly_west (tzone d : Z) :
  - msPerDay <= tzone < 0 -> localDay tzone (ofDateOnly d) = d - 1.
Proof.
  unfold localDay, ofDateOnly, msPerDay; intros H.
  symmetry; apply Z.div_unique with (r := tzone + 86400000); lia.
Qed.

End DateOnly.

Lemma count_ext (p q : Task -> bool) (ts : list Task) :
  (forall t, p t = q t) -> Stats.count p ts = Stats.count q ts.
Proof.
  intros E. induction ts as [|t ts IH]; [reflexivity|].
  rewrite !count_cons, IH, E. reflexivity.
Qed.

(** [total], [active] and [completed] are the collection size and the direct
    status counts, whatever the clock and the zone. *)
Lemma calculateStats_status_counts (tzone now : Z) (ts : list Task) :
  let r := TaskService.calculateStats tzone now ts in
  total r = Z.of_nat (List.length ts) /\
  active_count r = Stats.count Stats.is_active ts /\
  completed_count r = Stats.count Stats.is_completed ts.
Proof.
  destruct (calculateStats_counts tzone now ts) as (Ht & Ha & Hc & _).
  cbn zeta; auto.
Qed.

(** At UTC and east of it the [overdue] counter is the number of active tasks
    due strictly before the current local day. *)
Lemma calculateStats_overdue_east (tzone now : Z) (ts : list Task) :
  0 <= tzone < JsDate.msPerDay ->
  overdue (TaskService.calculateStats tzone now ts)
  = Stats.count (Stats.due_before_today tzone now) ts.
Proof.
  intros Htz.
  destruct (calculateStats_counts tzone now ts) as (_ & _ & _ & Ho).
  cbn zeta in Ho. rewrite Ho. apply count_ext. intros t.
  unfold Stats.counts_overdue, Stats.due_before_today.
  destruct (status t); [|reflexivity]. destruct (due_date t) as [d|]; [|reflexivity].
  rewrite setHours0_ltb, localDay_ofDateOnly_east by assumption. reflexivity.
Qed.

(** West of UTC the [overdue] counter also counts the active tasks that are
    due on the current local day. *)
Lemma calculateStats_overdue_west (tzone now : Z) (ts : list Task) :
  - JsDate.msPerDay <= tzone < 0 ->
  overdue (TaskService.calculateStats tzone now ts)
  = Stats.count (Stats.due_today_or_before tzone now) ts.
Proof.
  intros Htz.
  destruct (calculateStats_counts tzone now ts) as (_ & _ & _ & Ho).
  cbn zeta in Ho. rewrite Ho. apply count_ext. intros t.
  unfold Stats.counts_overdue, Stats.due_today_or_before.
  destruct (status t); [|reflexivity]. destruct (due_date t) as [d|]; [|reflexivity].
  rewrite setHours0_ltb, localDay_ofDateOnly_west by assumption.
  destruct (Z.ltb_spec (d - 1) (JsDate.localDay tzone now));
    destruct (Z.leb_spec d (JsDate.localDay tzone now)); try reflexivity; lia.
Qed.

(** C5: the first task of the mock store, active and due on 2025-09-28 (day
    20359), recomputed at noon of 2025-09-28 in a zone five hours west of UTC.  The direct counts
    are right, and no active task is due strictly before the current day, yet
    [overdue] is 1: [new Date("2025-09-28")] is midnight UTC, which
    [setHours(0, 0, 0, 0)] moves back to local midnight of 2025-09-27. *)
Theorem calculateStats_overdue_due_today_west :
  let tzone := -18000000 in
  let now := 1759078800000 in
  let ts := [Examples.task1] in
  let r := TaskService.calculateStats tzone now ts in
  JsDate.localDay tzone now = 20359 /\
  total r = 1 /\ active_count r = 1 /\ completed_count r = 0 /\
  Stats.count (Stats.due_before_today tzone now) ts = 0 /\
  overdue r = 1.
Proof. vm_compute. repeat split; reflexivity. Qed.

(* ===================================================================== *)
(** ** The mock backend's [createTask] *)
(* ===================================================================== *)

(** C10: [createTask] always returns; the task it returns is active, is titled
    "Untitled Task" when the title is absent or empty, has the empty
    description when none is given, and has medium priority when none is
    given; whatever is supplied is kept. *)
Theorem createTask_defaults (ttl desc : option string) (prio : option TaskPriority)
    (due : option Z) (w : World) :
  exists t w',
    MockService.createTask (mkTaskCreate ttl desc prio due) w = (Ok t, w') /\
    status t = active /\
    title t = match ttl with
              | None | Some EmptyString => "Untitled Task"
              | Some s => s
              end /\
    description t = match desc with None => "" | Some s => s end /\
    priority t = match prio with None => medium | Some p => p end /\
    In t (mockTasks w').
Proof.
  unfold MockService.createTask, MockService.delay. eff_run.
  eexists; eexists. split; [reflexivity|]. cbn.
  refine (conj eq_refl (conj _ (conj _ (conj _ _)))).
  - destruct ttl as [[|c s]|]; reflexivity.
  - destruct desc as [[|c s]|]; reflexivity.
  - destruct prio; reflexivity.
  - apply in_or_app; right; left; reflexivity.
Qed.

(* ===================================================================== *)
(** ** The task service never fails to produce a collection *)
(* ===================================================================== *)

Lemma mock_getTasks_run (w : World) :
  MockService.getTasks w
  = (Ok (MockService.sort_by_updated (mockTasks w)), set_clock (clock w + 300) w).
Proof. reflexivity. Qed.

(** [getTasks] answers [success: true] in both modes: the mock store cannot
    throw, and a failing remote call falls back to the mock store. *)
Lemma getTasks_succeeds (filters : option TaskFilters) (w : World) :
  exists d w', TaskService.getTasks filters w = (Ok (mkApiResponse d true None), w').
Proof.
  unfold TaskService.getTasks. eff_run.
  destruct (useMockData w) eqn:Hm.
  - rewrite mock_getTasks_run. eauto.
  - destruct (ApiService.get_tasks w) as [[d|e] w1] eqn:Hapi.
    + eauto.
    + assert (Hm1 : useMockData w1 = false).
      { unfold ApiService.get_tasks in Hapi.
        destruct (next_reply (getTasksReplies (remote w))) as [o rest].
        inversion Hapi; subst. exact Hm. }
      rewrite Hm1. cbn [negb]. rewrite mock_getTasks_run. eauto.
Qed.

Lemma getTasks_authoritative (w : World) :
  exists w', TaskService.getTasks None w
             = (Ok (mkApiResponse (Reconciler.authoritative w) true None), w').
Proof.
  destruct (getTasks_succeeds None w) as (d & w' & E).
  exists w'. unfold Reconciler.authoritative. rewrite E. reflexivity.
Qed.

(** In mock mode the authoritative collection is the mock store, most
    recently updated first. *)
Lemma authoritative_mock (w : World) :
  useMockData w = true ->
  Reconciler.authoritative w = MockService.sort_by_updated (mockTasks w).
Proof.
  intros Hm. unfold Reconciler.authoritative, TaskService.getTasks. eff_run.
  rewrite Hm, mock_getTasks_run. reflexivity.
Qed.

(** [getTaskStats] is caught on every path: it always returns a response. *)
Lemma getTaskStats_returns (w : World) :
  exists r w', TaskService.getTaskStats w = (Ok r, w').
Proof.
  unfold TaskService.getTaskStats. eff_run.
  destruct (useMockData w).
  - rewrite mock_getTasks_run. eauto.
  - destruct (ApiService.get_stats w) as [[d|e] w1]; eauto.
Qed.

(** A reload replaces the cached collection by the authoritative one, clears
    the error and ends with [isLoading] false. *)
Lemma refreshTasks_reloads (st : TaskViewModel.State) (w : World) :
  exists stats w',
    TaskViewModel.refreshTasks None (st, w)
    = (Ok tt, (TaskViewModel.mkState (Reconciler.authoritative w) stats false None, w')).
Proof.
  destruct (getTasks_authoritative w) as (w1 & E1).
  destruct (getTaskStats_returns w1) as (r & w2 & E2).
  unfold TaskViewModel.refreshTasks, TaskViewModel.setState, TaskViewModel.service.
  eff_run. rewrite E1. cbn. rewrite E2. cbn. eauto.
Qed.

(** The [catch] block of a toggle ends with the authoritative collection in
    the cache and the message in [error]. *)
Lemma revert_on_error_run (msg : string) (st : TaskViewModel.State) (w : World) :
  exists stats w',
    TaskViewModel.revert_on_error msg (st, w)
    = (Ok None,
       (TaskViewModel.mkState (Reconciler.authoritative w) stats false (Some msg), w')).
Proof.
  destruct (refreshTasks_reloads st w) as (stats & w' & Er).
  unfold TaskViewModel.revert_on_error, TaskViewModel.setState. eff_run.
  rewrite Er. cbn. eauto.
Qed.

(* ===================================================================== *)
(** ** The registered mutation handler *)
(* ===================================================================== *)

(** C1, as the code has it: whatever intent the agent issued, the registered
    handler does not look at it; it reloads, so the cached collection becomes
    the authoritative collection of the task service, the error is cleared
    and the loading flag ends false. *)
Theorem onTaskAction_reloads (action : TaskAction) (st : TaskViewModel.State)
    (w : World) :
  exists stats w',
    ChatInterface.onTaskAction action (st, w)
    = (Ok tt, (TaskViewModel.mkState (Reconciler.authoritative w) stats false None, w')).
Proof. unfold ChatInterface.onTaskAction. apply refreshTasks_reloads. Qed.

(** C1, as stated, fails: the agent has completed task 2 and hands the update
    intent to the handler; replacing the entry by id would keep task 2 in
    second place, but the handler reloads and the most recently updated task
    comes first. *)
Lemma onTaskAction_is_not_applyMutation :
  let action := ActUpdate Examples.task2_done in
  let st := Examples.cache_before_agent_update in
  let w := Examples.world_after_agent_update in
  TaskViewModel.tasks (fst (snd (ChatInterface.onTaskAction action (st, w))))
    = [Examples.task2_done; Examples.task1; Examples.task3] /\
  Reconciler.applyMutation_spec action (TaskViewModel.tasks st)
    = [Examples.task1; Examples.task2_done; Examples.task3] /\
  TaskViewModel.tasks (fst (snd (ChatInterface.onTaskAction action (st, w))))
    <> Reconciler.applyMutation_spec action (TaskViewModel.tasks st).
Proof.
  cbv zeta. split; [vm_compute; reflexivity|]. split; [vm_compute; reflexivity|].
  vm_compute. discriminate.
Qed.

(* ===================================================================== *)
(** ** A rejected toggle *)
(* ===================================================================== *)

(** The [catch] path of [toggleTaskStatus]: whenever the confirming request
    fails, the call ends in the state the reload leaves, with the failure
    message in [error]. *)
Lemma toggle_rejected_run (i : Z) (st : TaskViewModel.State) (w w1 : World)
    (o : Outcome (ApiResponse (option Task))) :
  TaskService.toggleTaskStatus i w = (o, w1) ->
  Reconciler.rejected o ->
  exists stats w',
    TaskViewModel.toggleTaskStatus i (st, w)
    = (Ok None,
       (TaskViewModel.mkState (Reconciler.authoritative w1) stats false
          (Some (Reconciler.rejection_message o)), w')).
Proof.
  intros Hsvc Hrej.
  unfold TaskViewModel.toggleTaskStatus, TaskViewModel.setState, TaskViewModel.service.
  eff_run. rewrite Hsvc.
  set (st1 := TaskViewModel.mkState _ _ _ _).
  destruct o as [r|e]; cbn [Reconciler.rejected Reconciler.rejection_message] in *.
  - destruct (revert_on_error_run
                (or_string (message r) "Failed to update task status") st1 w1)
      as (stats & w' & Ec).
    assert (Hbranch :
      match success r, data r with
      | true, Some _ => False
      | _, _ => True
      end).
    { destruct Hrej as [Hs|Hd]; [rewrite Hs | rewrite Hd; destruct (success r)]; exact I. }
    destruct (success r); [destruct (data r); [contradiction|]|];
      rewrite Ec; eauto.
  - destruct (revert_on_error_run e st1 w1) as (stats & w' & Ec).
    rewrite Ec; eauto.
Qed.

(* ===================================================================== *)
(** ** Sequences of toggles against the mock backend *)
(* ===================================================================== *)

Lemma insert_by_updated_perm (t : Task) (l : list Task) :
  Permutation (MockService.insert_by_updated t l) (t :: l).
Proof.
  induction l as [|x l IH]; simpl; [reflexivity|].
  destruct (updated_at x - updated_at t >? 0); [|reflexivity].
  rewrite IH. apply perm_swap.
Qed.

(** Sorting only reorders the store. *)
Lemma sort_by_updated_perm (l : list Task) :
  Permutation (MockService.sort_by_updated l) l.
Proof.
  induction l as [|t l IH]; simpl; [reflexivity|].
  rewrite insert_by_updated_perm. now constructor.
Qed.

(** With unique ids, [find] by id is membership. *)
Lemma find_id_unique (i : Z) (l : list Task) (t : Task) :
  NoDup (map id l) -> In t l -> id t = i -> find (id_is i) l = Some t.
Proof.
  induction l as [|x l IH]; simpl; intros Hnd Hin Hid; [contradiction|].
  inversion Hnd as [|? ? Hnotin Hnd']; subst.
  unfold id_is at 1. destruct (Z.eqb_spec (id x) (id t)) as [E|E].
  - destruct Hin as [->|Hin]; [reflexivity|].
    exfalso. apply Hnotin. rewrite E. now apply in_map.
  - destruct Hin as [->|Hin]; [congruence|]. now apply IH.
Qed.

Lemma find_id_perm (i : Z) (l l' : list Task) :
  NoDup (map id l) -> Permutation l l' ->
  find (id_is i) l' = find (id_is i) l.
Proof.
  intros Hnd Hp.
  assert (Hnd' : NoDup (map id l'))
    by (eapply Permutation_NoDup; [apply Permutation_map; exact Hp|exact Hnd]).
  destruct (find (id_is i) l) as [t|] eqn:E.
  - apply find_some in E as [Hin Hid]. unfold id_is in Hid.
    apply Z.eqb_eq in Hid. apply find_id_unique; auto.
    eapply Permutation_in; eauto.
  - destruct (find (id_is i) l') as [t'|] eqn:E'; [|reflexivity].
    apply find_some in E' as [Hin Hid].
    apply Permutation_sym in Hp.
    pose proof (find_none _ _ E t' (Permutation_in _ Hp Hin)). congruence.
Qed.

(** [findIndex] finds the entry [find] finds. *)
Lemma findIndex_find (i : Z) (l : list Task) (t : Task) :
  find (id_is i) l = Some t ->
  exists k, MockService.findIndex i l = Some k /\ nth_error l k = Some t.
Proof.
  induction l as [|x l IH]; simpl; [discriminate|].
  destruct (id_is i x).
  - intros [= ->]. exists O. auto.
  - intros E. destruct (IH E) as (k & -> & Hk). exists (S k). auto.
Qed.

Lemma update_at_ids (k : nat) (f : Task -> Task) (l : list Task) :
  (forall x, id (f x) = id x) ->
  map id (MockService.update_at k f l) = map id l.
Proof.
  intros Hf. revert k. induction l as [|x l IH]; intros [|k]; simpl; try reflexivity.
  - now rewrite Hf.
  - now rewrite IH.
Qed.

Lemma update_at_nth (k : nat) (f : Task -> Task) (l : list Task) (t : Task) :
  nth_error l k = Some t ->
  nth_error (MockService.update_at k f l) k = Some (f t).
Proof.
  revert k. induction l as [|x l IH]; intros [|k]; simpl; try discriminate.
  - now intros [= ->].
  - apply IH.
Qed.

Lemma apply_update_id (t : Task) (u : TaskUpdate) (now : Z) :
  id (MockService.apply_update t u now) = id t.
Proof. reflexivity. Qed.

(** After the optimistic flip and the confirmed replacement, the first cached
    entry for the id is the confirmed task. *)
Lemma cached_status_confirmed (i : Z) (confirmed : Task) (ts : list Task)
    (s : TaskStatus) :
  id confirmed = i ->
  TaskViewModel.cached_status i ts = Some s ->
  TaskViewModel.cached_status i
    (TaskViewModel.replace_by_id i confirmed (TaskViewModel.optimistic_flip i ts))
  = Some (status confirmed).
Proof.
  intros Hid. unfold TaskViewModel.cached_status.
  induction ts as [|x ts IH]; simpl; [discriminate|].
  unfold id_is in *. cbn [id] in *.
  destruct (id x =? i) eqn:E; cbn [id]; rewrite ?E; [|exact IH].
  intros _. rewrite Hid, Z.eqb_refl. reflexivity.
Qed.

Lemma mock_updateTask_run (i : Z) (u : TaskUpdate) (w : World) (k : nat) :
  MockService.findIndex i (mockTasks w) = Some k ->
  let ts' := MockService.update_at k
               (fun old => MockService.apply_update old u (clock w + 400))
               (mockTasks w) in
  MockService.updateTask i u w
  = (Ok (nth_error ts' k), set_tasks ts' (set_clock (clock w + 400) w)).
Proof.
  intros Hk. unfold MockService.updateTask, MockService.delay. eff_run.
  cbn [mockTasks set_clock clock]. rewrite Hk. reflexivity.
Qed.

Lemma service_getTask_mock (i : Z) (w : World) :
  useMockData w = true ->
  TaskService.getTask i w
  = (Ok (mkApiResponse (find (id_is i) (MockService.sort_by_updated (mockTasks w)))
           true None),
     set_clock (clock w + 300) w).
Proof.
  intros Hm. unfold TaskService.getTask. eff_run.
  rewrite Hm, mock_getTasks_run. reflexivity.
Qed.

Lemma service_updateTask_mock (i : Z) (u : TaskUpdate) (w : World) (k : nat) :
  useMockData w = true ->
  MockService.findIndex i (mockTasks w) = Some k ->
  let ts' := MockService.update_at k
               (fun old => MockService.apply_update old u (clock w + 400))
               (mockTasks w) in
  TaskService.updateTask i u w
  = (Ok (mkApiResponse (nth_error ts' k) true (Some "Task updated successfully")),
     set_tasks ts' (set_clock (clock w + 400) w)).
Proof.
  intros Hm Hk. unfold TaskService.updateTask. eff_run.
  rewrite Hm, (mock_updateTask_run i u w k Hk). reflexivity.
Qed.

(** The confirming request in mock mode, for a task the store holds. *)
Lemma service_toggle_mock (i : Z) (w : World) (t : Task) :
  useMockData w = true ->
  NoDup (map id (mockTasks w)) ->
  find (id_is i) (mockTasks w) = Some t ->
  exists t' w',
    TaskService.toggleTaskStatus i w
      = (Ok (mkApiResponse (Some t') true (Some "Task updated successfully")), w') /\
    id t' = i /\
    status t' = TaskService.flip_status (status t) /\
    useMockData w' = true /\
    NoDup (map id (mockTasks w')) /\
    find (id_is i) (mockTasks w') = Some t'.
Proof.
  intros Hm Hnd Hfind.
  destruct (findIndex_find _ _ _ Hfind) as (k & Hk & Hnth).
  pose proof (find_some _ _ Hfind) as [Hin Hid].
  unfold id_is in Hid. apply Z.eqb_eq in Hid.
  set (w1 := set_clock (clock w + 300) w).
  set (u := mkTaskUpdate None None (Some (TaskService.flip_status (status t))) None None).
  set (f := fun old => MockService.apply_update old u (clock w1 + 400)).
  exists (f t), (set_tasks (MockService.update_at k f (mockTasks w1))
                   (set_clock (clock w1 + 400) w1)).
  assert (Hids : map id (MockService.update_at k f (mockTasks w)) = map id (mockTasks w))
    by (apply update_at_ids; reflexivity).
  assert (Hnth' : nth_error (MockService.update_at k f (mockTasks w)) k = Some (f t))
    by (now apply update_at_nth).
  split; [|repeat split; try assumption].
  - unfold TaskService.toggleTaskStatus. eff_run.
    rewrite (service_getTask_mock i w Hm). cbn [success data].
    rewrite (find_id_perm i _ _ Hnd (Permutation_sym (sort_by_updated_perm (mockTasks w)))).
    rewrite Hfind. fold w1. fold u.
    rewrite (service_updateTask_mock i u w1 k Hm Hk). cbv zeta. fold f.
    change (mockTasks w1) with (mockTasks w). rewrite Hnth'. reflexivity.
  - cbn [mockTasks set_tasks]. change (mockTasks w1) with (mockTasks w).
    rewrite Hids. exact Hnd.
  - cbn [mockTasks set_tasks]. change (mockTasks w1) with (mockTasks w).
    apply find_id_unique.
    + rewrite Hids. exact Hnd.
    + eapply nth_error_In; eauto.
    + exact Hid.
Qed.

(** One toggle against the mock backend: it succeeds, flips the stored
    status, and leaves the cache agreeing with the store on that task,
    whatever status the cache showed for it before. *)
Lemma toggle_step_mock (i : Z) (st : TaskViewModel.State) (w : World) (t : Task)
    (s : TaskStatus) :
  useMockData w = true ->
  NoDup (map id (mockTasks w)) ->
  find (id_is i) (mockTasks w) = Some t ->
  TaskViewModel.cached_status i (TaskViewModel.tasks st) = Some s ->
  exists t' st' w',
    TaskViewModel.toggleTaskStatus i (st, w) = (Ok (Some t'), (st', w')) /\
    status t' = TaskService.flip_status (status t) /\
    useMockData w' = true /\
    NoDup (map id (mockTasks w')) /\
    find (id_is i) (mockTasks w') = Some t' /\
    TaskViewModel.cached_status i (TaskViewModel.tasks st') = Some (status t').
Proof.
  intros Hm Hnd Hfind Hcache.
  destruct (service_toggle_mock i w t Hm Hnd Hfind)
    as (t' & w1 & Esvc & Hid & Hst & Hm1 & Hnd1 & Hfind1).
  destruct (getTaskStats_returns w1) as (r & w2 & Estats).
  assert (Hw2 : useMockData w2 = true /\ mockTasks w2 = mockTasks w1).
  { revert Estats. unfold TaskService.getTaskStats. eff_run.
    rewrite Hm1, mock_getTasks_run. intros [= _ <-]. auto. }
  destruct Hw2 as [Hm2 Hts2].
  pose proof (cached_status_confirmed i t' (TaskViewModel.tasks st) _ Hid Hcache) as Hc.
  unfold TaskViewModel.toggleTaskStatus, TaskViewModel.setState, TaskViewModel.service.
  eff_run. rewrite Esvc. cbn [success data]. rewrite Estats.
  destruct (success r); cbn;
    (eexists; eexists; eexists; split; [reflexivity|]);
    cbn; rewrite Hts2; auto 10.
Qed.

Lemma find_none_perm (i : Z) (l l' : list Task) :
  Permutation l l' -> find (id_is i) l = None -> find (id_is i) l' = None.
Proof.
  intros Hp Hnone. destruct (find (id_is i) l') as [t|] eqn:E; [|reflexivity].
  apply find_some in E as [Hin Hid].
  pose proof (find_none _ _ Hnone t (Permutation_in _ (Permutation_sym Hp) Hin)).
  congruence.
Qed.

(** In development mode the only rejection is "Task not found": the mock
    store no longer holds the id, and after the reload neither does the
    cache. *)
Lemma toggle_not_found_mock (i : Z) (st : TaskViewModel.State) (w : World) :
  useMockData w = true ->
  find (id_is i) (mockTasks w) = None ->
  exists st' w',
    TaskViewModel.toggleTaskStatus i (st, w) = (Ok None, (st', w')) /\
    TaskViewModel.tasks st' = MockService.sort_by_updated (mockTasks w) /\
    TaskViewModel.cached_status i (TaskViewModel.tasks st') = None /\
    TaskViewModel.error st' = Some "Task not found".
Proof.
  intros Hm Hnone.
  assert (Hsorted : find (id_is i) (MockService.sort_by_updated (mockTasks w)) = None).
  { apply (find_none_perm i (mockTasks w)); [|exact Hnone].
    apply Permutation_sym, sort_by_updated_perm. }
  assert (Hsvc : TaskService.toggleTaskStatus i w
                 = (Ok (mkApiResponse None false (Some "Task not found")),
                    set_clock (clock w + 300) w)).
  { unfold TaskService.toggleTaskStatus, TaskService.getTask. eff_run.
    rewrite Hm, mock_getTasks_run, Hsorted. reflexivity. }
  destruct (toggle_rejected_run i st w _ _ Hsvc (or_introl eq_refl))
    as (stats & w' & Erun).
  eexists; eexists. split; [exact Erun|]. cbn.
  rewrite (authoritative_mock (set_clock (clock w + 300) w) Hm). cbn [mockTasks set_clock].
  unfold TaskViewModel.cached_status. rewrite Hsorted. auto.
Qed.

Lemma find_some_perm (i : Z) (l l' : list Task) (t : Task) :
  Permutation l l' -> find (id_is i) l = Some t ->
  exists t', find (id_is i) l' = Some t'.
Proof.
  intros Hp Hfind. destruct (find (id_is i) l') as [t'|] eqn:E; [eauto|].
  rewrite (find_none_perm i l' l (Permutation_sym Hp) E) in Hfind. discriminate.
Qed.

(** In development mode the confirming request is rejected only when the
    mock store does not hold the id. *)
Lemma dev_toggle_rejected (i : Z) (w w1 : World)
    (o : Outcome (ApiResponse (option Task))) :
  useMockData w = true ->
  TaskService.toggleTaskStatus i w = (o, w1) ->
  Reconciler.rejected o ->
  find (id_is i) (mockTasks w) = None /\
  w1 = set_clock (clock w + 300) w /\
  o = Ok (mkApiResponse None false (Some "Task not found")).
Proof.
  intros Hm Hsvc Hrej. revert Hsvc.
  unfold TaskService.toggleTaskStatus. eff_run.
  rewrite (service_getTask_mock i w Hm). cbn [success data].
  destruct (find (id_is i) (MockService.sort_by_updated (mockTasks w)))
    as [cur|] eqn:Hs.
  - destruct (find_some_perm i _ (mockTasks w) cur (sort_by_updated_perm _) Hs)
      as (t' & Hfind).
    destruct (findIndex_find _ _ _ Hfind) as (k & Hk & Hnth).
    set (w0 := set_clock (clock w + 300) w).
    set (u := mkTaskUpdate None None (Some (TaskService.flip_status (status cur)))
                None None).
    rewrite (service_updateTask_mock i u w0 k Hm Hk). cbv zeta.
    change (mockTasks w0) with (mockTasks w).
    rewrite (update_at_nth k _ _ t' Hnth).
    intros [= <- _]. cbn in Hrej. destruct Hrej; discriminate.
  - intros [= <- <-]. split; [|split; reflexivity].
    apply (find_none_perm i (MockService.sort_by_updated (mockTasks w)));
      [apply sort_by_updated_perm|exact Hs].
Qed.

(* ===================================================================== *)
(** ** A rejected toggle, reloaded *)
(* ===================================================================== *)

(** C2, as the code has it: when the confirming request of
    [toggleTaskStatus(i)] fails (the service reports [success: false],
    carries no task, or throws), the call returns [null], the cached
    collection is the authoritative collection fetched by the reload, so the
    optimistic flip is gone, and the failure is recorded in [error] with
    [isLoading] false.  The status the cache then shows for the id is the
    one the reloaded collection holds for it, whatever the cache showed
    before.  In development mode the reloaded collection never holds the
    id: there a toggle is rejected only when the mock store has no such
    task, and the message is "Task not found". *)
Theorem toggle_rejected_reloads (i : Z) (st : TaskViewModel.State) (w w1 : World)
    (o : Outcome (ApiResponse (option Task))) :
  TaskService.toggleTaskStatus i w = (o, w1) ->
  Reconciler.rejected o ->
  exists st' w',
    TaskViewModel.toggleTaskStatus i (st, w) = (Ok None, (st', w')) /\
    TaskViewModel.tasks st' = Reconciler.authoritative w1 /\
    TaskViewModel.error st' = Some (Reconciler.rejection_message o) /\
    TaskViewModel.isLoading st' = false /\
    TaskViewModel.cached_status i (TaskViewModel.tasks st')
      = TaskViewModel.cached_status i (Reconciler.authoritative w1) /\
    (useMockData w = true ->
     TaskViewModel.cached_status i (TaskViewModel.tasks st') = None /\
     TaskViewModel.error st' = Some "Task not found").
Proof.
  intros Hsvc Hrej.
  destruct (toggle_rejected_run i st w w1 o Hsvc Hrej) as (stats & w' & Erun).
  eexists; eexists. split; [exact Erun|]. cbn [TaskViewModel.tasks TaskViewModel.error
                                              TaskViewModel.isLoading].
  split; [reflexivity|]. split; [reflexivity|]. split; [reflexivity|].
  split; [reflexivity|].
  intros Hm. destruct (dev_toggle_rejected i w w1 o Hm Hsvc Hrej) as (Hnone & -> & ->).
  split; [|reflexivity].
  rewrite (authoritative_mock (set_clock (clock w + 300) w) Hm).
  cbn [mockTasks set_clock]. unfold TaskViewModel.cached_status.
  rewrite (find_none_perm i (mockTasks w)); [reflexivity| |exact Hnone].
  apply Permutation_sym, sort_by_updated_perm.
Qed.

(** Witness for C2: the server rejects the toggle of task 5, cached as
    active, and still lists it as active; after the call the cache shows it
    as active again and the error is recorded. *)
Lemma toggle_rejected_reloads_witness :
  exists st' w',
    TaskViewModel.toggleTaskStatus 5 (Examples.cache_task5, Examples.world_rejecting)
      = (Ok None, (st', w')) /\
    TaskViewModel.cached_status 5 (TaskViewModel.tasks st') = Some active /\
    TaskViewModel.error st' = Some "Task not found".
Proof.
  destruct (toggle_rejected_reloads 5 Examples.cache_task5
              Examples.world_rejecting _ _ eq_refl (or_introl eq_refl))
    as (st' & w' & Hrun & Htasks & Herr & _ & Hstatus & _).
  exists st', w'. split; [exact Hrun|]. split.
  - rewrite Hstatus. reflexivity.
  - exact Herr.
Defined.

(** C2, as stated, fails in its last part.  In development mode the cache
    shows task 5 as active and the mock store does not hold it: the toggle
    is rejected, and after the reload the cache holds the three stored
    tasks and no task 5.  In production mode with a server that cannot be
    reached the reload falls back to the mock store, with the same result. *)
Lemma toggle_rejected_active_not_restored :
  (let st := Examples.cache_task5 in
   let w := Examples.world_dev in
   TaskViewModel.cached_status 5 (TaskViewModel.tasks st) = Some active /\
   Reconciler.rejected (fst (TaskService.toggleTaskStatus 5 w)) /\
   fst (TaskViewModel.toggleTaskStatus 5 (st, w)) = Ok None /\
   TaskViewModel.error (fst (snd (TaskViewModel.toggleTaskStatus 5 (st, w))))
     = Some "Task not found" /\
   map id (TaskViewModel.tasks (fst (snd (TaskViewModel.toggleTaskStatus 5 (st, w)))))
     = [1; 2; 3] /\
   TaskViewModel.cached_status 5
     (TaskViewModel.tasks (fst (snd (TaskViewModel.toggleTaskStatus 5 (st, w)))))
     <> Some active) /\
  (let st := Examples.cache_task5 in
   let w := MoreExamples.world_offline in
   TaskViewModel.cached_status 5 (TaskViewModel.tasks st) = Some active /\
   Reconciler.rejected (fst (TaskService.toggleTaskStatus 5 w)) /\
   fst (TaskViewModel.toggleTaskStatus 5 (st, w)) = Ok None /\
   TaskViewModel.error (fst (snd (TaskViewModel.toggleTaskStatus 5 (st, w))))
     = Some "Task not found" /\
   map id (TaskViewModel.tasks (fst (snd (TaskViewModel.toggleTaskStatus 5 (st, w)))))
     = [1; 2; 3] /\
   TaskViewModel.cached_status 5
     (TaskViewModel.tasks (fst (snd (TaskViewModel.toggleTaskStatus 5 (st, w)))))
     <> Some active).
Proof.
  split; cbv zeta.
  - split; [reflexivity|]. split; [vm_compute; left; reflexivity|].
    split; [vm_compute; reflexivity|]. split; [vm_compute; reflexivity|].
    split; [vm_compute; reflexivity|]. vm_compute. discriminate.
  - split; [reflexivity|]. split; [vm_compute; left; reflexivity|].
    split; [vm_compute; reflexivity|]. split; [vm_compute; reflexivity|].
    split; [vm_compute; reflexivity|]. vm_compute. discriminate.
Qed.


Lemma xor_status_step (s : TaskStatus) (k : nat) :
  Reconciler.xor_status (TaskService.flip_status s) (Nat.odd k)
  = Reconciler.xor_status s (Nat.odd (S k)).
Proof.
  rewrite Nat.odd_succ, <- Nat.negb_odd.
  destruct (Nat.odd k), s; reflexivity.
Qed.


(* ===================================================================== *)
(** ** The reconnection policy *)
(* ===================================================================== *)

Section Reconnect.

Import WebSocketService ConnectionPolicy.

Lemma tryReconnect_schedules (st s : State) :
  same_timers st s ->
  isManualDisconnect s = false ->
  (reconnectAttempts s < maxReconnectAttempts)%nat ->
  scheduled_after st (tryReconnect s).
Proof.
  intros (Ht & Ha & Hn) Hman Hlt. unfold tryReconnect, scheduled_after.
  rewrite Hman. cbn [orb].
  destruct (Nat.leb_spec maxReconnectAttempts (reconnectAttempts s)); [lia|].
  cbn. rewrite Ht, Ha, Hn. auto.
Qed.

Lemma tryReconnect_gives_up (st : State) :
  isManualDisconnect st = true \/
  (maxReconnectAttempts <= reconnectAttempts st)%nat ->
  tryReconnect st = st.
Proof.
  intros [Hman|Hcap]; unfold tryReconnect.
  - now rewrite Hman.
  - apply Nat.leb_le in Hcap. rewrite Hcap, orb_true_r. reflexivity.
Qed.

(** The delays of the five attempts the service can make; the 10000 ms cap
    is never reached. *)
Lemma backoff_values :
  backoff 1 == 1500 /\ backoff 2 == 2250 /\ backoff 3 == 3375 /\
  backoff 4 == 50625 # 10 /\ backoff 5 == 759375 # 100.
Proof. repeat split; vm_compute; reflexivity. Qed.

End Reconnect.

(** C6, as the code has it: when the transport closes or errors while the
    disconnect is not manual and the attempt counter is below 5, exactly one
    reconnect is scheduled, the counter is incremented first, and the delay
    is computed from the incremented counter, [min(1000 * 1.5^(attempt+1),
    10000)] ms for the count [attempt] read on entry; the first retry comes
    after 1500 ms.  On a manual disconnect or at the cap nothing is
    scheduled. *)
Theorem reconnect_policy (st : WebSocketService.State) :
  (WebSocketService.isManualDisconnect st = false ->
   (WebSocketService.reconnectAttempts st < WebSocketService.maxReconnectAttempts)%nat ->
   ConnectionPolicy.scheduled_after st (WebSocketService.handleClose st) /\
   ConnectionPolicy.scheduled_after st (WebSocketService.handleError st) /\
   WebSocketService.backoff (S (WebSocketService.reconnectAttempts st))
     == ConnectionPolicy.backoff_spec (WebSocketService.reconnectAttempts st + 1) /\
   (1500 <= WebSocketService.backoff (S (WebSocketService.reconnectAttempts st)))%Q) /\
  (WebSocketService.isManualDisconnect st = true \/
   (WebSocketService.maxReconnectAttempts <= WebSocketService.reconnectAttempts st)%nat ->
   ConnectionPolicy.nothing_scheduled st (WebSocketService.handleClose st) /\
   ConnectionPolicy.nothing_scheduled st (WebSocketService.handleError st)) /\
  WebSocketService.backoff 1 == 1500.
Proof.
  split; [|split].
  - intros Hman Hlt. split; [|split; [|split]].
    + unfold WebSocketService.handleClose. cbn [WebSocketService.isManualDisconnect].
      rewrite Hman. cbn [negb].
      apply tryReconnect_schedules;
          [repeat split; reflexivity|first [exact Hman|reflexivity]|exact Hlt].
    + unfold WebSocketService.handleError.
      destruct (WebSocketService.ws (WebSocketService.updateStatus ChatTypes.error st));
        cbn [WebSocketService.isManualDisconnect WebSocketService.updateStatus];
        rewrite Hman; cbn [negb];
        (apply tryReconnect_schedules;
          [repeat split; reflexivity|first [exact Hman|reflexivity]|exact Hlt]).
    + unfold ConnectionPolicy.backoff_spec, WebSocketService.backoff.
      replace (WebSocketService.reconnectAttempts st + 1)%nat
        with (S (WebSocketService.reconnectAttempts st)) by lia.
      reflexivity.
    + unfold WebSocketService.maxReconnectAttempts in Hlt.
      destruct (WebSocketService.reconnectAttempts st) as [|[|[|[|[|n]]]]];
        try lia; vm_compute; discriminate.
  - intros Hstop. split.
    + unfold WebSocketService.handleClose. cbn [WebSocketService.isManualDisconnect].
      destruct (WebSocketService.isManualDisconnect st) eqn:Hman; cbn [negb].
      * repeat split.
      * rewrite tryReconnect_gives_up; [repeat split|].
        destruct Hstop as [Hm|Hcap]; [discriminate|right; exact Hcap].
    + unfold WebSocketService.handleError.
      destruct (WebSocketService.ws (WebSocketService.updateStatus ChatTypes.error st));
        cbn [WebSocketService.isManualDisconnect WebSocketService.updateStatus];
        (destruct (WebSocketService.isManualDisconnect st) eqn:Hman; cbn [negb];
         [repeat split|]);
        (rewrite tryReconnect_gives_up; [repeat split|];
         destruct Hstop as [Hm|Hcap]; [discriminate|right; exact Hcap]).
  - vm_compute. reflexivity.
Qed.

(** Witness for C6: a connected service whose transport closes for the first
    time schedules timer 1 after 1500 ms; after a manual disconnect a close
    schedules nothing. *)
Lemma reconnect_policy_witness :
  let st := ConnectionPolicy.state_after
              [WebSocketService.CallConnect; WebSocketService.SocketOpens 0] in
  ConnectionPolicy.scheduled_after st (WebSocketService.handleClose st) /\
  ConnectionPolicy.nothing_scheduled (WebSocketService.disconnect st)
    (WebSocketService.handleClose (WebSocketService.disconnect st)).
Proof.
  intros st.
  destruct (reconnect_policy st) as (Hgo & _ & _).
  destruct (reconnect_policy (WebSocketService.disconnect st)) as (_ & Hstop & _).
  split.
  - refine (proj1 (Hgo eq_refl _)). vm_compute. lia.
  - exact (proj1 (Hstop (or_introl eq_refl))).
Defined.

(** C6, as stated, fails: on the first unexpected close of a connected
    transport the attempt count is 0, the stated delay would be
    [min(1000 * 1.5^0, 10000) = 1000] ms, and the timer the code sets waits
    1500 ms, which is not within 1000 ms. *)
Lemma first_retry_is_after_1500ms :
  let st := ConnectionPolicy.state_after
              [WebSocketService.CallConnect; WebSocketService.SocketOpens 0] in
  let st' := WebSocketService.step (WebSocketService.SocketCloses 0) st in
  WebSocketService.status st = ChatTypes.connected /\
  WebSocketService.isManualDisconnect st = false /\
  WebSocketService.reconnectAttempts st = 0%nat /\
  WebSocketService.enabled (WebSocketService.SocketCloses 0) st = true /\
  ConnectionPolicy.backoff_spec 0 == 1000 /\
  exists d,
    WebSocketService.timers st' = [WebSocketService.mkTimer 1 d] /\
    d == 1500 /\
    ~ d == ConnectionPolicy.backoff_spec 0 /\
    ~ (d <= 1000)%Q.
Proof.
  cbv zeta. repeat (split; [vm_compute; reflexivity|]).
  eexists. split; [vm_compute; reflexivity|].
  split; [vm_compute; reflexivity|].
  split; vm_compute; intros H; [discriminate H | apply H; reflexivity].
Qed.

(* ===================================================================== *)
(** ** After the reconnect budget is spent *)
(* ===================================================================== *)

Section Exhausted.

Import WebSocketService ConnectionPolicy.

Lemma closed_socket_at (i : nat) (st : State) :
  Forall (fun s => s = CLOSED) (sockets st) -> socket_at i st = CLOSED.
Proof.
  intros Hall. unfold socket_at.
  destruct (nth_in_or_default i (sockets st) CLOSED) as [Hin|Hd]; [|exact Hd].
  rewrite Forall_forall in Hall. now apply Hall.
Qed.

(** Once the budget is spent, the browser has nothing to dispatch and the
    only calls that change anything are [disconnect()] and a failed
    [sendMessage()]; neither sets a timer. *)
Lemma spent_step (e : Event) (st : State) :
  spent st -> enabled e st = true -> is_connect e = false ->
  spent (step e st) /\
  nextHandle (step e st) = nextHandle st /\
  status (step e st) = if is_send e then ChatTypes.error else ChatTypes.disconnected.
Proof.
  intros (Hcap & Htim & Hws & Hsock) Hen Hnc.
  destruct e as [| |c|i|i|i|h|i]; cbn [is_connect] in Hnc; try discriminate;
    cbn [enabled] in Hen.
  - (* disconnect() *)
    unfold step, disconnect, spent. rewrite Htim, Hws. cbn.
    destruct (reconnectTimeout st); cbn; auto.
  - (* sendMessage() on the dead transport *)
    unfold step, sendMessage, isConnected. rewrite Hws. cbn [negb].
    rewrite tryReconnect_gives_up by (right; cbn; rewrite Hcap; apply Nat.le_refl).
    unfold spent. cbn. auto.
  - rewrite (closed_socket_at i st Hsock), andb_false_r in Hen. discriminate.
  - rewrite (closed_socket_at i st Hsock), andb_false_r in Hen. discriminate.
  - rewrite (closed_socket_at i st Hsock), andb_false_r in Hen. discriminate.
  - unfold pending in Hen. rewrite Htim in Hen. discriminate.
  - rewrite (closed_socket_at i st Hsock), andb_false_r in Hen. discriminate.
Qed.

Lemma spent_run (trace : list Event) : forall st st',
  spent st -> no_connect trace = true -> run trace st = Some st' ->
  spent st' /\
  nextHandle st' = nextHandle st /\
  (no_send trace = true -> status st = ChatTypes.disconnected ->
   status st' = ChatTypes.disconnected) /\
  (status st' = status st \/ status st' = ChatTypes.disconnected \/
   status st' = ChatTypes.error).
Proof.
  induction trace as [|e trace IH]; intros st st' Hsp Hnc Hrun.
  - injection Hrun as <-. auto.
  - cbn [run] in Hrun. destruct (enabled e st) eqn:Hen; [|discriminate].
    cbn [no_connect forallb] in Hnc. apply andb_true_iff in Hnc as [Hnc1 Hnc].
    apply negb_true_iff in Hnc1.
    destruct (spent_step e st Hsp Hen Hnc1) as (Hsp1 & Hh1 & Hst1).
    destruct (IH (step e st) st' Hsp1 Hnc Hrun) as (Hsp' & Hh' & Hquiet & Hany).
    split; [exact Hsp'|]. split; [congruence|]. split.
    + intros Hns Hd. cbn [no_send forallb] in Hns.
      apply andb_true_iff in Hns as [Hns1 Hns]. apply negb_true_iff in Hns1.
      apply Hquiet; [exact Hns|]. rewrite Hst1, Hns1. reflexivity.
    + destruct Hany as [Hsame|Hany]; [|right; exact Hany].
      right. rewrite Hsame, Hst1. destruct (is_send e); auto.
Qed.

End Exhausted.

(** Five failed auto-reconnect attempts in a row spend the budget. *)
Lemma five_failed_attempts_exhaust :
  WebSocketService.run ConnectionPolicy.five_failed_attempts
    (WebSocketService.initial true)
  = Some (ConnectionPolicy.state_after ConnectionPolicy.five_failed_attempts) /\
  WebSocketService.exhausted
    (ConnectionPolicy.state_after ConnectionPolicy.five_failed_attempts).
Proof.
  split; [vm_compute; reflexivity|].
  unfold WebSocketService.exhausted. vm_compute.
  repeat split; repeat constructor.
Qed.

(** So do five failures that are each reported by [error] and then [close]. *)
Lemma five_failed_attempts_with_errors_exhaust :
  WebSocketService.run ConnectionPolicy.five_failed_attempts_with_errors
    (WebSocketService.initial true)
  = Some (ConnectionPolicy.state_after ConnectionPolicy.five_failed_attempts_with_errors) /\
  WebSocketService.exhausted
    (ConnectionPolicy.state_after ConnectionPolicy.five_failed_attempts_with_errors).
Proof.
  split; [vm_compute; reflexivity|].
  unfold WebSocketService.exhausted. vm_compute.
  repeat split; repeat constructor.
Qed.

(** C7, as the code has it: once the reconnect budget is spent (counter at
    5, no timer pending, no socket alive, status [disconnected]), no sequence
    of events without an explicit [connect()] ever sets a timer, and the
    counter stays at the cap.  The status stays [disconnected] as long as no
    [sendMessage()] is attempted on the dead transport; such a send reports
    [error] through the status, so in general the status is [disconnected]
    or [error]. *)
Theorem quiescent_after_cap (st st' : WebSocketService.State)
    (trace : list WebSocketService.Event) :
  WebSocketService.exhausted st ->
  ConnectionPolicy.no_connect trace = true ->
  WebSocketService.run trace st = Some st' ->
  WebSocketService.timers st' = [] /\
  WebSocketService.nextHandle st' = WebSocketService.nextHandle st /\
  WebSocketService.reconnectAttempts st' = WebSocketService.maxReconnectAttempts /\
  (ConnectionPolicy.no_send trace = true ->
   WebSocketService.status st' = ChatTypes.disconnected) /\
  (WebSocketService.status st' = ChatTypes.disconnected \/
   WebSocketService.status st' = ChatTypes.error).
Proof.
  intros (Hcap & Htim & Hws & Hsock & Hstatus) Hnc Hrun.
  destruct (spent_run trace st st' (conj Hcap (conj Htim (conj Hws Hsock))) Hnc Hrun)
    as ((Hcap' & Htim' & _ & _) & Hh & Hquiet & Hany).
  split; [exact Htim'|]. split; [exact Hh|]. split; [exact Hcap'|]. split.
  - intros Hns. now apply Hquiet.
  - rewrite Hstatus in Hany. intuition.
Qed.

(** Witness for C7: after the five failed attempts, a manual [disconnect()]
    changes nothing that matters. *)
Lemma quiescent_after_cap_witness :
  exists st',
    WebSocketService.run [WebSocketService.CallDisconnect]
      (ConnectionPolicy.state_after ConnectionPolicy.five_failed_attempts) = Some st' /\
    WebSocketService.timers st' = [] /\
    WebSocketService.status st' = ChatTypes.disconnected.
Proof.
  eexists. split; [reflexivity|].
  destruct (quiescent_after_cap
              (ConnectionPolicy.state_after ConnectionPolicy.five_failed_attempts) _
              [WebSocketService.CallDisconnect]
              (proj2 five_failed_attempts_exhaust) eq_refl eq_refl)
    as (Htim & _ & _ & Hquiet & _).
  split; [exact Htim | exact (Hquiet eq_refl)].
Defined.

(** C7, as stated, fails: after the five failed attempts and with no
    [connect()] call, a [sendMessage()] moves the status from [disconnected]
    to [error].  (The chat view-model asks [isConnected()] before it calls
    [sendMessage], so it is a direct caller of the service that takes this
    path.) *)
Lemma status_after_cap_changes_on_send :
  let st := ConnectionPolicy.state_after ConnectionPolicy.five_failed_attempts in
  let trace := [WebSocketService.CallSend "list my tasks"] in
  WebSocketService.exhausted st /\
  ConnectionPolicy.no_connect trace = true /\
  exists st',
    WebSocketService.run trace st = Some st' /\
    WebSocketService.status st' = ChatTypes.error /\
    WebSocketService.status st' <> ChatTypes.disconnected.
Proof.
  cbv zeta. split; [exact (proj2 five_failed_attempts_exhaust)|].
  split; [reflexivity|].
  eexists. split; [reflexivity|]. split; [reflexivity|].
  vm_compute. discriminate.
Qed.

(* ===================================================================== *)
(** ** Pending reconnect timers *)
(* ===================================================================== *)

(** C8 at a failing input: the first connection fails with an [error] event
    followed by the [close] event of the same socket.  Both handlers call
    [tryReconnect], the second call overwrites the remembered handle without
    clearing the first timer, and two timers are pending.  A manual
    [disconnect()] then clears only the remembered one; the other fires and
    opens a new socket although [connect()] was never called again. *)
Theorem two_reconnect_timers_pending :
  let st := ConnectionPolicy.state_after ConnectionPolicy.failed_first_connection in
  WebSocketService.reachable st /\
  map WebSocketService.handle (WebSocketService.timers st) = [1; 2]%nat /\
  WebSocketService.reconnectTimeout st = Some 2%nat /\
  let st1 := WebSocketService.disconnect st in
  map WebSocketService.handle (WebSocketService.timers st1) = [1%nat] /\
  WebSocketService.isManualDisconnect st1 = true /\
  WebSocketService.enabled (WebSocketService.TimerFires 1) st1 = true /\
  let st2 := WebSocketService.step (WebSocketService.TimerFires 1) st1 in
  WebSocketService.status st2 = ChatTypes.connecting /\
  WebSocketService.ws st2 = Some 1%nat /\
  WebSocketService.socket_at 1 st2 = WebSocketService.CONNECTING.
Proof.
  cbv zeta. split.
  - exists true, ConnectionPolicy.failed_first_connection. vm_compute. reflexivity.
  - vm_compute. repeat split; reflexivity.
Qed.

(** [disconnect()] does cancel the timer the service remembers. *)
Lemma disconnect_clears_remembered_timer (st : WebSocketService.State) (h : nat) :
  WebSocketService.reconnectTimeout st = Some h ->
  WebSocketService.pending h (WebSocketService.disconnect st) = false /\
  WebSocketService.reconnectTimeout (WebSocketService.disconnect st) = None.
Proof.
  intros Hh. unfold WebSocketService.disconnect, WebSocketService.pending.
  rewrite Hh. cbn. split; [|reflexivity].
  unfold WebSocketService.clear_timer.
  induction (WebSocketService.timers st) as [|t l IH]; [reflexivity|].
  cbn. destruct (Nat.eqb (WebSocketService.handle t) h) eqn:E; cbn; [exact IH|].
  rewrite E. exact IH.
Qed.

(* ===================================================================== *)
(** ** Clearing the transcript *)
(* ===================================================================== *)

(** C9: whatever the transcript held, [clearMessages()] leaves a transcript
    of length 1 whose only message is the welcome message (id "1", from the
    agent, the welcome text, as the hook seeds it), clears the recorded error, and changes neither
    the connection status shown, nor the processing flag, nor the
    connection service. *)
Theorem clearMessages_resets (now : Z) (st : ChatViewModel.State)
    (conn : WebSocketService.State) :
  let app' := ChatViewModel.clearMessages now (st, conn) in
  List.length (ChatViewModel.messages (fst app')) = 1%nat /\
  ChatViewModel.messages (fst app')
    = [ChatTypes.mkChatMessage "1" ChatTypes.agent ChatViewModel.WELCOME now] /\
  ChatViewModel.messages (fst app')
    = ChatViewModel.messages (ChatViewModel.initialState now) /\
  ChatViewModel.error (fst app') = None /\
  ChatViewModel.connectionStatus (fst app') = ChatViewModel.connectionStatus st /\
  ChatViewModel.isProcessing (fst app') = ChatViewModel.isProcessing st /\
  snd app' = conn.
Proof. cbn. repeat split. Qed.


(* ********************************************************************* *)
(** * Part III: further properties of the services *)
(* ********************************************************************* *)

(* ===================================================================== *)
(** ** The mock store *)
(* ===================================================================== *)

Lemma insert_by_updated_In (t x : Task) (l : list Task) :
  In x (MockService.insert_by_updated t l) <-> x = t \/ In x l.
Proof.
  induction l as [|y l IH]; simpl; [intuition|].
  destruct (updated_at y - updated_at t >? 0); simpl; rewrite ?IH; intuition.
Qed.

Lemma insert_by_updated_sorted (t : Task) (l : list Task) :
  StronglySorted Store.at_least_as_recent l ->
  StronglySorted Store.at_least_as_recent (MockService.insert_by_updated t l).
Proof.
  induction 1 as [|y l Hs IH Hall]; simpl.
  - repeat constructor.
  - destruct (Z.gtb_spec (updated_at y - updated_at t) 0) as [Hgt|Hle].
    + constructor; [exact IH|].
      rewrite Forall_forall in *. intros x Hx.
      apply insert_by_updated_In in Hx as [->|Hx]; [unfold Store.at_least_as_recent; lia|auto].
    + constructor; [constructor; assumption|].
      constructor; [unfold Store.at_least_as_recent; lia|].
      rewrite Forall_forall in *. intros x Hx. specialize (Hall x Hx).
      unfold Store.at_least_as_recent in *. lia.
Qed.

(** X1: [getTasks] returns every stored task exactly once, most recently
    updated first, after 300 ms, and leaves the store itself in its own
    order. *)
Theorem getTasks_sorted_copy (w : World) :
  exists l w',
    MockService.getTasks w = (Ok l, w') /\
    Permutation l (mockTasks w) /\
    StronglySorted Store.at_least_as_recent l /\
    mockTasks w' = mockTasks w /\
    clock w' = clock w + 300.
Proof.
  eexists; eexists. split; [apply mock_getTasks_run|].
  split; [apply sort_by_updated_perm|]. split; [|split; reflexivity].
  induction (mockTasks w) as [|t l IH]; simpl; [constructor|].
  now apply insert_by_updated_sorted.
Qed.

Lemma findIndex_none (i : Z) (l : list Task) :
  find (id_is i) l = None -> MockService.findIndex i l = None.
Proof.
  induction l as [|x l IH]; simpl; [reflexivity|].
  destruct (id_is i x); [discriminate|]. intros H. now rewrite IH.
Qed.

Lemma mock_deleteTask_run (i : Z) (w : World) (k : nat) :
  MockService.findIndex i (mockTasks w) = Some k ->
  MockService.deleteTask i w
  = (Ok true, set_tasks (MockService.remove_nth k (mockTasks w))
                (set_clock (clock w + 300) w)).
Proof.
  intros Hk. unfold MockService.deleteTask, MockService.delay. eff_run.
  cbn [mockTasks set_clock]. rewrite Hk. reflexivity.
Qed.

(** X2: [updateTask] and [deleteTask] of an id the store does not hold throw
    "Task not found" and leave the store exactly as it was. *)
Theorem mock_missing_id_throws (i : Z) (u : TaskUpdate) (w : World) :
  find (id_is i) (mockTasks w) = None ->
  (exists w', MockService.updateTask i u w = (Throw "Task not found", w') /\
              mockTasks w' = mockTasks w) /\
  (exists w', MockService.deleteTask i w = (Throw "Task not found", w') /\
              mockTasks w' = mockTasks w).
Proof.
  intros Hnone. apply findIndex_none in Hnone. split.
  - unfold MockService.updateTask, MockService.delay. eff_run.
    cbn [mockTasks set_clock]. rewrite Hnone. eauto.
  - unfold MockService.deleteTask, MockService.delay. eff_run.
    cbn [mockTasks set_clock]. rewrite Hnone. eauto.
Qed.

Lemma mock_missing_id_throws_witness :
  exists w', MockService.deleteTask 7 Examples.world_dev = (Throw "Task not found", w') /\
             mockTasks w' = mockTasks Examples.world_dev.
Proof. exact (proj2 (mock_missing_id_throws 7 Store.noUpdate Examples.world_dev eq_refl)). Defined.

Lemma remove_first_unique (i : Z) (l : list Task) (k : nat) :
  NoDup (map id l) ->
  MockService.findIndex i l = Some k ->
  MockService.remove_nth k l = Store.without i l.
Proof.
  revert k. induction l as [|x l IH]; intros k Hnd Hk; simpl in *; [discriminate|].
  inversion Hnd as [|? ? Hnotin Hnd']; subst.
  unfold Store.without; simpl. destruct (id_is i x) eqn:E.
  - injection Hk as <-. simpl.
    symmetry. apply forallb_filter_id. apply forallb_forall. intros y Hy.
    unfold id_is in *. apply Z.eqb_eq in E.
    apply negb_true_iff, Z.eqb_neq. intros Hyi. apply Hnotin.
    rewrite E, <- Hyi. now apply in_map.
  - destruct (MockService.findIndex i l) as [n|] eqn:En; [|discriminate].
    injection Hk as <-. simpl. f_equal. now apply IH.
Qed.

Lemma remove_nth_length (k : nat) (l : list Task) :
  (k < List.length l)%nat ->
  S (List.length (MockService.remove_nth k l)) = List.length l.
Proof.
  revert k. induction l as [|x l IH]; intros [|k] Hk; simpl in *; try lia.
  rewrite IH; lia.
Qed.

Lemma findIndex_lt (i : Z) (l : list Task) (k : nat) :
  MockService.findIndex i l = Some k -> (k < List.length l)%nat.
Proof.
  revert k. induction l as [|x l IH]; intros k; simpl; [discriminate|].
  destruct (id_is i x); [intros [= <-]; lia|].
  destruct (MockService.findIndex i l) as [n|]; [|discriminate].
  intros [= <-]. specialize (IH n eq_refl). lia.
Qed.

(** X3: [deleteTask] of a stored id returns [true] and removes one task; when
    ids are unique the store afterwards is the old store without that id,
    in the same order, so the id can no longer be found. *)
Theorem mock_deleteTask_removes (i : Z) (w : World) (t : Task) :
  find (id_is i) (mockTasks w) = Some t ->
  exists w',
    MockService.deleteTask i w = (Ok true, w') /\
    S (List.length (mockTasks w')) = List.length (mockTasks w) /\
    (NoDup (map id (mockTasks w)) ->
     mockTasks w' = Store.without i (mockTasks w) /\
     find (id_is i) (mockTasks w') = None).
Proof.
  intros Hfind. destruct (findIndex_find _ _ _ Hfind) as (k & Hk & _).
  eexists. split; [apply (mock_deleteTask_run i w k Hk)|]. cbn [mockTasks set_tasks].
  split; [apply remove_nth_length; eapply findIndex_lt; eauto|].
  intros Hnd. rewrite (remove_first_unique i _ k Hnd Hk). split; [reflexivity|].
  destruct (find (id_is i) (Store.without i (mockTasks w))) as [x|] eqn:E; [|reflexivity].
  apply find_some in E as [Hin Hx]. apply filter_In in Hin as [_ Hneg].
  rewrite Hx in Hneg. discriminate.
Qed.

Lemma mock_deleteTask_removes_witness :
  exists w',
    MockService.deleteTask 2 Examples.world_dev = (Ok true, w') /\
    mockTasks w' = [Examples.task1; Examples.task3].
Proof.
  destruct (mock_deleteTask_removes 2 Examples.world_dev Examples.task2 eq_refl)
    as (w' & Hrun & _ & Huniq).
  exists w'. split; [exact Hrun|].
  assert (Hnd : NoDup (map id (mockTasks Examples.world_dev))).
  { cbn. repeat constructor; cbn; intuition discriminate. }
  rewrite (proj1 (Huniq Hnd)). reflexivity.
Defined.

Lemma mock_createTask_run (taskData : TaskCreate) (w : World) :
  exists t,
    MockService.createTask taskData w
    = (Ok t, set_tasks (mockTasks w ++ [t])%list (set_clock (clock w + 500) w)) /\
    id t = clock w + 500 /\
    created_at t = clock w + 500 /\
    updated_at t = clock w + 500 /\
    due_date t = c_due_date taskData.
Proof.
  unfold MockService.createTask, MockService.delay. eff_run.
  eexists. split; [reflexivity|]. cbn. auto.
Qed.

Lemma findIndex_app_last (i : Z) (l : list Task) (t : Task) :
  find (id_is i) l = None -> id t = i ->
  MockService.findIndex i (l ++ [t]) = Some (List.length l).
Proof.
  intros Hnone Hid. induction l as [|x l IH]; simpl in *.
  - unfold id_is. rewrite Hid, Z.eqb_refl. reflexivity.
  - destruct (id_is i x); [discriminate|]. now rewrite IH.
Qed.

Lemma remove_nth_app_last (l : list Task) (t : Task) :
  MockService.remove_nth (List.length l) (l ++ [t]) = l.
Proof. induction l as [|x l IH]; simpl; [reflexivity|]. now rewrite IH. Qed.

(** X4: a task created by [createTask] takes the clock reading as its id and
    is appended to the store; deleting that id again restores the store,
    provided no stored task already carried that id. *)
Theorem mock_create_then_delete (taskData : TaskCreate) (w : World) :
  find (id_is (clock w + 500)) (mockTasks w) = None ->
  exists t w1 w2,
    MockService.createTask taskData w = (Ok t, w1) /\
    mockTasks w1 = (mockTasks w ++ [t])%list /\
    MockService.deleteTask (id t) w1 = (Ok true, w2) /\
    mockTasks w2 = mockTasks w.
Proof.
  intros Hfresh. destruct (mock_createTask_run taskData w) as (t & Hrun & Hid & _).
  eexists; eexists; eexists. split; [exact Hrun|]. split; [reflexivity|].
  rewrite Hid. split.
  - apply mock_deleteTask_run. cbn [mockTasks set_tasks set_clock].
    apply findIndex_app_last; assumption.
  - cbn [mockTasks set_tasks set_clock]. apply remove_nth_app_last.
Qed.

Lemma mock_create_then_delete_witness :
  exists t w1 w2,
    MockService.createTask (mkTaskCreate (Some "Buy milk") None (Some high) None)
      Examples.world_dev = (Ok t, w1) /\
    MockService.deleteTask (id t) w1 = (Ok true, w2) /\
    mockTasks w2 = mockTasks Examples.world_dev.
Proof.
  destruct (mock_create_then_delete
              (mkTaskCreate (Some "Buy milk") None (Some high) None)
              Examples.world_dev eq_refl)
    as (t & w1 & w2 & Hc & _ & Hd & Hs).
  exists t, w1, w2. auto.
Defined.

Lemma update_at_other (k j : nat) (f : Task -> Task) (l : list Task) :
  j <> k -> nth_error (MockService.update_at k f l) j = nth_error l j.
Proof.
  revert k j. induction l as [|x l IH]; intros [|k] [|j] Hne; simpl; try reflexivity.
  - contradiction.
  - apply IH. congruence.
Qed.

Lemma update_at_length (k : nat) (f : Task -> Task) (l : list Task) :
  List.length (MockService.update_at k f l) = List.length l.
Proof.
  revert k. induction l as [|x l IH]; intros [|k]; simpl; try reflexivity.
  now rewrite IH.
Qed.

(** X5: [updateTask] of a stored id rewrites one task in place: it returns
    the stored task with the named fields replaced and [updated_at] set to
    the clock, keeps its id and [created_at], keeps the number and the ids of
    the stored tasks, and leaves every other position as it was; with unique
    ids a lookup of the id then finds the returned task. *)
Theorem mock_updateTask_in_place (i : Z) (u : TaskUpdate) (w : World) (t : Task) :
  find (id_is i) (mockTasks w) = Some t ->
  exists t' w' k,
    MockService.updateTask i u w = (Ok (Some t'), w') /\
    t' = MockService.apply_update t u (clock w + 400) /\
    id t' = i /\ created_at t' = created_at t /\ updated_at t' = clock w + 400 /\
    nth_error (mockTasks w) k = Some t /\
    nth_error (mockTasks w') k = Some t' /\
    (forall j, j <> k -> nth_error (mockTasks w') j = nth_error (mockTasks w) j) /\
    map id (mockTasks w') = map id (mockTasks w) /\
    (NoDup (map id (mockTasks w)) -> find (id_is i) (mockTasks w') = Some t').
Proof.
  intros Hfind. destruct (findIndex_find _ _ _ Hfind) as (k & Hk & Hnth).
  pose proof (find_some _ _ Hfind) as [_ Hid]. unfold id_is in Hid. apply Z.eqb_eq in Hid.
  set (f := fun old => MockService.apply_update old u (clock w + 400)).
  assert (Hnth' : nth_error (MockService.update_at k f (mockTasks w)) k = Some (f t))
    by now apply update_at_nth.
  assert (Hids : map id (MockService.update_at k f (mockTasks w)) = map id (mockTasks w))
    by (apply update_at_ids; reflexivity).
  exists (f t), (set_tasks (MockService.update_at k f (mockTasks w))
                   (set_clock (clock w + 400) w)), k.
  split.
  { rewrite (mock_updateTask_run i u w k Hk). cbv zeta. fold f. rewrite Hnth'. reflexivity. }
  cbn [mockTasks set_tasks].
  repeat match goal with |- _ /\ _ => split end; try reflexivity; try assumption.
  - intros j Hj. now apply update_at_other.
  - intros Hnd. apply find_id_unique.
    + rewrite Hids. exact Hnd.
    + eapply nth_error_In; eauto.
    + exact Hid.
Qed.

Lemma mock_updateTask_in_place_witness :
  exists t' w',
    MockService.updateTask 3 (mkTaskUpdate (Some "Call the dentist") None None None None)
      Examples.world_dev = (Ok (Some t'), w') /\
    title t' = "Call the dentist" /\ status t' = completed /\
    map id (mockTasks w') = [1; 2; 3].
Proof.
  destruct (mock_updateTask_in_place 3
              (mkTaskUpdate (Some "Call the dentist") None None None None)
              Examples.world_dev Examples.task3 eq_refl)
    as (t' & w' & k & Hrun & Ht' & _ & _ & _ & _ & _ & _ & Hids & _).
  exists t', w'. split; [exact Hrun|]. rewrite Ht', Hids. repeat split.
Defined.

(* ===================================================================== *)
(** ** The error boundary of the task service *)
(* ===================================================================== *)

(** A [try]/[catch] whose handler returns never throws. *)
Lemma try_catch_returns {S A : Type} (m : Eff.M S A) (h : string -> Eff.M S A) :
  (forall e s, exists r s', h e s = (Ok r, s')) ->
  forall s, exists r s', Eff.try_catch m h s = (Ok r, s').
Proof.
  intros Hh s. unfold Eff.try_catch. destruct (m s) as [[a|e] s1]; eauto.
Qed.

Lemma ret_returns {S A : Type} (a : A) (s : S) :
  exists r s', @Eff.ret S A a s = (Ok r, s').
Proof. unfold Eff.ret. eauto. Qed.

(** X6: no method of the task service throws: in either mode, whatever the
    mock store holds and whatever the remote API answers, each call returns a
    response object. *)
Theorem task_service_never_throws (w : World) (x : TaskServiceCrud.XWorld)
    (filters : option TaskFilters) (i : Z) (u : TaskUpdate) (taskData : TaskCreate) :
  (exists r w', TaskService.getTasks filters w = (Ok r, w')) /\
  (exists r w', TaskService.getTask i w = (Ok r, w')) /\
  (exists r w', TaskService.updateTask i u w = (Ok r, w')) /\
  (exists r w', TaskService.getTaskStats w = (Ok r, w')) /\
  (exists r w', TaskService.toggleTaskStatus i w = (Ok r, w')) /\
  (exists r x', TaskServiceCrud.createTask taskData x = (Ok r, x')) /\
  (exists r x', TaskServiceCrud.deleteTask i x = (Ok r, x')).
Proof.
  repeat split.
  - destruct (getTasks_succeeds filters w) as (d & w' & E). eauto.
  - apply try_catch_returns. intros; apply ret_returns.
  - apply try_catch_returns. intros; apply ret_returns.
  - apply getTaskStats_returns.
  - apply try_catch_returns. intros; apply ret_returns.
  - apply try_catch_returns. intros; apply ret_returns.
  - apply try_catch_returns. intros; apply ret_returns.
Qed.

Lemma findIndex_sound (i : Z) (l : list Task) (k : nat) :
  MockService.findIndex i l = Some k ->
  exists t, nth_error l k = Some t /\ id t = i.
Proof.
  revert k. induction l as [|x l IH]; intros k; simpl; [discriminate|].
  destruct (id_is i x) eqn:E.
  - intros [= <-]. exists x. split; [reflexivity|].
    unfold id_is in E. now apply Z.eqb_eq in E.
  - destruct (MockService.findIndex i l) as [n|]; [|discriminate].
    intros [= <-]. exact (IH n eq_refl).
Qed.





(** X8: in production mode, when the request for the task list fails, the
    service answers [success: true] with the whole mock store, most recently
    updated first: the fallback ignores the filters that were asked for. *)
Theorem getTasks_fallback_ignores_filters (filters : option TaskFilters)
    (w : World) (e : string) :
  useMockData w = false ->
  fst (next_reply (getTasksReplies (remote w))) = Throw e ->
  exists w',
    TaskService.getTasks filters w
    = (Ok (mkApiResponse (MockService.sort_by_updated (mockTasks w)) true None), w').
Proof.
  intros Hm Hthrow. unfold TaskService.getTasks. eff_run. rewrite Hm.
  unfold ApiService.get_tasks.
  destruct (next_reply (getTasksReplies (remote w))) as [o rest]. cbn in Hthrow. subst o.
  cbn [useMockData set_remote negb]. rewrite Hm. cbn [negb].
  rewrite mock_getTasks_run. eauto.
Qed.

Lemma getTasks_fallback_ignores_filters_witness :
  exists w',
    TaskService.getTasks (Some MoreExamples.only_completed) MoreExamples.world_offline
    = (Ok (mkApiResponse [Examples.task1; Examples.task2; Examples.task3] true None), w').
Proof.
  exact (getTasks_fallback_ignores_filters (Some MoreExamples.only_completed)
           MoreExamples.world_offline "Failed to fetch" eq_refl eq_refl).
Defined.

(* ===================================================================== *)
(** ** The other actions of the task view-model *)
(* ===================================================================== *)

Section ViewModelCrud.

Import TaskViewModel TaskViewModelCrud.

Lemma refresh_stats_run (st : State) (x : TaskServiceCrud.XWorld) :
  exists stats x',
    refresh_stats (st, x)
    = (Ok tt, (mkState (tasks st) stats (isLoading st) (error st), x')).
Proof.
  destruct x as [w mr].
  unfold refresh_stats, serviceX, setStateX, TaskServiceCrud.base. eff_run.
  destruct (getTaskStats_returns w) as (r & w' & E). rewrite E.
  destruct (success r); destruct st; cbn; eauto.
Qed.

Ltac vm_crud_start :=
  unfold start_loading, fail_with, setStateX, serviceX, TaskServiceCrud.base;
  eff_run.

(** X9: [createTask], [updateTask] and [deleteTask] of the view-model follow
    the answer of the service.  They return the task of an answer that
    reports success and carries one ([true] for a deletion that reports
    success), with the cache holding the new task at its head, the updated
    task in place of every entry with that id, or no entry with that id, and
    with no error.  On any other answer they return [null] ([false]), leave
    the cached tasks and statistics as they were and record the message of
    the answer, or the action's own message when the answer has none.  In
    both cases [isLoading] ends false. *)
Theorem mutation_outcomes (st : State) (x : TaskServiceCrud.XWorld)
    (taskData : TaskCreate) (i : Z) (u : TaskUpdate) :
  (forall o x1,
     TaskServiceCrud.createTask taskData x = (o, x1) ->
     exists st' x',
       createTask taskData (st, x) = (Ok (ServiceAnswers.accepted_task o), (st', x')) /\
       isLoading st' = false /\
       match ServiceAnswers.accepted_task o with
       | Some created => tasks st' = created :: tasks st /\ error st' = None
       | None =>
           tasks st' = tasks st /\ taskStats st' = taskStats st /\ x' = x1 /\
           error st' = Some (ServiceAnswers.failure_text "Failed to create task" o)
       end) /\
  (forall o w1,
     TaskService.updateTask i u (fst x) = (o, w1) ->
     exists st' x',
       updateTask i u (st, x) = (Ok (ServiceAnswers.accepted_task o), (st', x')) /\
       isLoading st' = false /\
       match ServiceAnswers.accepted_task o with
       | Some updated =>
           tasks st' = replace_by_id i updated (tasks st) /\ error st' = None
       | None =>
           tasks st' = tasks st /\ taskStats st' = taskStats st /\ x' = (w1, snd x) /\
           error st' = Some (ServiceAnswers.failure_text "Failed to update task" o)
       end) /\
  (forall o x1,
     TaskServiceCrud.deleteTask i x = (o, x1) ->
     exists st' x',
       deleteTask i (st, x) = (Ok (ServiceAnswers.accepted_delete o), (st', x')) /\
       isLoading st' = false /\
       if ServiceAnswers.accepted_delete o
       then tasks st' = filter (fun task => negb (id_is i task)) (tasks st) /\
            error st' = None
       else tasks st' = tasks st /\ taskStats st' = taskStats st /\ x' = x1 /\
            error st' = Some (ServiceAnswers.failure_text "Failed to delete task" o)).
Proof.
  split; [|split].
  - intros o x1 Hsvc. unfold createTask. vm_crud_start. rewrite Hsvc.
    destruct o as [r|e]; cbn [ServiceAnswers.accepted_task ServiceAnswers.failure_text].
    + destruct (success r); [destruct (data r) as [d|]|].
      * match goal with
        | |- context [refresh_stats (?s, ?y)] =>
            destruct (refresh_stats_run s y) as (stats & x2 & E); rewrite E
        end.
        eexists; eexists. split; [reflexivity|]. cbn. auto.
      * eexists; eexists. split; [reflexivity|]. cbn. auto.
      * eexists; eexists. split; [reflexivity|]. cbn. auto.
    + eexists; eexists. split; [reflexivity|]. cbn. auto.
  - destruct x as [w mr]. intros o w1 Hsvc. cbn [fst snd] in *.
    unfold updateTask. vm_crud_start. rewrite Hsvc.
    destruct o as [r|e]; cbn [ServiceAnswers.accepted_task ServiceAnswers.failure_text].
    + destruct (success r); [destruct (data r) as [d|]|].
      * match goal with
        | |- context [refresh_stats (?s, ?y)] =>
            destruct (refresh_stats_run s y) as (stats & x2 & E); rewrite E
        end.
        eexists; eexists. split; [reflexivity|]. cbn. auto.
      * eexists; eexists. split; [reflexivity|]. cbn. auto.
      * eexists; eexists. split; [reflexivity|]. cbn. auto.
    + eexists; eexists. split; [reflexivity|]. cbn. auto.
  - intros o x1 Hsvc. unfold deleteTask. vm_crud_start. rewrite Hsvc.
    destruct o as [r|e];
      cbn [ServiceAnswers.accepted_delete ServiceAnswers.failure_text].
    + destruct (success r); cbn [negb].
      * match goal with
        | |- context [refresh_stats (?s, ?y)] =>
            destruct (refresh_stats_run s y) as (stats & x2 & E); rewrite E
        end.
        eexists; eexists. split; [reflexivity|]. cbn. auto.
      * eexists; eexists. split; [reflexivity|]. cbn. auto.
    + eexists; eexists. split; [reflexivity|]. cbn. auto.
Qed.

Lemma apply_filters_sound (f : TaskFilters) (ts : list Task) (t : Task) :
  In t (TaskService.apply_filters (Some f) ts) ->
  In t ts /\
  (forall s, f_status f = Some s -> status t = s) /\
  (forall p, f_priority f = Some p -> priority t = p).
Proof.
  unfold TaskService.apply_filters. intros Hin.
  assert (Hs : In t ts /\ (forall s, f_status f = Some s -> status t = s) /\
               In t (match f_status f with
                     | Some s => filter (fun task => TaskStatus_eqb (status task) s) ts
                     | None => ts
                     end)).
  { destruct (f_priority f) as [p|]; [apply filter_In in Hin as [Hin _]|];
      (destruct (f_status f) as [s|];
       [pose proof Hin as Hin'; apply filter_In in Hin as [Hin Hs]; split; [exact Hin|split; [|exact Hin']];
        intros s' [= <-]; destruct (status t), s; (reflexivity || discriminate)
       |split; [exact Hin|split; [discriminate|exact Hin]]]). }
  destruct Hs as (Hts & Hst & _). split; [exact Hts|]. split; [exact Hst|].
  intros p Hp. rewrite Hp in Hin. apply filter_In in Hin as [_ Hpr].
  destruct (priority t), p; (reflexivity || discriminate).
Qed.

(** X10: [filterTasks] cannot fail, because [getTasks] always answers
    [success: true]: it returns with [isLoading] false and no error, puts
    the tasks the service answered in the cache, and leaves the statistics
    as they were.  In development mode the answer, and so the cache, is the
    mock store, most recently updated first, cut down to the tasks with the
    status and the priority that were asked for. *)
Theorem filterTasks_outcome (f : TaskFilters) (st : State)
    (x : TaskServiceCrud.XWorld) :
  exists r w1,
    TaskService.getTasks (Some f) (fst x) = (Ok r, w1) /\
    success r = true /\
    filterTasks f (st, x)
    = (Ok tt, (mkState (data r) (taskStats st) false None, (w1, snd x))) /\
    (useMockData (fst x) = true ->
     data r = TaskService.apply_filters (Some f)
                (MockService.sort_by_updated (mockTasks (fst x)))).
Proof.
  destruct x as [w mr]. cbn [fst snd].
  destruct (getTasks_succeeds (Some f) w) as (d & w1 & E).
  exists (mkApiResponse d true None), w1. split; [exact E|]. split; [reflexivity|].
  split.
  - unfold filterTasks. vm_crud_start. rewrite E. reflexivity.
  - intros Hm. revert E. unfold TaskService.getTasks. eff_run.
    rewrite Hm, mock_getTasks_run. now intros [= <- _].
Qed.

Lemma filterTasks_outcome_witness :
  exists st' x',
    filterTasks MoreExamples.only_completed (Examples.cache_dev, MoreExamples.xworld_dev)
      = (Ok tt, (st', x')) /\
    tasks st' = [Examples.task3].
Proof.
  destruct (filterTasks_outcome MoreExamples.only_completed Examples.cache_dev
              MoreExamples.xworld_dev)
    as (r & w1 & _ & _ & Hrun & Hdev).
  eexists; eexists. split; [exact Hrun|].
  cbn [tasks]. rewrite (Hdev eq_refl). reflexivity.
Defined.


Lemma service_getTaskStats_mock (w : World) :
  useMockData w = true ->
  TaskService.getTaskStats w
  = (Ok (mkApiResponse
           (TaskService.calculateStats (tz w) (clock w + 300)
              (MockService.sort_by_updated (mockTasks w))) true None),
     set_clock (clock w + 300) w).
Proof.
  intros Hm. unfold TaskService.getTaskStats. eff_run.
  rewrite Hm, mock_getTasks_run. reflexivity.
Qed.

Lemma refresh_stats_mock (st : State) (w : World) (mr : TaskServiceCrud.MoreRemote) :
  useMockData w = true ->
  refresh_stats (st, (w, mr))
  = (Ok tt,
     (mkState (tasks st)
        (TaskService.calculateStats (tz w) (clock w + 300)
           (MockService.sort_by_updated (mockTasks w)))
        (isLoading st) (error st),
      (set_clock (clock w + 300) w, mr))).
Proof.
  intros Hm. unfold refresh_stats, serviceX, setStateX, TaskServiceCrud.base. eff_run.
  rewrite (service_getTaskStats_mock w Hm). reflexivity.
Qed.

(** X11: in development mode [createTask] of the view-model always succeeds:
    the created task is active, is appended to the mock store and put at the
    head of the cached tasks, and the refreshed statistics count one task
    more than the store held before. *)
Theorem createTask_dev (taskData : TaskCreate) (st : State) (w : World)
    (mr : TaskServiceCrud.MoreRemote) :
  useMockData w = true ->
  exists t st' x',
    createTask taskData (st, (w, mr)) = (Ok (Some t), (st', x')) /\
    status t = active /\
    tasks st' = t :: tasks st /\
    mockTasks (fst x') = (mockTasks w ++ [t])%list /\
    total (taskStats st') = Z.of_nat (List.length (mockTasks w)) + 1 /\
    error st' = None /\ isLoading st' = false.
Proof.
  intros Hm.
  destruct (mock_createTask_run taskData w) as (t & Hrun & _).
  assert (Hact : status t = active).
  { revert Hrun. unfold MockService.createTask, MockService.delay. eff_run.
    now intros [= <-]. }
  unfold createTask. vm_crud_start.
  unfold TaskServiceCrud.createTask, TaskServiceCrud.base. eff_run.
  rewrite Hm, Hrun. cbn [success data].
  rewrite refresh_stats_mock by exact Hm.
  eexists; eexists; eexists. split; [reflexivity|].
  cbn [tasks taskStats error isLoading fst mockTasks set_tasks set_clock].
  split; [exact Hact|]. split; [reflexivity|]. split; [reflexivity|].
  split; [|split; reflexivity].
  destruct (calculateStats_counts (tz w) (clock w + 500 + 300)
              (MockService.sort_by_updated (mockTasks w ++ [t]))) as (Ht & _).
  cbn zeta in Ht. cbn [tz clock set_clock set_tasks]. rewrite Ht.
  rewrite (Permutation_length (sort_by_updated_perm _)), length_app. cbn. lia.
Qed.

Lemma createTask_dev_witness :
  exists t st' x',
    createTask (mkTaskCreate (Some "Buy milk") None (Some high) None)
      (Examples.cache_dev, MoreExamples.xworld_dev) = (Ok (Some t), (st', x')) /\
    tasks st' = [t; Examples.task1; Examples.task2; Examples.task3] /\
    total (taskStats st') = 4.
Proof.
  destruct (createTask_dev (mkTaskCreate (Some "Buy milk") None (Some high) None)
              Examples.cache_dev (fst MoreExamples.xworld_dev)
              (snd MoreExamples.xworld_dev) eq_refl)
    as (t & st' & x' & Hrun & _ & Hts & _ & Htot & _).
  exists t, st', x'. split; [exact Hrun|]. split; [exact Hts|exact Htot].
Defined.

Lemma find_without (i : Z) (ts : list Task) :
  find (id_is i) (filter (fun task => negb (id_is i task)) ts) = None.
Proof.
  destruct (find _ _) as [x|] eqn:E; [|reflexivity].
  apply find_some in E as [Hin Hx]. apply filter_In in Hin as [_ Hneg].
  rewrite Hx in Hneg. discriminate.
Qed.

(** X12: in development mode [deleteTask] of the view-model, for an id the
    mock store holds, returns [true] and leaves no entry with that id in the
    cache (nor, with unique ids, in the store); for an id the store does not
    hold it returns [false], records "Task not found" and changes neither the
    store nor the cache, so a cached entry the store has lost stays cached. *)
Theorem deleteTask_dev (i : Z) (st : State) (w : World)
    (mr : TaskServiceCrud.MoreRemote) :
  useMockData w = true ->
  match find (id_is i) (mockTasks w) with
  | Some _ =>
      exists st' x',
        deleteTask i (st, (w, mr)) = (Ok true, (st', x')) /\
        cached_status i (tasks st') = None /\
        S (List.length (mockTasks (fst x'))) = List.length (mockTasks w) /\
        (NoDup (map id (mockTasks w)) -> find (id_is i) (mockTasks (fst x')) = None)
  | None =>
      exists st' x',
        deleteTask i (st, (w, mr)) = (Ok false, (st', x')) /\
        tasks st' = tasks st /\
        error st' = Some "Task not found" /\
        mockTasks (fst x') = mockTasks w
  end.
Proof.
  intros Hm. destruct (find (id_is i) (mockTasks w)) as [t|] eqn:Hfind.
  - destruct (findIndex_find _ _ _ Hfind) as (k & Hk & _).
    unfold deleteTask. vm_crud_start.
    unfold TaskServiceCrud.deleteTask, TaskServiceCrud.base. eff_run.
    rewrite Hm, (mock_deleteTask_run i w k Hk). cbn [success negb].
    rewrite refresh_stats_mock by exact Hm.
    eexists; eexists. split; [reflexivity|].
    cbn [tasks fst mockTasks set_tasks set_clock].
    split; [unfold cached_status; now rewrite find_without|].
    split; [apply remove_nth_length; eapply findIndex_lt; eauto|].
    intros Hnd. rewrite (remove_first_unique i _ k Hnd Hk). apply find_without.
  - unfold deleteTask. vm_crud_start.
    unfold TaskServiceCrud.deleteTask, TaskServiceCrud.base. eff_run. rewrite Hm.
    unfold MockService.deleteTask, MockService.delay. eff_run.
    cbn [mockTasks set_clock]. rewrite (findIndex_none i _ Hfind).
    eexists; eexists. split; [reflexivity|]. cbn. auto.
Qed.

Lemma deleteTask_dev_witness :
  exists st' x',
    deleteTask 2 (Examples.cache_dev, MoreExamples.xworld_dev) = (Ok true, (st', x')) /\
    cached_status 2 (tasks st') = None.
Proof.
  pose proof (deleteTask_dev 2 Examples.cache_dev (fst MoreExamples.xworld_dev)
                (snd MoreExamples.xworld_dev) eq_refl) as H.
  cbn [find] in H. destruct H as (st' & x' & Hrun & Hgone & _).
  exists st', x'. split; assumption.
Defined.

End ViewModelCrud.

Lemma optimistic_flip_one (i : Z) (t : Task) :
  let g := fun task : Task =>
             if id_is i task
             then mkTask (id task) (title task) (description task)
                    (match status task with active => completed | completed => active end)
                    (priority task) (due_date task) (created_at task) (updated_at task)
             else task in
  g (g t) = t /\ id (g t) = id t /\ id_is i (g t) = id_is i t.
Proof.
  destruct t as [ti tt td ts tp tdu tc tu]. unfold id_is. cbn.
  destruct (ti =? i) eqn:E; cbn; rewrite ?E; cbn; repeat split.
  destruct ts; reflexivity.
Qed.

(** X13: the optimistic flip of a toggle keeps the ids and the order of the
    cached tasks, leaves every entry with another id untouched, and applied
    twice gives the cache back. *)
Theorem optimistic_flip_involutive (i : Z) (ts : list Task) :
  TaskViewModel.optimistic_flip i (TaskViewModel.optimistic_flip i ts) = ts /\
  map id (TaskViewModel.optimistic_flip i ts) = map id ts /\
  filter (fun t => negb (id_is i t)) (TaskViewModel.optimistic_flip i ts)
    = filter (fun t => negb (id_is i t)) ts.
Proof.
  unfold TaskViewModel.optimistic_flip.
  induction ts as [|t ts (IH1 & IH2 & IH3)]; [repeat split|].
  destruct (optimistic_flip_one i t) as (H1 & H2 & H3). cbv zeta in H1, H2, H3.
  cbn [map filter]. rewrite H1, H2, H3, IH1, IH2, IH3.
  split; [reflexivity|]. split; [reflexivity|].
  destruct (id_is i t) eqn:E; cbn [negb]; reflexivity.
Qed.

(* ===================================================================== *)
(** ** Invariants of the connection service *)
(* ===================================================================== *)

Section ConnectionInvariantProofs.

Import WebSocketService ConnectionInvariants.

Lemma tryReconnect_keeps_sockets (st : State) :
  ws (tryReconnect st) = ws st /\ sockets (tryReconnect st) = sockets st /\
  isManualDisconnect (tryReconnect st) = isManualDisconnect st /\
  status (tryReconnect st) = status st.
Proof.
  unfold tryReconnect.
  destruct (isManualDisconnect st || (maxReconnectAttempts <=? reconnectAttempts st)%nat);
    repeat split.
Qed.

Lemma tryReconnect_within_budget (st : State) :
  within_budget st -> within_budget (tryReconnect st).
Proof.
  unfold within_budget, tryReconnect. intros H.
  destruct (isManualDisconnect st); cbn [orb]; [exact H|].
  destruct (Nat.leb_spec maxReconnectAttempts (reconnectAttempts st)); [exact H|].
  cbn. lia.
Qed.

Lemma set_socket_length (i : nat) (s : Socket) (l : list Socket) :
  List.length (set_socket i s l) = List.length l.
Proof.
  revert i. induction l as [|x l IH]; intros [|i]; simpl; try reflexivity.
  now rewrite IH.
Qed.

Lemma set_socket_same (i : nat) (s : Socket) (l : list Socket) :
  (i < List.length l)%nat -> nth i (set_socket i s l) CLOSED = s.
Proof.
  revert i. induction l as [|x l IH]; intros [|i] Hi; simpl in *; try lia.
  - reflexivity.
  - apply IH. lia.
Qed.

Lemma set_socket_other (i j : nat) (s : Socket) (l : list Socket) :
  i <> j -> nth j (set_socket i s l) CLOSED = nth j l CLOSED.
Proof.
  revert i j. induction l as [|x l IH]; intros [|i] [|j] Hne; simpl; try reflexivity.
  - contradiction.
  - apply IH. congruence.
Qed.

Lemma connect_keeps_held (st : State) :
  current_socket_held st -> current_socket_held (connect st).
Proof.
  intros Hheld. unfold connect.
  destruct (match ws st with
            | Some i => connecting_or_open (socket_at i st)
            | None => false
            end); [exact Hheld|].
  cbn [urlValid updateStatus]. destruct (urlValid st).
  - unfold current_socket_held, socket_at. cbn [ws sockets updateStatus].
    rewrite length_app. cbn [List.length]. split; [lia|].
    rewrite app_nth2, Nat.sub_diag by lia. exact I.
  - exact Hheld.
Qed.

Lemma connect_within_budget (st : State) :
  within_budget st -> within_budget (connect st).
Proof.
  unfold within_budget, connect. intros H.
  destruct (match ws st with
            | Some i => connecting_or_open (socket_at i st)
            | None => false
            end); [exact H|].
  cbn [urlValid updateStatus]. destruct (urlValid st); exact H.
Qed.

Lemma handleError_inv (s : State) :
  within_budget s ->
  within_budget (handleError s) /\ ws (handleError s) = None.
Proof.
  intros Hb. unfold handleError. cbv zeta.
  set (s2 := match ws (updateStatus ChatTypes.error s) with
             | Some i => _
             | None => _
             end).
  assert (H2 : within_budget s2 /\ ws s2 = None).
  { subst s2. cbn [ws updateStatus]. destruct (ws s) eqn:E; cbn; auto. }
  destruct H2 as [Hb2 Hws2].
  destruct (negb (isManualDisconnect s2)); [|now split].
  split; [now apply tryReconnect_within_budget|].
  now rewrite (proj1 (tryReconnect_keeps_sockets s2)).
Qed.

Lemma handleClose_inv (s : State) :
  within_budget s ->
  within_budget (handleClose s) /\ ws (handleClose s) = None.
Proof.
  intros Hb. unfold handleClose. cbv zeta. cbn [isManualDisconnect].
  destruct (negb (isManualDisconnect s)); [|now split].
  split; [now apply tryReconnect_within_budget|].
  now rewrite (proj1 (tryReconnect_keeps_sockets _)).
Qed.

Lemma step_keeps_invariants (e : Event) (st : State) :
  enabled e st = true ->
  within_budget st /\ current_socket_held st ->
  within_budget (step e st) /\ current_socket_held (step e st).
Proof.
  intros Hen [Hb Ha]. destruct e as [| |c|i|i|i|h|i]; cbn [step enabled] in *.
  - split; [now apply connect_within_budget | now apply connect_keeps_held].
  - split; [exact Hb | exact I].
  - unfold sendMessage. destruct (isConnected st); cbn [negb].
    + split; [exact Hb | exact Ha].
    + split.
      * apply tryReconnect_within_budget. exact Hb.
      * unfold current_socket_held, socket_at.
        destruct (tryReconnect_keeps_sockets (updateStatus ChatTypes.error st))
          as (-> & -> & _). exact Ha.
  - apply andb_true_iff in Hen as [Hlt _]. apply Nat.ltb_lt in Hlt.
    split; [unfold within_budget; cbn; lia|].
    unfold current_socket_held, socket_at in *.
    cbn [ws sockets handleOpen updateStatus with_sockets].
    destruct (ws st) as [j|]; [|exact I]. destruct Ha as [Hj Hlive].
    rewrite set_socket_length. split; [exact Hj|].
    destruct (Nat.eq_dec i j) as [->|Hne].
    + rewrite set_socket_same by exact Hj. exact I.
    + rewrite set_socket_other by exact Hne. exact Hlive.
  - destruct (handleError_inv (with_sockets (set_socket i FAILED (sockets st)) st) Hb)
      as [Hb' Hws].
    split; [exact Hb'|]. unfold current_socket_held. now rewrite Hws.
  - destruct (handleClose_inv (with_sockets (set_socket i CLOSED (sockets st)) st) Hb)
      as [Hb' Hws].
    split; [exact Hb'|]. unfold current_socket_held. now rewrite Hws.
  - split.
    + apply connect_within_budget. exact Hb.
    + apply connect_keeps_held. exact Ha.
  - apply andb_true_iff in Hen as [Hlt _]. apply Nat.ltb_lt in Hlt.
    split; [exact Hb|].
    unfold current_socket_held, socket_at in *. cbn [ws sockets with_sockets].
    destruct (ws st) as [j|]; [|exact I]. destruct Ha as [Hj Hlive].
    rewrite set_socket_length. split; [exact Hj|].
    destruct (Nat.eq_dec i j) as [->|Hne].
    + rewrite set_socket_same by exact Hj. exact I.
    + rewrite set_socket_other by exact Hne. exact Hlive.
Qed.

Lemma run_keeps_invariants (trace : list Event) : forall st st',
  run trace st = Some st' ->
  within_budget st /\ current_socket_held st ->
  within_budget st' /\ current_socket_held st'.
Proof.
  induction trace as [|e trace IH]; intros st st' Hrun Hinv; cbn [run] in Hrun.
  - now injection Hrun as <-.
  - destruct (enabled e st) eqn:Hen; [|discriminate].
    apply (IH _ _ Hrun). now apply step_keeps_invariants.
Qed.

Lemma connect_changes_something (st : State) :
  connect st = st ->
  match ws st with
  | Some i => connecting_or_open (socket_at i st)
  | None => false
  end = true.
Proof.
  unfold connect.
  destruct (match ws st with
            | Some i => connecting_or_open (socket_at i st)
            | None => false
            end); [reflexivity|].
  cbn [urlValid updateStatus]. intros Heq. exfalso.
  apply (f_equal (fun s => List.length (delivered s))) in Heq.
  destruct (urlValid st); cbn in Heq; rewrite ?length_app in Heq; cbn in Heq; lia.
Qed.

End ConnectionInvariantProofs.

(** X14: in every reachable state of the connection service the attempt
    counter is at most 5, and the socket the service holds, if it holds one,
    exists and is connecting, open or closing: every error and every close
    event makes the service drop it.  [connect()] does nothing exactly when
    the held socket is connecting or open; so while the server's closing
    handshake is under way, and the close event has not arrived, [connect()]
    constructs a second socket beside the one that is closing. *)
Theorem reachable_invariants (st : WebSocketService.State) :
  WebSocketService.reachable st ->
  ConnectionInvariants.within_budget st /\
  ConnectionInvariants.current_socket_held st /\
  (WebSocketService.connect st = st <->
   exists i, WebSocketService.ws st = Some i /\
             WebSocketService.connecting_or_open (WebSocketService.socket_at i st) = true).
Proof.
  intros (url_ok & trace & Hrun).
  assert (Hinv : ConnectionInvariants.within_budget st /\
                 ConnectionInvariants.current_socket_held st).
  { apply (run_keeps_invariants trace _ _ Hrun).
    split; [unfold ConnectionInvariants.within_budget; cbn; lia | exact I]. }
  destruct Hinv as [Hb Ha]. split; [exact Hb|]. split; [exact Ha|]. split.
  - intros Heq. apply connect_changes_something in Heq.
    destruct (WebSocketService.ws st) as [i|]; [|discriminate]. eauto.
  - intros (i & Hws & Hlive). unfold WebSocketService.connect.
    now rewrite Hws, Hlive.
Qed.

Lemma reachable_invariants_witness :
  let st := ConnectionPolicy.state_after
              [WebSocketService.CallConnect; WebSocketService.SocketOpens 0;
               WebSocketService.SocketStartsClosing 0] in
  ConnectionInvariants.current_socket_held st /\
  WebSocketService.ws st = Some 0%nat /\
  WebSocketService.sockets st = [WebSocketService.CLOSING] /\
  WebSocketService.connect st <> st /\
  WebSocketService.sockets (WebSocketService.connect st)
  = [WebSocketService.CLOSING; WebSocketService.CONNECTING].
Proof.
  intros st.
  destruct (reachable_invariants st) as (Hb & Ha & Hiff).
  - exists true, [WebSocketService.CallConnect; WebSocketService.SocketOpens 0;
                  WebSocketService.SocketStartsClosing 0].
    vm_compute. reflexivity.
  - split; [exact Ha|]. split; [reflexivity|]. split; [reflexivity|].
    split; [|vm_compute; reflexivity].
    intros Heq. apply Hiff in Heq. destruct Heq as (i & Hws & Hlive).
    vm_compute in Hws. injection Hws as <-. vm_compute in Hlive. discriminate.
Defined.

(** X15: with a well-formed endpoint, [connect()] called twice in a row does
    what one call does: the second call finds the socket the first one
    opened and constructs no other. *)
Theorem connect_idempotent (st : WebSocketService.State) :
  WebSocketService.urlValid st = true ->
  WebSocketService.connect (WebSocketService.connect st) = WebSocketService.connect st /\
  (List.length (WebSocketService.sockets (WebSocketService.connect st))
   <= S (List.length (WebSocketService.sockets st)))%nat.
Proof.
  intros Hurl. unfold WebSocketService.connect at 2 3 4.
  destruct (match WebSocketService.ws st with
            | Some i => WebSocketService.connecting_or_open (WebSocketService.socket_at i st)
            | None => false
            end) eqn:Hguard.
  - split; [|lia]. unfold WebSocketService.connect. now rewrite Hguard.
  - cbn [WebSocketService.urlValid WebSocketService.updateStatus]. rewrite Hurl.
    split.
    + unfold WebSocketService.connect, WebSocketService.socket_at.
      cbn [WebSocketService.ws WebSocketService.sockets].
      rewrite app_nth2, Nat.sub_diag by lia. reflexivity.
    + cbn [WebSocketService.sockets]. rewrite length_app. cbn. lia.
Qed.

Lemma connect_idempotent_witness :
  WebSocketService.connect (WebSocketService.connect (WebSocketService.initial true))
  = WebSocketService.connect (WebSocketService.initial true).
Proof. exact (proj1 (connect_idempotent (WebSocketService.initial true) eq_refl)). Defined.

Section Parked.

Import WebSocketService ConnectionInvariants ConnectionPolicy.

Lemma set_socket_not_connecting (i : nat) (s : Socket) (l : list Socket) :
  s <> CONNECTING ->
  Forall (fun x => x <> CONNECTING) l ->
  Forall (fun x => x <> CONNECTING) (set_socket i s l).
Proof.
  intros Hs Hall. revert i. induction Hall as [|x l Hx Hall IH]; intros [|i]; simpl;
    constructor; auto.
Qed.

Lemma close_socket_not_connecting (i : nat) (l : list Socket) :
  Forall (fun x => x <> CONNECTING) l ->
  Forall (fun x => x <> CONNECTING) (close_socket i l).
Proof.
  intros Hall. unfold close_socket.
  destruct (nth i l CLOSED); try exact Hall;
    apply set_socket_not_connecting; (discriminate || exact Hall).
Qed.







End Parked.



(* ===================================================================== *)
(** ** The listener registry *)
(* ===================================================================== *)

Section Listeners.

Import ChatTypes ChatFrames Subscriptions.

Lemma statuses_seen_app (cb : nat) (r : Registry) (s : ChatStatus) :
  statuses_seen cb (updateStatus s r)
  = (statuses_seen cb r
     ++ map (fun _ => s) (filter (fun l => Nat.eqb l cb) (statusListeners r)))%list.
Proof.
  unfold statuses_seen, updateStatus. cbn [statusCalls statusListeners].
  rewrite filter_app, map_app. f_equal.
  induction (statusListeners r) as [|l ls IH]; [reflexivity|].
  cbn. destruct (Nat.eqb l cb); cbn; now rewrite IH.
Qed.

Lemma updates_listeners (ss : list ChatStatus) : forall r,
  statusListeners (updates ss r) = statusListeners r.
Proof.
  induction ss as [|s ss IH]; intros r; [reflexivity|].
  unfold updates in *. cbn [fold_left]. now rewrite IH.
Qed.

Lemma statuses_seen_updates (cb : nat) (ss : list ChatStatus) :
  forall r (copies : list nat),
    copies = filter (fun l => Nat.eqb l cb) (statusListeners r) ->
    statuses_seen cb (updates ss r)
    = (statuses_seen cb r ++ flat_map (fun s => map (fun _ => s) copies) ss)%list.
Proof.
  induction ss as [|s ss IH]; intros r copies Hc.
  - cbn. now rewrite app_nil_r.
  - unfold updates in *. cbn [fold_left flat_map].
    rewrite (IH _ copies) by exact Hc. rewrite statuses_seen_app, <- Hc.
    now rewrite <- app_assoc.
Qed.

Lemma filter_absent (cb : nat) (l : list nat) :
  ~ In cb l -> filter (fun x => Nat.eqb x cb) l = [].
Proof.
  intros Hn. induction l as [|x l IH]; [reflexivity|].
  cbn. destruct (Nat.eqb_spec x cb) as [->|_]; [exfalso; apply Hn; now left|].
  apply IH. intros H. apply Hn. now right.
Qed.

Lemma filter_is_not_absent (cb : nat) (l : list nat) :
  ~ In cb l -> filter (is_not cb) l = l.
Proof.
  intros Hn. induction l as [|x l IH]; [reflexivity|].
  cbn. unfold is_not at 1. destruct (Nat.eqb_spec x cb) as [->|_];
    [exfalso; apply Hn; now left|].
  cbn. f_equal. apply IH. intros H. apply Hn. now right.
Qed.

Lemma flat_map_singleton {A} (ss : list A) :
  flat_map (fun s => [s]) ss = ss.
Proof. induction ss as [|s ss IH]; [reflexivity|]. cbn. now rewrite IH. Qed.

Lemma flat_map_nil {A B} (ss : list A) :
  flat_map (fun _ => @nil B) ss = [].
Proof. induction ss as [|s ss IH]; [reflexivity|]. exact IH. Qed.

(** X17: a callback that subscribes with [onStatusChange] is called at once
    with the current status and then with every later status, once each and
    in order; it never has to ask for the status. *)
Theorem status_subscriber_sees_everything (cb : nat) (r : Registry)
    (ss : list ChatStatus) :
  ~ In cb (statusListeners r) ->
  statuses_seen cb (updates ss (onStatusChange cb r))
  = (statuses_seen cb r ++ status r :: ss)%list.
Proof.
  intros Hnew. rewrite (statuses_seen_updates cb ss _ [cb]).
  2: { unfold onStatusChange. cbn [statusListeners]. rewrite filter_app.
       assert (E : filter (fun l => Nat.eqb l cb) (statusListeners r) = [])
         by (apply filter_absent; exact Hnew).
       rewrite E. cbn. now rewrite Nat.eqb_refl. }
  cbn [map]. rewrite flat_map_singleton.
  unfold statuses_seen at 1. cbn [statusCalls onStatusChange].
  rewrite filter_app, map_app. cbn. rewrite Nat.eqb_refl. cbn.
  rewrite <- app_assoc. reflexivity.
Qed.

Lemma status_subscriber_sees_everything_witness :
  statuses_seen 7
    (updates [connecting; connected]
       (onStatusChange 7 (mkRegistry [] [3%nat] disconnected [(3%nat, disconnected)] [])))
  = [disconnected; connecting; connected].
Proof.
  apply (status_subscriber_sees_everything 7
           (mkRegistry [] [3%nat] disconnected [(3%nat, disconnected)] [])
           [connecting; connected]).
  cbn. intros [H|[]]. discriminate.
Defined.

(** X18: the unsubscribe function silences its callback altogether: every
    registration of that function value is dropped, even if it was
    registered more than once, the other listeners keep their order, and the
    callback is never called with a later status.  Subscribing a callback
    that was not registered and unsubscribing it again restores the list. *)
Theorem unsubscribe_silences (cb : nat) (r : Registry) (ss : list ChatStatus) :
  ~ In cb (statusListeners (unsubscribeStatus cb r)) /\
  statuses_seen cb (updates ss (unsubscribeStatus cb r)) = statuses_seen cb r /\
  (forall other, other <> cb ->
     filter (fun l => Nat.eqb l other) (statusListeners (unsubscribeStatus cb r))
     = filter (fun l => Nat.eqb l other) (statusListeners r)) /\
  (~ In cb (statusListeners r) ->
   statusListeners (unsubscribeStatus cb (onStatusChange cb r)) = statusListeners r).
Proof.
  assert (Hgone : ~ In cb (statusListeners (unsubscribeStatus cb r))).
  { cbn [statusListeners unsubscribeStatus]. intros Hin.
    apply filter_In in Hin as [_ Hne]. unfold is_not in Hne.
    rewrite Nat.eqb_refl in Hne. discriminate. }
  split; [exact Hgone|]. split; [|split].
  - rewrite (statuses_seen_updates cb ss _ [])
      by (symmetry; apply filter_absent; exact Hgone).
    cbn [map]. rewrite flat_map_nil, app_nil_r. reflexivity.
  - intros other Hne. cbn [statusListeners unsubscribeStatus].
    induction (statusListeners r) as [|l ls IH]; [reflexivity|].
    cbn. unfold is_not at 1.
    destruct (Nat.eqb_spec l cb) as [->|Hl]; cbn.
    + destruct (Nat.eqb_spec cb other) as [E|_]; [congruence|exact IH].
    + destruct (Nat.eqb l other); [f_equal|]; exact IH.
  - intros Hnew. unfold unsubscribeStatus, onStatusChange. cbn [statusListeners].
    rewrite filter_app.
    assert (E : filter (is_not cb) (statusListeners r) = statusListeners r)
      by (apply filter_is_not_absent; exact Hnew).
    rewrite E. cbn. unfold is_not. rewrite Nat.eqb_refl. cbn. apply app_nil_r.
Qed.

Lemma calls_of_listener {A} (cb : nat) (a : A) (ls : list nat) :
  map snd (filter (fun c => Nat.eqb (fst c) cb) (map (fun listener => (listener, a)) ls))
  = map (fun _ => a) (filter (fun l => Nat.eqb l cb) ls).
Proof.
  induction ls as [|l ls IH]; [reflexivity|].
  cbn. destruct (Nat.eqb l cb); cbn; now rewrite IH.
Qed.

Lemma frames_seen_arrivals (cb : nat) (ds : list (option WebSocketMessage)) :
  forall r (copies : list nat),
    copies = filter (fun l => Nat.eqb l cb) (messageListeners r) ->
    frames_seen cb (arrivals ds r)
    = (frames_seen cb r
       ++ flat_map (fun m => map (fun _ => m) copies) (parsed_frames ds))%list.
Proof.
  induction ds as [|d ds IH]; intros r copies Hc.
  - cbn. now rewrite app_nil_r.
  - unfold arrivals in *. cbn [fold_left]. destruct d as [m|].
    + rewrite (IH _ copies) by exact Hc.
      cbn [parsed_frames flat_map handleMessage messageListeners].
      unfold frames_seen at 1. cbn [messageCalls].
      rewrite filter_app, map_app, <- app_assoc. f_equal. f_equal. rewrite Hc.
      apply calls_of_listener.
    + rewrite (IH _ copies) by exact Hc. reflexivity.
Qed.

(** X19: a callback registered once with [onMessage] receives every inbound
    frame that parses, once and in arrival order; a frame that is not valid
    JSON reaches no listener and changes nothing. *)
Theorem message_subscriber_sees_parsed_frames (cb : nat) (r : Registry)
    (ds : list (option WebSocketMessage)) :
  ~ In cb (messageListeners r) ->
  frames_seen cb (arrivals ds (onMessage cb r))
  = (frames_seen cb r ++ parsed_frames ds)%list /\
  handleMessage None r = r.
Proof.
  intros Hnew. split; [|reflexivity]. rewrite (frames_seen_arrivals cb ds _ [cb]).
  2: { unfold onMessage. cbn [messageListeners]. rewrite filter_app.
       assert (E : filter (fun l => Nat.eqb l cb) (messageListeners r) = [])
         by (apply filter_absent; exact Hnew).
       rewrite E. cbn. now rewrite Nat.eqb_refl. }
  cbn [map]. rewrite flat_map_singleton. reflexivity.
Qed.

Lemma message_subscriber_sees_parsed_frames_witness :
  frames_seen 1
    (arrivals [Some (TaskUpdateFrame "done"); None; Some (ErrorFrame None)]
       (onMessage 1 (mkRegistry [] [] disconnected [] [])))
  = [TaskUpdateFrame "done"; ErrorFrame None].
Proof.
  apply (proj1 (message_subscriber_sees_parsed_frames 1
                  (mkRegistry [] [] disconnected [] [])
                  [Some (TaskUpdateFrame "done"); None; Some (ErrorFrame None)]
                  (fun H => H))).
Defined.

End Listeners.

(* ===================================================================== *)
(** ** The chat view-model's socket handlers *)
(* ===================================================================== *)

Section ChatHandlerProofs.

Import ChatTypes ChatFrames ChatHandlers.

Lemma deliver_all_app (ds1 ds2 : list Delivery) (h : Hook) :
  deliver_all (ds1 ++ ds2) h = deliver_all ds2 (deliver_all ds1 h).
Proof. unfold deliver_all. apply fold_left_app. Qed.

Lemma deliver_keeps_ref (d : Delivery) (h : Hook) :
  taskActionCallbackRef (deliver d h) = taskActionCallbackRef h.
Proof.
  destruct h as [st ref calls].
  destruct d as [i now [response actions|message|message]|s];
    try reflexivity.
  - destruct ref; [|reflexivity].
    destruct actions as [[|a rest]|]; reflexivity.
  - destruct s; reflexivity.
Qed.

Lemma deliver_messages (d : Delivery) (h : Hook) :
  ChatViewModel.messages (state (deliver d h))
  = (ChatViewModel.messages (state h) ++ bubbles [d])%list.
Proof.
  destruct h as [st ref calls].
  destruct d as [i now [response actions|message|message]|s];
    try reflexivity.
  - destruct ref; [|reflexivity].
    destruct actions as [[|a rest]|]; reflexivity.
  - cbn [bubbles]. rewrite app_nil_r. destruct s; reflexivity.
Qed.

Lemma deliver_calls (d : Delivery) (h : Hook) :
  actionCalls (deliver d h)
  = (actionCalls h
     ++ match taskActionCallbackRef h with
        | Some cb => map (fun action => (cb, action)) (carried_actions [d])
        | None => []
        end)%list.
Proof.
  destruct h as [st ref calls].
  destruct d as [i now [response actions|message|message]|s];
    destruct ref as [cb|]; cbn; rewrite ?app_nil_r; try reflexivity.
  - destruct actions as [[|a rest]|]; cbn; rewrite ?app_nil_r; reflexivity.
  - destruct s; reflexivity.
  - destruct s; reflexivity.
Qed.

Lemma bubbles_cons (d : Delivery) (ds : list Delivery) :
  bubbles (d :: ds) = (bubbles [d] ++ bubbles ds)%list.
Proof. destruct d; reflexivity. Qed.

Lemma carried_actions_cons (d : Delivery) (ds : list Delivery) :
  carried_actions (d :: ds) = (carried_actions [d] ++ carried_actions ds)%list.
Proof.
  destruct d as [i now [response [actions|]|message|message]|s]; cbn;
    rewrite ?app_nil_r; reflexivity.
Qed.

(** X20: whatever the socket delivers and in whatever order, the transcript
    only grows: it is the transcript before, followed by one agent bubble
    for each frame, in arrival order, and status changes add nothing.  The
    callback stored for task actions is called with every action the chat
    frames carry, once each and in order, and is never replaced; with no
    callback stored nothing is called. *)
Theorem deliveries_extend_transcript (ds : list Delivery) (h : Hook) :
  ChatViewModel.messages (state (deliver_all ds h))
  = (ChatViewModel.messages (state h) ++ bubbles ds)%list /\
  taskActionCallbackRef (deliver_all ds h) = taskActionCallbackRef h /\
  actionCalls (deliver_all ds h)
  = (actionCalls h
     ++ match taskActionCallbackRef h with
        | Some cb => map (fun action => (cb, action)) (carried_actions ds)
        | None => []
        end)%list.
Proof.
  revert h. induction ds as [|d ds IH]; intros h.
  - cbn. destruct (taskActionCallbackRef h); now rewrite !app_nil_r.
  - unfold deliver_all in *. cbn [fold_left].
    destruct (IH (deliver d h)) as (Hm & Hr & Hc).
    rewrite Hm, Hr, Hc, deliver_keeps_ref, deliver_messages, deliver_calls.
    rewrite (bubbles_cons d ds), (carried_actions_cons d ds).
    rewrite <- !app_assoc. split; [reflexivity|]. split; [reflexivity|].
    destruct (taskActionCallbackRef h); [|reflexivity].
    now rewrite map_app.
Qed.

Lemma deliver_statuses_last (ss : list ChatStatus) (s : ChatStatus) (h : Hook) :
  deliver_statuses (ss ++ [s]) h = handleStatusChange s (deliver_statuses ss h).
Proof.
  unfold deliver_statuses. rewrite map_app, deliver_all_app. reflexivity.
Qed.

Lemma deliver_statuses_messages (ss : list ChatStatus) (h : Hook) :
  ChatViewModel.messages (state (deliver_statuses ss h))
  = ChatViewModel.messages (state h).
Proof.
  revert h. induction ss as [|s ss IH]; intros h; [reflexivity|].
  unfold deliver_statuses, deliver_all in *. cbn [map fold_left].
  rewrite IH. destruct s; reflexivity.
Qed.

Lemma last_nonempty {A} (l : list A) :
  forall x d d', last (x :: l) d = last (x :: l) d'.
Proof.
  induction l as [|y l IH]; intros x d d'; [reflexivity|].
  change (last (y :: l) d = last (y :: l) d'). apply IH.
Qed.

Lemma registry_status_updates (ss : list ChatStatus) (r : Subscriptions.Registry) :
  Subscriptions.status (Subscriptions.updates ss r)
  = last ss (Subscriptions.status r).
Proof.
  revert r. induction ss as [|s ss IH]; intros r; [reflexivity|].
  unfold Subscriptions.updates in *. cbn [fold_left]. rewrite IH.
  cbn [Subscriptions.status Subscriptions.updateStatus].
  destruct ss as [|c ss]; [reflexivity|].
  change (last (c :: ss) s = last (c :: ss) (Subscriptions.status r)).
  apply last_nonempty.
Qed.

Lemma last_snoc_form {A} (x : A) (l : list A) :
  exists front, (x :: l) = (front ++ [last l x])%list.
Proof.
  revert x. induction l as [|y l IH]; intros x.
  - exists []. reflexivity.
  - destruct (IH y) as [front Hf]. exists (x :: front).
    assert (E : last (y :: l) x = last l y).
    { destruct l as [|c l']; [reflexivity|].
      change (last (c :: l') x = last (c :: l') y). apply last_nonempty. }
    rewrite E. cbn [app]. now rewrite <- Hf.
Qed.

(** X21: a hook that subscribes [handleStatusChange] to the service shows
    the service's status: after the immediate call-back and any number of
    status updates, [connectionStatus] is the status the service holds, the
    transcript is untouched, and while the status is [error] or
    [disconnected] the hook is not processing and its error is the
    connection message, respectively cleared. *)
Theorem shown_status_is_service_status (cb : nat) (r : Subscriptions.Registry)
    (ss : list ChatStatus) (h : Hook) :
  ~ In cb (Subscriptions.statusListeners r) ->
  Subscriptions.statuses_seen cb r = [] ->
  let r' := Subscriptions.updates ss (Subscriptions.onStatusChange cb r) in
  let h' := deliver_statuses (Subscriptions.statuses_seen cb r') h in
  ChatViewModel.connectionStatus (state h') = Subscriptions.status r' /\
  ChatViewModel.messages (state h') = ChatViewModel.messages (state h) /\
  (Subscriptions.status r' = ChatTypes.error ->
   ChatViewModel.isProcessing (state h') = false /\
   ChatViewModel.error (state h') = Some CONNECTION_ERROR) /\
  (Subscriptions.status r' = disconnected ->
   ChatViewModel.isProcessing (state h') = false /\
   ChatViewModel.error (state h') = None).
Proof.
  intros Hnew Hfresh r' h'.
  assert (Hseen : Subscriptions.statuses_seen cb r'
                  = Subscriptions.status r :: ss).
  { unfold r'. rewrite (statuses_seen_updates cb ss _ [cb]).
    2: { unfold Subscriptions.onStatusChange. cbn [Subscriptions.statusListeners].
         rewrite filter_app.
         assert (E : filter (fun l => Nat.eqb l cb) (Subscriptions.statusListeners r) = [])
           by (apply filter_absent; exact Hnew).
         rewrite E. cbn. now rewrite Nat.eqb_refl. }
    cbn [map]. rewrite flat_map_singleton.
    unfold Subscriptions.statuses_seen at 1.
    cbn [Subscriptions.statusCalls Subscriptions.onStatusChange].
    rewrite filter_app, map_app.
    unfold Subscriptions.statuses_seen in Hfresh. rewrite Hfresh.
    cbn. rewrite Nat.eqb_refl. reflexivity. }
  assert (Hst : Subscriptions.status r' = last ss (Subscriptions.status r)).
  { unfold r'. rewrite registry_status_updates. reflexivity. }
  split; [|split].
  - unfold h'. rewrite Hseen, Hst.
    destruct (last_snoc_form (Subscriptions.status r) ss) as [front Hf].
    rewrite Hf, deliver_statuses_last.
    destruct (last ss (Subscriptions.status r)); reflexivity.
  - unfold h'. apply deliver_statuses_messages.
  - unfold h'. rewrite Hseen, Hst.
    destruct (last_snoc_form (Subscriptions.status r) ss) as [front Hf].
    rewrite Hf, deliver_statuses_last.
    split; intros E; rewrite E; split; reflexivity.
Qed.

Lemma shown_status_is_service_status_witness :
  ChatViewModel.connectionStatus
    (state (deliver_statuses
       (Subscriptions.statuses_seen 4
          (Subscriptions.updates [connecting; ChatTypes.error]
             (Subscriptions.onStatusChange 4
                (Subscriptions.mkRegistry [] [] disconnected [] []))))
       (mkHook (ChatViewModel.initialState 0) None [])))
  = ChatTypes.error.
Proof.
  exact (proj1 (shown_status_is_service_status 4
                  (Subscriptions.mkRegistry [] [] disconnected [] [])
                  [connecting; ChatTypes.error]
                  (mkHook (ChatViewModel.initialState 0) None [])
                  (fun H => H) eq_refl)).
Defined.

End ChatHandlerProofs.

(* ===================================================================== *)
(** ** The manual-disconnect flag outlives [connect()] *)
(* ===================================================================== *)

Section ManualFlagProofs.

Import ChatTypes WebSocketService ManualFlag.

Lemma clear_timer_incl (h : nat) (l : list Timer) :
  incl (clear_timer h l) l.
Proof. intros t Ht. apply filter_In in Ht. exact (proj1 Ht). Qed.

Lemma manual_step (e : Event) (st : State) :
  isManualDisconnect st = true ->
  is_open_event e = false ->
  isManualDisconnect (step e st) = true /\
  nextHandle (step e st) = nextHandle st /\
  reconnectAttempts (step e st) = reconnectAttempts st /\
  incl (timers (step e st)) (timers st).
Proof.
  intros Hm Hno.
  assert (Hconn : forall s, isManualDisconnect s = true ->
            isManualDisconnect (connect s) = true /\
            nextHandle (connect s) = nextHandle s /\
            reconnectAttempts (connect s) = reconnectAttempts s /\
            timers (connect s) = timers s).
  { intros s Hs. unfold connect.
    destruct (match ws s with
              | Some i => connecting_or_open (socket_at i s)
              | None => false
              end); [repeat split; exact Hs|].
    cbn [urlValid updateStatus]. destruct (urlValid s); repeat split; exact Hs. }
  destruct e as [| |c|i|i|i|h|i]; cbn [step]; try discriminate.
  - destruct (Hconn st Hm) as (A & B & C & D). rewrite D.
    repeat split; try assumption. apply incl_refl.
  - unfold disconnect. cbn. repeat split.
    destruct (reconnectTimeout st); [apply clear_timer_incl|apply incl_refl].
  - unfold sendMessage. destruct (isConnected st).
    + cbn. repeat split; try assumption. apply incl_refl.
    + cbn [negb]. unfold tryReconnect.
      cbn [isManualDisconnect updateStatus]. rewrite Hm. cbn.
      repeat split; try assumption. apply incl_refl.
  - unfold handleError.
    cbn [ws updateStatus with_sockets isManualDisconnect].
    destruct (ws st); cbn; rewrite Hm; cbn;
      repeat split; try assumption; apply incl_refl.
  - unfold handleClose. cbn. rewrite Hm. cbn.
    repeat split; try assumption; apply incl_refl.
  - destruct (Hconn (with_timers (clear_timer h (timers st)) st) Hm)
      as (A & B & C & D).
    rewrite D. repeat split; try assumption. cbn. apply clear_timer_incl.
  - cbn. repeat split; try assumption. apply incl_refl.
Qed.

(** X22: [connect()] does not clear the manual-disconnect flag; only a
    socket that opens does.  So once [disconnect()] has been called, as long
    as no socket opens, whatever else happens -- further connects, failed
    or closed sockets, sends, timers firing -- the service never sets a
    timer and never counts an attempt: a connection started with
    [connect()] after [disconnect()] that fails is not retried. *)
Theorem no_retry_until_a_socket_opens (st st' : State) (trace : list Event) :
  isManualDisconnect st = true ->
  no_open trace = true ->
  run trace st = Some st' ->
  isManualDisconnect st' = true /\
  nextHandle st' = nextHandle st /\
  reconnectAttempts st' = reconnectAttempts st /\
  incl (timers st') (timers st).
Proof.
  revert st st'. induction trace as [|e trace IH]; intros st st' Hm Hno Hrun.
  - injection Hrun as <-. repeat split; try assumption. apply incl_refl.
  - cbn in Hno. apply andb_true_iff in Hno as [He Hno].
    apply negb_true_iff in He.
    cbn [run] in Hrun. destruct (enabled e st); [|discriminate].
    destruct (manual_step e st Hm He) as (A & B & C & D).
    destruct (IH _ _ A Hno Hrun) as (A' & B' & C' & D').
    repeat split; try congruence.
    intros t Ht. apply D, D', Ht.
Qed.

Lemma no_retry_until_a_socket_opens_witness :
  exists st',
    run [CallConnect; SocketCloses 0] (disconnect (initial true)) = Some st' /\
    isManualDisconnect st' = true /\
    timers st' = [] /\
    status st' = connecting.
Proof.
  destruct (no_retry_until_a_socket_opens (disconnect (initial true))
              (step (SocketCloses 0) (step CallConnect (disconnect (initial true))))
              [CallConnect; SocketCloses 0] eq_refl eq_refl eq_refl)
    as (A & _ & _ & D).
  eexists. split; [reflexivity|]. split; [exact A|]. split; reflexivity.
Defined.

End ManualFlagProofs.

(* ===================================================================== *)
(** ** clsx *)
(* ===================================================================== *)

Section ClsxProofs.

Import Clsx.

Lemma append_nil_r (s : string) : (s ++ "")%string = s.
Proof. induction s as [|c s IH]; [reflexivity|]. cbn. now rewrite IH. Qed.

Lemma append_assoc (a b c : string) :
  ((a ++ b) ++ c)%string = (a ++ (b ++ c))%string.
Proof. induction a as [|x a IH]; [reflexivity|]. cbn. now rewrite IH. Qed.

Lemma appended_all_app (l1 l2 : list string) :
  appended_all (l1 ++ l2) = (appended_all l1 ++ appended_all l2)%string.
Proof.
  unfold appended_all. induction l1 as [|s l1 IH]; [reflexivity|].
  cbn [app fold_right]. rewrite IH. now rewrite append_assoc.
Qed.

Lemma object_tokens (entries : list (string * bool)) :
  appended_all (map (fun e : string * bool => if snd e then " " ++ fst e else "")
                  entries)
  = appended_all (map (String.append " ")
                    (map fst (filter (fun e : string * bool => snd e) entries))).
Proof.
  unfold appended_all. induction entries as [|[k v] entries IH]; [reflexivity|].
  destruct v; cbn [map filter snd fst fold_right]; rewrite IH; reflexivity.
Qed.

(** Each input appends a space before every name it stands for. *)
Lemma appended_tokens (input : ClassValue) :
  appended input = appended_all (map (String.append " ") (tokens input)).
Proof.
  destruct input as [s|n|b| | |entries|items]; cbn [tokens map appended_all fold_right];
    try reflexivity.
  - cbn. now rewrite append_nil_r.
  - cbn. now rewrite append_nil_r.
  - cbn [appended]. apply object_tokens.
  - cbn [appended]. fold (clsx items). cbn. now rewrite append_nil_r.
Qed.

Lemma appended_all_tokens (inputs : list ClassValue) :
  appended_all (map appended inputs)
  = appended_all (map (String.append " ") (flat_map tokens inputs)).
Proof.
  induction inputs as [|x inputs IH]; [reflexivity|].
  cbn [map flat_map appended_all fold_right].
  rewrite map_app, appended_all_app, <- IH, <- appended_tokens. reflexivity.
Qed.

Lemma joined_after (t : string) (ts : list string) :
  (t ++ appended_all (map (String.append " ") ts))%string
  = String.concat " " (t :: ts).
Proof.
  revert t. induction ts as [|t' ts IH]; intros t.
  - cbn. apply append_nil_r.
  - change (String.concat " " (t :: t' :: ts))
      with (t ++ " " ++ String.concat " " (t' :: ts))%string.
    rewrite <- (IH t'). unfold appended_all. cbn [map fold_right].
    now rewrite append_assoc.
Qed.

Lemma substring1_joined (ts : list string) :
  substring1 (appended_all (map (String.append " ") ts)) = String.concat " " ts.
Proof.
  destruct ts as [|t ts]; [reflexivity|].
  cbn [map appended_all fold_right]. cbn [append substring1].
  apply joined_after.
Qed.

(** X23: [clsx] is the join, with single spaces, of the names its inputs
    stand for: a string or a number is one name (an empty string too), an
    object gives its keys with truthy values in order, [null], [undefined]
    and booleans give none, and an array gives one name, the [clsx] of its
    items, also when that is empty. *)
Theorem clsx_joins_tokens (inputs : list ClassValue) :
  clsx inputs = String.concat " " (flat_map tokens inputs).
Proof.
  unfold clsx. rewrite appended_all_tokens. apply substring1_joined.
Qed.

Lemma starts_with_space (ts : list string) :
  ts <> [] ->
  (" " ++ substring1 (appended_all (map (String.append " ") ts)))%string
  = appended_all (map (String.append " ") ts).
Proof.
  destruct ts as [|t ts]; [congruence|]. intros _. reflexivity.
Qed.

(** X24: an array among the inputs may be spliced in place when its items
    stand for at least one name; an array that stands for none, such as
    [[]] or [[false]], is not ignored but counts as one empty name and
    leaves a space of its own. *)
Theorem array_splices_when_it_names_something (before after items : list ClassValue) :
  flat_map tokens items <> [] ->
  clsx (before ++ CArray items :: after) = clsx (before ++ items ++ after) /\
  forall others, flat_map tokens others = [] ->
    clsx (before ++ CArray others :: after) = clsx (before ++ CString "" :: after).
Proof.
  intros Hsome. split.
  - unfold clsx. f_equal.
    rewrite !map_app, !appended_all_app. f_equal.
    change (appended_all (map appended (CArray items :: after)))
      with (appended (CArray items) ++ appended_all (map appended after))%string.
    f_equal. cbn [appended]. rewrite appended_all_tokens.
    apply starts_with_space. exact Hsome.
  - intros others Hnone. unfold clsx. f_equal.
    rewrite !map_app, !appended_all_app. f_equal.
    change (appended_all (map appended (CArray others :: after)))
      with (appended (CArray others) ++ appended_all (map appended after))%string.
    change (appended_all (map appended (CString "" :: after)))
      with (appended (CString "") ++ appended_all (map appended after))%string.
    f_equal. cbn [appended]. rewrite appended_all_tokens, Hnone. reflexivity.
Qed.

Lemma array_splices_when_it_names_something_witness :
  clsx [CString "flex"; CArray [CNull; CString "p-2"; CObject [("dark", true)]];
        CBoolean false]
  = clsx [CString "flex"; CNull; CString "p-2"; CObject [("dark", true)];
          CBoolean false].
Proof.
  apply (proj1 (array_splices_when_it_names_something [CString "flex"]
                  [CBoolean false]
                  [CNull; CString "p-2"; CObject [("dark", true)]]
                  ltac:(discriminate))).
Defined.

End ClsxProofs.

(* ===================================================================== *)
(** ** The theme view-model *)
(* ===================================================================== *)

Section ThemeProofs.

Import ThemeViewModel.

Lemma theme_name_stored (d : bool) :
  (Some (theme_name d) = Some DARK -> d = true) /\
  (Some (theme_name d) = Some LIGHT -> d = false).
Proof. destruct d; split; intros H; try reflexivity; discriminate. Qed.

Lemma mount_in_sync (b : Browser) : theme_in_sync (mount b).
Proof.
  unfold theme_in_sync, mount, checkUserColorScheme. cbn.
  repeat split; intros ->; reflexivity.
Qed.

Lemma setTheme_in_sync (d : bool) (h : Hook) :
  isLoading (fst h) = false -> theme_in_sync (setTheme d h).
Proof.
  intros Hl. unfold theme_in_sync, setTheme. cbn.
  repeat split; try exact Hl; apply theme_name_stored.
Qed.

Lemma step_in_sync (e : Event) (h : Hook) :
  theme_in_sync h -> theme_in_sync (step e h).
Proof.
  intros (Hd & Hl & Hdark & Hlight). destruct e as [|d| |m]; cbn [step].
  - unfold theme_in_sync, toggleTheme. cbn.
    repeat split; try exact Hl; apply theme_name_stored.
  - apply setTheme_in_sync. exact Hl.
  - unfold theme_in_sync, resetTheme. cbn.
    repeat split; try exact Hl; discriminate.
  - unfold systemChanges. cbn [snd listening].
    destruct (listening (snd h)).
    + apply setTheme_in_sync. exact Hl.
    + unfold theme_in_sync. cbn. repeat split; assumption.
Qed.

Lemma run_in_sync (es : list Event) (h : Hook) :
  theme_in_sync h -> theme_in_sync (run es h).
Proof.
  revert h. induction es as [|e es IH]; intros h Hh; [exact Hh|].
  unfold run in *. cbn [fold_left]. apply IH, step_in_sync, Hh.
Qed.

Lemma step_listening (e : Event) (h : Hook) :
  listening (snd (step e h)) = listening (snd h).
Proof.
  destruct e as [|d| |m]; try reflexivity.
  cbn [step]. unfold systemChanges. cbn [snd listening].
  destruct (listening (snd h)) eqn:E; cbn; now rewrite ?E.
Qed.

Lemma run_listening (es : list Event) (h : Hook) :
  listening (snd (run es h)) = listening (snd h).
Proof.
  revert h. induction es as [|e es IH]; intros h; [reflexivity|].
  unfold run in *. cbn [fold_left]. rewrite IH. apply step_listening.
Qed.

End ThemeProofs.

Section ThemePageProofs.

Import ThemeViewModel.

Lemma set_instance_length (k : nat) (inst : Instance) (l : list Instance) :
  List.length (set_instance k inst l) = List.length l.
Proof.
  revert k. induction l as [|x l IH]; intros [|k]; simpl; try reflexivity.
  now rewrite IH.
Qed.

Lemma set_instance_Forall (P : Instance -> Prop) (k : nat) (inst : Instance)
    (l : list Instance) :
  P inst -> Forall P l -> Forall P (set_instance k inst l).
Proof.
  intros Hi Hl. revert k. induction Hl as [|x l Hx Hl IH]; intros [|k]; simpl;
    constructor; auto.
Qed.

Lemma on_instance_length (k : nat) (f : Hook -> Hook) (p : Page) :
  List.length (instances (on_instance k f p)) = List.length (instances p).
Proof.
  unfold on_instance. destruct (nth_error (instances p) k); [|reflexivity].
  cbn. apply set_instance_length.
Qed.

Lemma toggleTheme_keeps : keeps_page_in_sync toggleTheme.
Proof.
  intros h. unfold toggleTheme. cbn. split; [reflexivity|]. split; [|reflexivity].
  intros _ _. apply theme_name_stored.
Qed.

Lemma setTheme_keeps (d : bool) : keeps_page_in_sync (setTheme d).
Proof.
  intros h. unfold setTheme. cbn. split; [reflexivity|]. split; [|reflexivity].
  intros _ _. apply theme_name_stored.
Qed.

Lemma resetTheme_keeps : keeps_page_in_sync resetTheme.
Proof.
  intros h. unfold resetTheme. cbn. split; [reflexivity|]. split; [|reflexivity].
  intros _ _. split; discriminate.
Qed.

Lemma handleChange_keeps (m : bool) :
  keeps_page_in_sync (fun h => if listening (snd h) then setTheme m h else h).
Proof.
  intros h. destruct (listening (snd h)); [apply setTheme_keeps|].
  split; [reflexivity|]. split; auto.
Qed.

Lemma on_instance_in_sync (k : nat) (f : Hook -> Hook) (p : Page) :
  keeps_page_in_sync f -> page_in_sync p -> page_in_sync (on_instance k f p).
Proof.
  intros Hf (Hload & Hd & Hl). unfold on_instance.
  destruct (nth_error (instances p) k) as [inst|] eqn:Hk; [|now split].
  destruct (Hf (view p inst)) as (Hlo & Hst & _).
  destruct (Hst Hd Hl) as [Hd' Hl'].
  unfold page_in_sync. cbn [instances page_stored page_dom].
  split; [|split; assumption].
  apply set_instance_Forall; [|exact Hload]. cbn [hook_state].
  rewrite Hlo. cbn. rewrite Forall_forall in Hload.
  apply Hload. eapply nth_error_In; eauto.
Qed.

(** With one hook on the page, the hook and the document stay in step. *)
Lemma on_instance_single (k : nat) (f : Hook -> Hook) (p : Page) :
  keeps_page_in_sync f ->
  List.length (instances p) = 1%nat -> all_agree p -> all_agree (on_instance k f p).
Proof.
  intros Hf Hlen Hag. unfold on_instance.
  destruct (instances p) as [|inst [|y l]] eqn:Hi; try discriminate.
  destruct k as [|k]; cbn [nth_error]; [|destruct k; exact Hag].
  destruct (Hf (view p inst)) as (_ & _ & Hsync).
  unfold all_agree in *. cbn [instances page_dom set_instance]. rewrite Hi in Hag.
  constructor; [|constructor]. cbn [hook_state]. symmetry. apply Hsync.
  cbn. inversion Hag as [|? ? H1 _]. now rewrite H1.
Qed.

Lemma dispatch_change_facts (m : bool) (k : nat) (p : Page) :
  page_in_sync p ->
  page_in_sync (dispatch_change m k p) /\
  List.length (instances (dispatch_change m k p)) = List.length (instances p) /\
  (List.length (instances p) = 1%nat -> all_agree p ->
   all_agree (dispatch_change m k p)).
Proof.
  intros Hp. induction k as [|k IH]; [auto|].
  destruct IH as (Hs & Hlen & Hone). cbn [dispatch_change].
  split; [apply on_instance_in_sync; [apply handleChange_keeps|exact Hs]|].
  split; [rewrite on_instance_length; exact Hlen|].
  intros H1 Hag. apply on_instance_single;
    [apply handleChange_keeps | congruence | now apply Hone].
Qed.

Lemma page_step_facts (e : PageEvent) (p : Page) :
  page_in_sync p ->
  page_in_sync (page_step e p) /\
  List.length (instances (page_step e p)) = List.length (instances p) /\
  (List.length (instances p) = 1%nat -> all_agree p -> all_agree (page_step e p)).
Proof.
  intros Hp. destruct e as [k|k d|k|m]; cbn [page_step].
  - split; [apply on_instance_in_sync; [apply toggleTheme_keeps|exact Hp]|].
    split; [apply on_instance_length|].
    intros; apply on_instance_single; auto using toggleTheme_keeps.
  - split; [apply on_instance_in_sync; [apply setTheme_keeps|exact Hp]|].
    split; [apply on_instance_length|].
    intros; apply on_instance_single; auto using setTheme_keeps.
  - split; [apply on_instance_in_sync; [apply resetTheme_keeps|exact Hp]|].
    split; [apply on_instance_length|].
    intros; apply on_instance_single; auto using resetTheme_keeps.
  - apply (dispatch_change_facts m (List.length (instances p))
             (mkPage (instances p) (page_stored p) m (page_dom p))).
    exact Hp.
Qed.

Lemma page_run_facts (es : list PageEvent) (p : Page) :
  page_in_sync p ->
  page_in_sync (page_run es p) /\
  List.length (instances (page_run es p)) = List.length (instances p) /\
  (List.length (instances p) = 1%nat -> all_agree p -> all_agree (page_run es p)).
Proof.
  revert p. induction es as [|e es IH]; intros p Hp; [auto|].
  unfold page_run in *. cbn [fold_left].
  destruct (page_step_facts e p Hp) as (Hs & Hlen & Hone).
  destruct (IH _ Hs) as (Hs' & Hlen' & Hone').
  split; [exact Hs'|]. split; [congruence|].
  intros H1 Hag. apply Hone'; [congruence|now apply Hone].
Qed.

(** Just after the page is opened every hook shows what
    [checkUserColorScheme] read, and so does the document. *)
Lemma open_page_facts (n : nat) (b : Browser) :
  let p := open_page n b in
  page_stored p = storedTheme b /\ page_system p = systemDark b /\
  List.length (instances p) = n /\
  Forall (fun inst => hook_state inst = mkState (checkUserColorScheme b) false)
    (instances p) /\
  (n <> 0%nat -> page_dom p = checkUserColorScheme b).
Proof.
  induction n as [|n IH]; cbn zeta.
  - cbn. repeat split; try constructor. congruence.
  - unfold open_page in *. rewrite Nat.iter_succ. cbn zeta in IH.
    set (p := Nat.iter n mount_one _) in *.
    destruct IH as (Hst & Hsy & Hlen & Hall & Hdom).
    assert (Hc : checkUserColorScheme
                   (mkBrowser (page_stored p) (page_system p) (page_dom p) false)
                 = checkUserColorScheme b).
    { unfold checkUserColorScheme. cbn [storedTheme systemDark].
      now rewrite Hst, Hsy. }
    unfold mount_one, mount. rewrite Hc.
    cbn [instances page_stored page_system page_dom fst snd storedTheme systemDark
         domDark listening set_dom].
    split; [exact Hst|]. split; [exact Hsy|].
    split; [rewrite length_app, Hlen; cbn; lia|].
    split; [|reflexivity].
    apply Forall_app. split; [exact Hall|]. constructor; [reflexivity|constructor].
Qed.

Lemma open_page_agrees (n : nat) (b : Browser) :
  page_in_sync (open_page (S n) b) /\ all_agree (open_page (S n) b) /\
  page_dom (open_page (S n) b) = checkUserColorScheme b /\
  List.length (instances (open_page (S n) b)) = S n.
Proof.
  destruct (open_page_facts (S n) b) as (Hst & Hsy & Hlen & Hall & Hdom).
  specialize (Hdom ltac:(discriminate)).
  split; [|split; [|split; [exact Hdom|exact Hlen]]].
  - split; [|rewrite Hst, Hdom; unfold checkUserColorScheme; split; intros ->; reflexivity].
    eapply Forall_impl; [|exact Hall]. intros inst ->. reflexivity.
  - unfold all_agree. rewrite Hdom.
    eapply Forall_impl; [|exact Hall]. intros inst ->. reflexivity.
Qed.

End ThemePageProofs.

(** X25: on a page on which one or more components use the theme hook,
    whatever the users of the hooks and the system do, every hook has
    finished loading and a stored preference of [dark] or [light] agrees
    with the [dark] class of the document; so reloading the page while such
    a preference is stored shows the same theme again, in the document and
    in every hook.  With a single hook on the page its [isDark] agrees with
    the document at all times; with more than one it need not, because each
    hook keeps a state of its own and only the acting hook is updated. *)
Theorem theme_stays_in_sync (n : nat) (b : ThemeViewModel.Browser)
    (es : list ThemeViewModel.PageEvent) :
  let p := ThemeViewModel.page_run es (ThemeViewModel.open_page (S n) b) in
  ThemeViewModel.page_in_sync p /\
  ThemeViewModel.all_agree (ThemeViewModel.open_page (S n) b) /\
  (n = 0%nat -> ThemeViewModel.all_agree p) /\
  (ThemeViewModel.page_stored p = Some ThemeViewModel.DARK \/
   ThemeViewModel.page_stored p = Some ThemeViewModel.LIGHT ->
   ThemeViewModel.all_agree (ThemeViewModel.page_reload p) /\
   ThemeViewModel.page_dom (ThemeViewModel.page_reload p) = ThemeViewModel.page_dom p).
Proof.
  intros p.
  destruct (open_page_agrees n b) as (Hs0 & Hag0 & Hdom0 & Hlen0).
  destruct (page_run_facts es _ Hs0) as (Hs & Hlen & Hone). fold p in Hs, Hlen, Hone.
  split; [exact Hs|]. split; [exact Hag0|]. split.
  - intros ->. apply Hone; [exact Hlen0|exact Hag0].
  - intros Hstored. unfold ThemeViewModel.page_reload. rewrite Hlen, Hlen0.
    destruct (open_page_agrees n
                (ThemeViewModel.mkBrowser (ThemeViewModel.page_stored p)
                   (ThemeViewModel.page_system p) (ThemeViewModel.page_dom p) false))
      as (_ & Hag & Hdom & _).
    split; [exact Hag|]. rewrite Hdom.
    destruct Hs as (_ & Hd & Hl).
    unfold ThemeViewModel.checkUserColorScheme. cbn [ThemeViewModel.storedTheme].
    destruct Hstored as [E|E]; rewrite E; cbn; symmetry; auto.
Qed.

Lemma theme_stays_in_sync_witness :
  let p := ThemeViewModel.page_run [ThemeViewModel.ToggleOn 0]
             (ThemeViewModel.open_page 2
                (ThemeViewModel.mkBrowser None false false false)) in
  ThemeViewModel.page_dom p = true /\
  map (fun inst => ThemeViewModel.isDark (ThemeViewModel.hook_state inst))
    (ThemeViewModel.instances p) = [true; false] /\
  ThemeViewModel.all_agree (ThemeViewModel.page_reload p).
Proof.
  intros p. split; [reflexivity|]. split; [reflexivity|].
  exact (proj1 (proj2 (proj2 (proj2 (theme_stays_in_sync 1
                  (ThemeViewModel.mkBrowser None false false false)
                  [ThemeViewModel.ToggleOn 0])))
           (or_introl eq_refl))).
Defined.

(** X26: whether the hook follows the system preference is decided once, at
    mount: if nothing was stored then, every later change of the system
    preference sets the theme and stores it, also after the user has chosen
    a theme by hand; if something was stored then, no change of the system
    preference is ever followed, also after [resetTheme]. *)
Theorem system_changes_followed_as_at_mount (b : ThemeViewModel.Browser)
    (es : list ThemeViewModel.Event) (matches : bool) :
  let h := ThemeViewModel.run es (ThemeViewModel.mount b) in
  let h' := ThemeViewModel.step (ThemeViewModel.SystemChanges matches) h in
  if ThemeViewModel.nothing_stored b
  then ThemeViewModel.isDark (fst h') = matches /\
       ThemeViewModel.storedTheme (snd h')
       = Some (ThemeViewModel.theme_name matches)
  else ThemeViewModel.isDark (fst h') = ThemeViewModel.isDark (fst h) /\
       ThemeViewModel.storedTheme (snd h') = ThemeViewModel.storedTheme (snd h).
Proof.
  intros h h'.
  assert (Hl : ThemeViewModel.listening (snd h) = ThemeViewModel.nothing_stored b).
  { unfold h. rewrite run_listening. reflexivity. }
  unfold h'. cbn [ThemeViewModel.step]. unfold ThemeViewModel.systemChanges.
  cbn [snd ThemeViewModel.listening]. rewrite Hl.
  destruct (ThemeViewModel.nothing_stored b); split; reflexivity.
Qed.



(* ===================================================================== *)
(** ** fetchWithErrorHandling *)
(* ===================================================================== *)

(** X27: for a response that is not [ok], [fetchWithErrorHandling] throws
    [HTTP error <status>] and nothing else: the error it builds from the
    [message] of the body is thrown inside the [try] whose [catch] replaces
    it, so the server's message never reaches the caller, whether the body
    parses or not. *)
Theorem not_ok_throws_http_error (Json : Type)
    (message_of : Json -> Outcome (option string)) (empty_object : Json)
    (response : ApiFetch.Response Json) :
  ApiFetch.ok response = false ->
  ApiFetch.fetchWithErrorHandling message_of empty_object (Ok response)
  = Throw ("HTTP error " ++ ApiFetch.show_status (ApiFetch.http_status response))%string.
Proof.
  intros Hok. unfold ApiFetch.fetchWithErrorHandling. rewrite Hok. cbn [negb].
  destruct (ApiFetch.json response) as [errorData|e]; [|reflexivity].
  destruct (message_of errorData) as [m|e]; reflexivity.
Qed.

Lemma not_ok_throws_http_error_witness :
  ApiFetch.fetchWithErrorHandling (fun body : option string => Ok body) None
    (Ok (ApiFetch.mkResponse false 404 (Some "application/json")
           (Ok (Some "Task 12 does not exist"))))
  = Throw "HTTP error 404".
Proof.
  exact (not_ok_throws_http_error (option string) (fun body => Ok body) None
           (ApiFetch.mkResponse false 404 (Some "application/json")
              (Ok (Some "Task 12 does not exist")))
           eq_refl).
Defined.

(* ===================================================================== *)
(** ** The task list *)
(* ===================================================================== *)

Section TaskListProofs.

Import TaskList.

Variable cmp : Task -> Task -> Z.

Lemma insert_with_perm (t : Task) (l : list Task) :
  Permutation (insert_with cmp t l) (t :: l).
Proof.
  induction l as [|x l IH]; [apply Permutation_refl|].
  cbn. destruct (cmp t x >? 0).
  - apply perm_trans with (x :: t :: l); [now apply perm_skip|apply perm_swap].
  - apply Permutation_refl.
Qed.

Lemma sort_with_perm (l : list Task) : Permutation (sort_with cmp l) l.
Proof.
  induction l as [|t l IH]; [apply perm_nil|].
  cbn. eapply perm_trans; [apply insert_with_perm|]. now apply perm_skip.
Qed.

(** Stability: tasks the comparator does not put strictly apart keep their
    relative order. *)
Lemma insert_with_filter (P : Task -> bool) (t : Task) (l : list Task) :
  (forall a b, P a = true -> P b = true -> cmp a b <= 0) ->
  filter P (insert_with cmp t l) = filter P (t :: l).
Proof.
  intros Hc. induction l as [|x l IH]; [reflexivity|].
  cbn [insert_with]. destruct (cmp t x >? 0) eqn:E; [|reflexivity].
  apply Z.gtb_lt in E. cbn [filter] in *. rewrite IH.
  destruct (P t) eqn:Pt, (P x) eqn:Px; try reflexivity.
  specialize (Hc t x Pt Px). lia.
Qed.

Lemma sort_with_filter (P : Task -> bool) (l : list Task) :
  (forall a b, P a = true -> P b = true -> cmp a b <= 0) ->
  filter P (sort_with cmp l) = filter P l.
Proof.
  intros Hc. induction l as [|t l IH]; [reflexivity|].
  cbn [sort_with fold_right]. rewrite insert_with_filter by exact Hc.
  cbn [filter]. fold (sort_with cmp l). now rewrite IH.
Qed.

Hypothesis cmp_total : forall a b, cmp a b > 0 -> cmp b a <= 0.
Hypothesis cmp_trans : forall a b c, cmp a b <= 0 -> cmp b c <= 0 -> cmp a c <= 0.

Lemma insert_with_sorted (t : Task) (l : list Task) :
  StronglySorted (fun a b => cmp a b <= 0) l ->
  StronglySorted (fun a b => cmp a b <= 0) (insert_with cmp t l).
Proof.
  induction l as [|x l IH]; intros Hs.
  - cbn. constructor; constructor.
  - apply StronglySorted_inv in Hs as [Hs Hx].
    cbn [insert_with]. destruct (cmp t x >? 0) eqn:E.
    + apply Z.gtb_lt in E. constructor; [apply IH, Hs|].
      apply (Permutation_Forall (Permutation_sym (insert_with_perm t l))).
      constructor; [apply cmp_total; lia|exact Hx].
    + assert (Htx : cmp t x <= 0).
      { destruct (Z.gtb_spec (cmp t x) 0); [discriminate|lia]. }
      constructor; [constructor; assumption|].
      constructor; [exact Htx|].
      eapply Forall_impl; [|exact Hx]. intros b Hb. cbn in Hb.
      exact (cmp_trans t x b Htx Hb).
Qed.

Lemma sort_with_sorted (l : list Task) :
  StronglySorted (fun a b => cmp a b <= 0) (sort_with cmp l).
Proof.
  induction l as [|t l IH]; [constructor|].
  cbn. apply insert_with_sorted, IH.
Qed.

End TaskListProofs.

Lemma compare_total (k : TaskList.SortBy) (a b : Task) :
  TaskList.compare k a b > 0 -> TaskList.compare k b a <= 0.
Proof.
  destruct k; unfold TaskList.compare, JsDate.ofDateOnly, JsDate.msPerDay.
  - lia.
  - destruct (due_date a), (due_date b); lia.
  - lia.
Qed.

Lemma compare_trans (k : TaskList.SortBy) (a b c : Task) :
  TaskList.compare k a b <= 0 -> TaskList.compare k b c <= 0 ->
  TaskList.compare k a c <= 0.
Proof.
  destruct k; unfold TaskList.compare, JsDate.ofDateOnly, JsDate.msPerDay.
  - lia.
  - destruct (due_date a), (due_date b), (due_date c); lia.
  - lia.
Qed.

Lemma sorted_tail (R : Task -> Task -> Prop) (before : list Task) :
  forall l, StronglySorted R (before ++ l) -> StronglySorted R l.
Proof.
  induction before as [|x before IH]; intros l Hs; [exact Hs|].
  apply IH. cbn in Hs. apply StronglySorted_inv in Hs. exact (proj1 Hs).
Qed.

(** X28: the list shows exactly the tasks of the cache that pass the two
    filters, each as often as the cache holds it, in the order of the chosen
    key: no task comes before one the comparator ranks strictly ahead of
    it.  With the due-date key every task that follows a task without a due
    date has none either. *)
Theorem sortedTasks_sorted_selection (sortBy : TaskList.SortBy)
    (statusFilter : option TaskStatus) (priorityFilter : option TaskPriority)
    (tasks : list Task) :
  Permutation (TaskList.sortedTasks sortBy statusFilter priorityFilter tasks)
    (TaskList.filteredTasks statusFilter priorityFilter tasks) /\
  StronglySorted (fun a b => TaskList.compare sortBy a b <= 0)
    (TaskList.sortedTasks sortBy statusFilter priorityFilter tasks) /\
  (forall before t after,
     TaskList.sortedTasks TaskList.by_due_date statusFilter priorityFilter tasks
     = (before ++ t :: after)%list ->
     due_date t = None -> Forall (fun u => due_date u = None) after).
Proof.
  split; [apply sort_with_perm|]. split.
  - apply sort_with_sorted; [apply compare_total|apply compare_trans].
  - intros before t after Heq Ht.
    pose proof (sort_with_sorted (TaskList.compare TaskList.by_due_date)
                  (compare_total TaskList.by_due_date)
                  (compare_trans TaskList.by_due_date)
                  (TaskList.filteredTasks statusFilter priorityFilter tasks)) as Hs.
    unfold TaskList.sortedTasks in Heq. rewrite Heq in Hs.
    apply sorted_tail in Hs. apply StronglySorted_inv in Hs as [_ Hall].
    eapply Forall_impl; [|exact Hall]. intros u Hu. cbn in Hu.
    rewrite Ht in Hu. destruct (due_date u); [lia|reflexivity].
Qed.

Lemma filter_none (P : Task -> bool) (l : list Task) :
  Forall (fun t => P t = false) l -> filter P l = [].
Proof.
  induction 1 as [|x l Hx _ IH]; [reflexivity|]. cbn. now rewrite Hx.
Qed.

Lemma sorted_by_priority_groups (l : list Task) :
  StronglySorted (fun a b => TaskList.compare TaskList.by_priority a b <= 0) l ->
  l = (filter (TaskList.has_priority high) l
       ++ filter (TaskList.has_priority medium) l
       ++ filter (TaskList.has_priority low) l)%list.
Proof.
  induction 1 as [|x l Hs IH Hx]; [reflexivity|].
  cbn [filter].
  change (TaskList.has_priority high x) with (TaskPriority_eqb (priority x) high).
  change (TaskList.has_priority medium x) with (TaskPriority_eqb (priority x) medium).
  change (TaskList.has_priority low x) with (TaskPriority_eqb (priority x) low).
  destruct (priority x) eqn:Px; cbn [TaskPriority_eqb].
  - cbn [app]. f_equal. exact IH.
  - assert (Hh : filter (TaskList.has_priority high) l = []).
    { apply filter_none. eapply Forall_impl; [|exact Hx]. intros b Hb.
      cbn in Hb. rewrite Px in Hb. unfold TaskList.has_priority.
      destruct (priority b); cbn in *; try reflexivity; lia. }
    rewrite Hh in *. cbn [app] in *. f_equal. exact IH.
  - assert (Hh : filter (TaskList.has_priority high) l = []).
    { apply filter_none. eapply Forall_impl; [|exact Hx]. intros b Hb.
      cbn in Hb. rewrite Px in Hb. unfold TaskList.has_priority.
      destruct (priority b); cbn in *; try reflexivity; lia. }
    assert (Hm : filter (TaskList.has_priority medium) l = []).
    { apply filter_none. eapply Forall_impl; [|exact Hx]. intros b Hb.
      cbn in Hb. rewrite Px in Hb. unfold TaskList.has_priority.
      destruct (priority b); cbn in *; try reflexivity; lia. }
    rewrite Hh, Hm in *. cbn [app] in *. f_equal. exact IH.
Qed.

(** X29: sorting by priority is stable, so the list shown is the high tasks,
    then the medium ones, then the low ones, each group in the order the
    cache holds them. *)
Theorem sorted_by_priority_is_three_groups (statusFilter : option TaskStatus)
    (priorityFilter : option TaskPriority) (tasks : list Task) :
  let shown := TaskList.filteredTasks statusFilter priorityFilter tasks in
  TaskList.sortedTasks TaskList.by_priority statusFilter priorityFilter tasks
  = (filter (TaskList.has_priority high) shown
     ++ filter (TaskList.has_priority medium) shown
     ++ filter (TaskList.has_priority low) shown)%list.
Proof.
  intros shown. unfold TaskList.sortedTasks. fold shown.
  assert (Hst : forall p a b,
            TaskList.has_priority p a = true -> TaskList.has_priority p b = true ->
            TaskList.compare TaskList.by_priority a b <= 0).
  { intros p a b Ha Hb. unfold TaskList.has_priority in *. cbn.
    destruct (priority a), (priority b), p; cbn in *; try discriminate; lia. }
  rewrite (sorted_by_priority_groups
             (TaskList.sort_with (TaskList.compare TaskList.by_priority) shown))
    at 1.
  2: { apply sort_with_sorted; [apply compare_total|apply compare_trans]. }
  rewrite !sort_with_filter by (apply Hst). reflexivity.
Qed.

(* ===================================================================== *)
(** ** The delete button of a task item *)
(* ===================================================================== *)

Lemma handleDelete_run (trace : list TaskItem.Event) :
  forall it it',
    TaskItem.run trace it = Some it' ->
    (2 * TaskItem.deleteCalls it' + (if TaskItem.confirmDelete it' then 1 else 0)
     <= 2 * TaskItem.deleteCalls it + (if TaskItem.confirmDelete it then 1 else 0)
        + TaskItem.clicks trace)%nat.
Proof.
  induction trace as [|e trace IH]; intros it it' Hrun.
  - injection Hrun as <-. cbn. lia.
  - cbn [TaskItem.run] in Hrun. destruct (TaskItem.enabled e it); [|discriminate].
    specialize (IH _ _ Hrun). destruct e.
    + unfold TaskItem.clicks in *. cbn [filter List.length].
      cbn [TaskItem.step] in IH. unfold TaskItem.handleDelete in IH.
      destruct (TaskItem.confirmDelete it); cbn in IH; lia.
    + unfold TaskItem.clicks in *. cbn [filter].
      cbn [TaskItem.step] in IH. unfold TaskItem.timerFires in IH. cbn in IH.
      destruct (TaskItem.confirmDelete it); lia.
Qed.

(** X30: the delete button never deletes on a single click: however clicks
    and expiring confirmation timers interleave, [onDelete] has been called
    at most once for every two clicks, and an armed confirmation has used up
    one more click. *)
Theorem delete_takes_two_clicks (trace : list TaskItem.Event) (it' : TaskItem.Item) :
  TaskItem.run trace TaskItem.initial = Some it' ->
  (2 * TaskItem.deleteCalls it' + (if TaskItem.confirmDelete it' then 1 else 0)
   <= TaskItem.clicks trace)%nat.
Proof.
  intros Hrun. pose proof (handleDelete_run trace _ _ Hrun) as H. cbn in H. lia.
Qed.

Lemma delete_takes_two_clicks_witness :
  (2 * 1 + 1 <= TaskItem.clicks
     [TaskItem.Click; TaskItem.TimerFires; TaskItem.Click; TaskItem.Click;
      TaskItem.Click])%nat.
Proof.
  exact (delete_takes_two_clicks
           [TaskItem.Click; TaskItem.TimerFires; TaskItem.Click; TaskItem.Click;
            TaskItem.Click]
           (TaskItem.mkItem true 1 2) eq_refl).
Defined.

(* ===================================================================== *)
(** * Part IV: calls of [toggleTaskStatus] that overlap *)
(* ===================================================================== *)

Section TogglesInFlightProofs.

Import TogglesInFlight.

Variable i : Z.

Lemma same_but_refl (ts : list Task) : same_but i ts ts.
Proof.
  unfold same_but. induction ts as [|x ts IH]; constructor; [|exact IH].
  destruct (id_is i x) eqn:E; [|reflexivity].
  unfold id_is in E. now apply Z.eqb_eq in E.
Qed.

Lemma same_but_flip (ts ts0 : list Task) :
  same_but i ts ts0 -> same_but i (TaskViewModel.optimistic_flip i ts) ts0.
Proof.
  unfold same_but, TaskViewModel.optimistic_flip.
  induction 1 as [|a b ts ts0 Hab _ IH]; cbn [map]; constructor; [|exact IH].
  destruct (id_is i b) eqn:Eb.
  - destruct (id_is i a); cbn [id]; exact Hab.
  - subst a. now rewrite Eb.
Qed.

Lemma same_but_replace (c : Task) (ts ts0 : list Task) :
  id c = i ->
  same_but i ts ts0 ->
  same_but i (TaskViewModel.replace_by_id i c ts) ts0 /\
  TaskViewModel.replace_by_id i c ts = TaskViewModel.replace_by_id i c ts0.
Proof.
  intros Hc. unfold same_but, TaskViewModel.replace_by_id.
  induction 1 as [|a b ts ts0 Hab _ [IH1 IH2]]; cbn [map]; [split; constructor|].
  assert (Ea : id_is i a = id_is i b).
  { destruct (id_is i b) eqn:Eb.
    - unfold id_is. rewrite Hab. apply Z.eqb_refl.
    - subst a. exact Eb. }
  rewrite Ea. split.
  - constructor; [|exact IH1]. destruct (id_is i b) eqn:Eb; [exact Hc|exact Hab].
  - rewrite IH2. destruct (id_is i b) eqn:Eb; [reflexivity|]. now subst a.
Qed.

Lemma replace_after_flip (c : Task) (ts : list Task) :
  TaskViewModel.replace_by_id i c (TaskViewModel.optimistic_flip i ts)
  = TaskViewModel.replace_by_id i c ts.
Proof.
  unfold TaskViewModel.replace_by_id, TaskViewModel.optimistic_flip.
  rewrite map_map. apply map_ext. intros a.
  destruct (optimistic_flip_one i a) as (_ & _ & E). cbv zeta in E. rewrite E.
  destruct (id_is i a) eqn:Ea; reflexivity.
Qed.

Lemma cached_status_replace (c : Task) (ts : list Task) :
  id c = i ->
  TaskViewModel.cached_status i (TaskViewModel.replace_by_id i c ts)
  = match TaskViewModel.cached_status i ts with
    | Some _ => Some (status c)
    | None => None
    end.
Proof.
  intros Hc. unfold TaskViewModel.cached_status, TaskViewModel.replace_by_id.
  induction ts as [|x ts IH]; [reflexivity|]. cbn [map find].
  destruct (id_is i x) eqn:E.
  - unfold id_is at 1. rewrite Hc, Z.eqb_refl. reflexivity.
  - rewrite E. exact IH.
Qed.

(** *** The store under the calls *)

Lemma store_after_update (w : World) (now : Z) (ns : TaskStatus) (stored : Task) :
  NoDup (map id (mockTasks w)) ->
  find (id_is i) (mockTasks w) = Some stored ->
  exists k confirmed,
    MockService.findIndex i (mockTasks w) = Some k /\
    let ts' := MockService.update_at k
                 (fun old => MockService.apply_update old
                               (mkTaskUpdate None None (Some ns) None None) now)
                 (mockTasks w) in
    nth_error ts' k = Some confirmed /\
    id confirmed = i /\ status confirmed = ns /\
    NoDup (map id ts') /\
    find (id_is i) ts' = Some confirmed.
Proof.
  intros Hnd Hfind.
  destruct (findIndex_find _ _ _ Hfind) as (k & Hk & Hnth).
  pose proof (find_some _ _ Hfind) as [Hin Hid].
  unfold id_is in Hid. apply Z.eqb_eq in Hid.
  set (f := fun old => MockService.apply_update old
                         (mkTaskUpdate None None (Some ns) None None) now).
  exists k, (f stored). split; [exact Hk|]. cbv zeta. fold f.
  assert (Hids : map id (MockService.update_at k f (mockTasks w)) = map id (mockTasks w))
    by (apply update_at_ids; reflexivity).
  assert (Hnth' : nth_error (MockService.update_at k f (mockTasks w)) k = Some (f stored))
    by (now apply update_at_nth).
  split; [exact Hnth'|]. split; [exact Hid|]. split; [reflexivity|].
  split; [rewrite Hids; exact Hnd|].
  apply find_id_unique; [rewrite Hids; exact Hnd| |exact Hid].
  eapply nth_error_In; eauto.
Qed.

(** *** The list of suspended calls *)

Lemma put_call_continue_length (k : nat) (c : Call) (l : list Call) :
  List.length (put_call k (Continue c) l) = List.length l.
Proof.
  revert k. induction l as [|x l IH]; intros [|k]; cbn; try reflexivity.
  now rewrite IH.
Qed.

Lemma put_call_return_length (k : nat) (r : option Task) (l : list Call) (c : Call) :
  nth_error l k = Some c ->
  S (List.length (put_call k (Return r) l)) = List.length l.
Proof.
  revert k. induction l as [|x l IH]; intros [|k]; cbn; try discriminate.
  - reflexivity.
  - intros H. now rewrite (IH k H).
Qed.

Lemma put_call_Forall (P : Call -> Prop) (k : nat) (n : Next) (l : list Call) :
  match n with Continue c => P c | Return _ => True end ->
  Forall P l -> Forall P (put_call k n l).
Proof.
  intros Hn Hl. revert k. induction Hl as [|x l Hx Hl IH]; intros [|k]; cbn.
  - constructor.
  - constructor.
  - destruct n; [constructor; assumption|exact Hl].
  - constructor; [exact Hx|apply IH].
Qed.

Lemma put_call_continue_unwritten (k : nat) (c c' : Call) (l : list Call) :
  nth_error l k = Some c -> has_written c' = false ->
  forallb has_written (put_call k (Continue c') l) = false.
Proof.
  intros Hk Hc. revert k Hk. induction l as [|x l IH]; intros [|k]; cbn;
    try discriminate.
  - intros _. now rewrite Hc.
  - intros H. rewrite (IH k H). apply andb_false_r.
Qed.

Lemma put_call_return_written (k : nat) (r : option Task) (c : Call) (l : list Call) :
  nth_error l k = Some c -> has_written c = true ->
  forallb has_written (put_call k (Return r) l) = true ->
  forallb has_written l = true.
Proof.
  intros Hk Hc. revert k Hk. induction l as [|x l IH]; intros [|k]; cbn;
    try discriminate.
  - intros [= ->] H. now rewrite Hc, H.
  - intros Hk H. apply andb_true_iff in H as [Hx H].
    now rewrite Hx, (IH k Hk H).
Qed.

(** *** What every step keeps *)

Variable ts0 : list Task.

Lemma forallb_is_some_app (l : list (option Task)) (r : option Task) :
  forallb is_some (l ++ [r]) = forallb is_some l && is_some r.
Proof. rewrite forallb_app. cbn. now rewrite andb_true_r. Qed.

Lemma step_settling (e : Event) (s : Session) :
  settling i ts0 s ->
  enabled e s = true ->
  match e with Click _ j => j = i | Resume _ => True end ->
  settling i ts0 (step e s) /\
  (List.length (returned (step e s)) + List.length (inflight (step e s))
   = List.length (returned s) + List.length (inflight s)
     + match e with Click _ _ => 1 | Resume _ => 0 end)%nat.
Proof.
  intros (Hm & Hnd & (stored & Hfind) & Hall & Hret & Hsame & Hsettled) Hen He.
  destruct e as [t j|k].
  - (* a new call starts *)
    subst j. cbn [step]. unfold start, settling.
    cbn [view world inflight returned TaskViewModel.tasks mockTasks set_clock useMockData].
    split; [|rewrite length_app; cbn; lia].
    split; [exact Hm|]. split; [exact Hnd|]. split; [eauto|].
    split; [apply Forall_app; split; [exact Hall|]; constructor; [split; [reflexivity|exact I]|constructor]|].
    split; [exact Hret|]. split; [now apply same_but_flip|].
    rewrite forallb_app. cbn. rewrite andb_false_r. discriminate.
  - (* a suspended call resumes *)
    cbn [enabled step] in *.
    destruct (nth_error (inflight s) k) as [c|] eqn:Hk; [|discriminate].
    assert (Hc : on_found_task i c).
    { rewrite Forall_forall in Hall. apply Hall. eapply nth_error_In; eauto. }
    destruct c as [tg wk sp]. destruct Hc as [Htg Hsp]. cbn [target suspended] in *.
    subst tg. unfold resume. cbn [wakeAt target suspended mockTasks set_clock].
    destruct sp as [|ns|confirmed|msg|msg loaded]; try contradiction.
    + (* the task is read *)
      rewrite (find_id_perm i (mockTasks (world s)) _ Hnd
                 (Permutation_sym (sort_by_updated_perm _))), Hfind.
      unfold settling.
      cbn [view world inflight returned mockTasks set_clock useMockData].
      split; [|rewrite put_call_continue_length; lia].
      split; [exact Hm|]. split; [exact Hnd|]. split; [eauto|].
      split; [apply put_call_Forall; [split; [reflexivity|exact I]|exact Hall]|].
      split; [exact Hret|]. split; [exact Hsame|].
      rewrite (put_call_continue_unwritten k _ _ _ Hk) by reflexivity. discriminate.
    + (* the store and the cache are written *)
      destruct (store_after_update (world s) wk ns stored Hnd Hfind)
        as (idx & conf & Hidx & Hnth & Hid & Hst & Hnd' & Hfind').
      cbv zeta in Hnth, Hnd', Hfind'. rewrite Hidx, Hnth.
      destruct (same_but_replace conf _ _ Hid Hsame) as [Hsame' Hrep].
      unfold settling.
      cbn [view world inflight returned mockTasks set_clock set_tasks useMockData
           TaskViewModel.tasks].
      split; [|rewrite put_call_continue_length; lia].
      split; [exact Hm|]. split; [exact Hnd'|]. split; [eauto|].
      split; [apply put_call_Forall; [split; [reflexivity|exact Hid]|exact Hall]|].
      split; [exact Hret|]. split; [exact Hsame'|].
      intros _. right. exists conf. split; [exact Hfind'|exact Hrep].
    + (* the call returns *)
      unfold settling.
      cbn [view world inflight returned mockTasks set_clock useMockData
           TaskViewModel.tasks].
      split.
      * split; [exact Hm|]. split; [exact Hnd|]. split; [eauto|].
        split; [apply put_call_Forall; [exact I|exact Hall]|].
        split; [rewrite forallb_is_some_app, Hret; reflexivity|].
        split; [exact Hsame|].
        intros Hw. right.
        pose proof (put_call_return_written k _ _ _ Hk eq_refl Hw) as Hw0.
        destruct (Hsettled Hw0) as [[_ Hnil]|Hdone]; [|exact Hdone].
        rewrite Hnil in Hk. destruct k; discriminate.
      * rewrite length_app. cbn [List.length].
        pose proof (put_call_return_length k (Some confirmed) _ _ Hk). lia.
Qed.

Lemma run_settling (trace : list Event) : forall s s',
  settling i ts0 s ->
  clicks_on i trace = true ->
  run trace s = Some s' ->
  settling i ts0 s' /\
  (List.length (returned s') + List.length (inflight s')
   = List.length (returned s) + List.length (inflight s) + clicks trace)%nat.
Proof.
  induction trace as [|e trace IH]; intros s s' Hs Hon Hrun.
  - injection Hrun as <-. split; [exact Hs|]. cbn. lia.
  - cbn [run] in Hrun. destruct (enabled e s) eqn:Hen; [|discriminate].
    cbn [clicks_on forallb] in Hon. apply andb_true_iff in Hon as [He Hon].
    assert (He' : match e with Click _ j => j = i | Resume _ => True end).
    { destruct e; [now apply Z.eqb_eq in He|exact I]. }
    destruct (step_settling e s Hs Hen He') as [Hs1 Hc1].
    destruct (IH _ _ Hs1 Hon Hrun) as [Hs' Hc'].
    split; [exact Hs'|]. rewrite Hc', Hc1. unfold clicks. cbn [filter].
    destruct e; cbn [List.length]; lia.
Qed.

(** *** Calls that do not overlap *)

Lemma run_step (e : Event) (rest : list Event) (s : Session) :
  enabled e s = true -> run (e :: rest) s = run rest (step e s).
Proof. intros H. cbn [run]. now rewrite H. Qed.

Lemma run_app (l1 l2 : list Event) : forall s s1,
  run l1 s = Some s1 -> run (l1 ++ l2) s = run l2 s1.
Proof.
  induction l1 as [|e l1 IH]; intros s s1; cbn [run app].
  - now intros [= ->].
  - destruct (enabled e s); [apply IH|discriminate].
Qed.

Lemma only_call_enabled (c : Call) (v : TaskViewModel.State) (w : World)
    (rs : list (option Task)) :
  enabled (Resume 0) (mkSession v w [c] rs) = true.
Proof. cbn. now rewrite Z.leb_refl. Qed.

Lemma only_call_step (c : Call) (v : TaskViewModel.State) (w : World)
    (rs : list (option Task)) :
  step (Resume 0) (mkSession v w [c] rs)
  = match resume c v w with
    | (v', w', Continue c') => mkSession v' w' [c'] rs
    | (v', w', Return r) => mkSession v' w' [] (rs ++ [r])
    end.
Proof. cbn. destruct (resume c v w) as [[v' w'] [c'|r]]; reflexivity. Qed.

Lemma resume_get (wk : Z) (v : TaskViewModel.State) (w : World) (stored : Task) :
  NoDup (map id (mockTasks w)) ->
  find (id_is i) (mockTasks w) = Some stored ->
  resume (mkCall i wk InGetTask) v w
  = (v, set_clock wk w,
     Continue (mkCall i (wk + 400)
                 (InUpdateTask (TaskService.flip_status (status stored))))).
Proof.
  intros Hnd Hfind. unfold resume. cbn [wakeAt target suspended mockTasks set_clock].
  rewrite (find_id_perm i (mockTasks w) _ Hnd
             (Permutation_sym (sort_by_updated_perm _))), Hfind.
  reflexivity.
Qed.

Lemma resume_update (wk : Z) (ns : TaskStatus) (v : TaskViewModel.State) (w : World)
    (k : nat) (conf : Task) :
  MockService.findIndex i (mockTasks w) = Some k ->
  nth_error (MockService.update_at k
               (fun old => MockService.apply_update old
                             (mkTaskUpdate None None (Some ns) None None) wk)
               (mockTasks w)) k = Some conf ->
  resume (mkCall i wk (InUpdateTask ns)) v w
  = (TaskViewModel.mkState
       (TaskViewModel.replace_by_id i conf (TaskViewModel.tasks v))
       (TaskViewModel.taskStats v) (TaskViewModel.isLoading v) (TaskViewModel.error v),
     set_tasks (MockService.update_at k
                  (fun old => MockService.apply_update old
                                (mkTaskUpdate None None (Some ns) None None) wk)
                  (mockTasks w)) (set_clock wk w),
     Continue (mkCall i (wk + 300) (InGetStats conf))).
Proof.
  intros Hk Hnth. unfold resume. cbn [wakeAt target suspended mockTasks set_clock].
  rewrite Hk, Hnth. reflexivity.
Qed.

(** A call that runs alone on a stored task: it returns the task as the
    store then holds it, with the status flipped, a second after the
    click. *)
Lemma alone_run (t : Z) (v : TaskViewModel.State) (w : World)
    (rs : list (option Task)) (stored : Task) :
  useMockData w = true ->
  NoDup (map id (mockTasks w)) ->
  find (id_is i) (mockTasks w) = Some stored ->
  clock w <= t ->
  exists conf v' w',
    run (alone t i) (mkSession v w [] rs) = Some (mkSession v' w' [] (rs ++ [Some conf])) /\
    useMockData w' = true /\
    NoDup (map id (mockTasks w')) /\
    find (id_is i) (mockTasks w') = Some conf /\
    id conf = i /\
    status conf = TaskService.flip_status (status stored) /\
    clock w' = t + 1000 /\
    TaskViewModel.tasks v' = TaskViewModel.replace_by_id i conf (TaskViewModel.tasks v).
Proof.
  intros Hm Hnd Hfind Hclock.
  destruct (store_after_update w (t + 300 + 400)
              (TaskService.flip_status (status stored)) stored Hnd Hfind)
    as (idx & conf & Hidx & Hnth & Hid & Hst & Hnd' & Hfind').
  cbv zeta in Hnth, Hnd', Hfind'.
  exists conf. eexists. eexists. split.
  - unfold alone. rewrite run_step
      by (cbn; apply Z.leb_le in Hclock; now rewrite Hclock).
    cbn [step]. unfold start. cbn [view world inflight returned app].
    rewrite run_step by apply only_call_enabled.
    rewrite only_call_step, (resume_get _ _ _ stored) by assumption.
    rewrite run_step by apply only_call_enabled.
    rewrite only_call_step, (resume_update _ _ _ _ idx conf) by assumption.
    rewrite run_step by apply only_call_enabled.
    rewrite only_call_step. unfold resume.
    cbn [wakeAt target suspended run]. reflexivity.
  - cbn [useMockData mockTasks set_clock set_tasks clock TaskViewModel.tasks].
    split; [exact Hm|]. split; [exact Hnd'|]. split; [exact Hfind'|].
    split; [exact Hid|]. split; [exact Hst|]. split; [lia|].
    apply replace_after_flip.
Qed.

Lemma awaited_run (times : list Z) : forall (v : TaskViewModel.State) (w : World)
    (rs : list (option Task)) (stored : Task),
  useMockData w = true ->
  NoDup (map id (mockTasks w)) ->
  find (id_is i) (mockTasks w) = Some stored ->
  spaced (clock w) times ->
  exists v' w' rs' final,
    run (awaited i times) (mkSession v w [] rs) = Some (mkSession v' w' [] (rs ++ rs')) /\
    List.length rs' = List.length times /\
    forallb is_some rs' = true /\
    find (id_is i) (mockTasks w') = Some final /\
    status final
    = Reconciler.xor_status (status stored) (Nat.odd (List.length times)) /\
    (times <> [] ->
     TaskViewModel.tasks v' = TaskViewModel.replace_by_id i final (TaskViewModel.tasks v) /\
     id final = i /\ last rs' None = Some final) /\
    (times = [] -> v' = v).
Proof.
  induction times as [|t times IH]; intros v w rs stored Hm Hnd Hfind Hsp.
  - exists v, w, [], stored. cbn. rewrite app_nil_r.
    split; [reflexivity|]. split; [reflexivity|]. split; [reflexivity|].
    split; [exact Hfind|]. split; [reflexivity|]. split; [congruence|reflexivity].
  - destruct Hsp as [Hle Hsp].
    destruct (alone_run t v w rs stored Hm Hnd Hfind Hle)
      as (conf & v1 & w1 & Hrun1 & Hm1 & Hnd1 & Hfind1 & Hid1 & Hst1 & Hclock1 & Htasks1).
    rewrite <- Hclock1 in Hsp.
    destruct (IH v1 w1 (rs ++ [Some conf])%list conf Hm1 Hnd1 Hfind1 Hsp)
      as (v' & w' & rs' & final & Hrun & Hlen & Hsome & Hfind' & Hst' & Hcache & Hnone).
    exists v', w', (Some conf :: rs'), final. split.
    + unfold awaited in *. cbn [flat_map].
      rewrite (run_app _ _ _ _ Hrun1), Hrun, <- app_assoc. reflexivity.
    + split; [cbn; now rewrite Hlen|]. split; [exact Hsome|].
      split; [exact Hfind'|]. split.
      * rewrite Hst', Hst1. cbn [List.length]. apply xor_status_step.
      * split; [|discriminate]. intros _.
        destruct times as [|t2 times'].
        -- rewrite (Hnone eq_refl), Htasks1.
           assert (rs' = []) by (destruct rs'; [reflexivity|discriminate]). subst rs'.
           cbn in Hfind'. 
           assert (final = conf).
           { revert Hrun. cbn. rewrite app_nil_r. intros [= _ Hw].
             rewrite <- Hw in Hfind'. congruence. }
           subst final. auto.
        -- destruct (Hcache ltac:(discriminate)) as (Htasks' & Hidf & Hlast).
           split; [|split; [exact Hidf|]].
           ++ rewrite Htasks', Htasks1.
              unfold TaskViewModel.replace_by_id. rewrite map_map. apply map_ext.
              intros a. destruct (id_is i a) eqn:Ea; [|now rewrite Ea].
              unfold id_is at 1. now rewrite Hid1, Z.eqb_refl.
           ++ destruct rs' as [|r rs'']; [discriminate|exact Hlast].
Qed.

End TogglesInFlightProofs.

Section LoneCall.

Import TogglesInFlight.

Ltac lone_resume :=
  rewrite run_step by apply only_call_enabled; rewrite only_call_step;
  unfold resume at 1; cbn [wakeAt target suspended mockTasks set_clock set_tasks].

Ltac lone_simpl Hm :=
  repeat (cbn [useMockData mockTasks clock tz set_clock set_tasks success data negb
               message or_string TaskService.apply_filters];
          rewrite ?Hm).

(** A call that runs alone is the call of the view-model run to completion:
    the calls in flight and [TaskViewModel.toggleTaskStatus] end with the
    same result, the same cache and the same store, at the same instant. *)
Lemma lone_call_agrees (i : Z) (v : TaskViewModel.State) (w : World) :
  useMockData w = true ->
  exists r v' w',
    TaskViewModel.toggleTaskStatus i (v, w) = (Ok r, (v', w')) /\
    run (alone (clock w) i) (idle v w) = Some (mkSession v' w' [] [r]).
Proof.
  intros Hm. unfold alone, idle.
  rewrite run_step by (cbn; now rewrite Z.leb_refl).
  cbn [step]. unfold start. cbn [view world inflight returned app].
  lone_resume.
  unfold TaskViewModel.toggleTaskStatus, TaskViewModel.revert_on_error,
    TaskViewModel.refreshTasks, TaskViewModel.setState, TaskViewModel.service,
    TaskService.toggleTaskStatus, TaskService.getTask, TaskService.updateTask,
    TaskService.getTaskStats, TaskService.getTasks,
    MockService.updateTask, MockService.getTasks, MockService.delay.
  eff_run. lone_simpl Hm.
  destruct (find (id_is i) (MockService.sort_by_updated (mockTasks w))) as [cur|] eqn:Hs.
  - lone_simpl Hm. lone_resume.
    destruct (MockService.findIndex i (mockTasks w)) as [k|] eqn:Hk.
    + lone_simpl Hm.
      destruct (nth_error _ k) as [conf|] eqn:Hn.
      * lone_simpl Hm. lone_resume.
        eexists; eexists; eexists. split; reflexivity.
      * exfalso. destruct (findIndex_sound i _ k Hk) as (t0 & Hnth & _).
        rewrite (update_at_nth k _ _ t0 Hnth) in Hn. discriminate.
    + exfalso.
      destruct (find_some_perm i _ (mockTasks w) cur (sort_by_updated_perm _) Hs)
        as (t' & Hfind).
      destruct (findIndex_find _ _ _ Hfind) as (k & Hk' & _). congruence.
  - lone_simpl Hm. lone_resume. lone_simpl Hm. lone_resume.
    eexists; eexists; eexists. split; reflexivity.
Qed.

End LoneCall.

Lemma successful_all (rs : list (option Task)) :
  forallb TogglesInFlight.is_some rs = true ->
  TaskViewModel.successful rs = List.length rs.
Proof.
  unfold TaskViewModel.successful. induction rs as [|r rs IH]; [reflexivity|].
  cbn. destruct r; cbn; [|discriminate]. intros H. now rewrite IH.
Qed.

Lemma cached_status_flip (i : Z) (ts : list Task) :
  TaskViewModel.cached_status i (TaskViewModel.optimistic_flip i ts)
  = option_map TaskService.flip_status (TaskViewModel.cached_status i ts).
Proof.
  unfold TaskViewModel.cached_status, TaskViewModel.optimistic_flip.
  induction ts as [|x ts IH]; [reflexivity|]. cbn [map find].
  destruct (id_is i x) eqn:E.
  - unfold id_is in *. cbn [id]. rewrite E. reflexivity.
  - rewrite E. exact IH.
Qed.

(** In either mode, a call whose confirming request is answered with a
    task puts that task in place of every cached entry of the id: the
    confirmed value replaces the optimistic guess. *)
Lemma toggle_confirmed_run (i : Z) (st : TaskViewModel.State) (w w1 : World)
    (r : ApiResponse (option Task)) (confirmed : Task) :
  TaskService.toggleTaskStatus i w = (Ok r, w1) ->
  success r = true -> data r = Some confirmed ->
  exists st' w',
    TaskViewModel.toggleTaskStatus i (st, w) = (Ok (Some confirmed), (st', w')) /\
    TaskViewModel.tasks st' = TaskViewModel.replace_by_id i confirmed (TaskViewModel.tasks st) /\
    TaskViewModel.error st' = None /\
    TaskViewModel.isLoading st' = TaskViewModel.isLoading st.
Proof.
  intros Hsvc Hok Hdata.
  destruct (getTaskStats_returns w1) as (res & w2 & Estats).
  unfold TaskViewModel.toggleTaskStatus, TaskViewModel.setState, TaskViewModel.service.
  eff_run. rewrite Hsvc, Hok, Hdata, Estats.
  destruct (success res); cbn;
    (eexists; eexists; split; [reflexivity|]); cbn;
    (split; [apply replace_after_flip|split; reflexivity]).
Qed.

(** C3, as the code has it.  In either mode a call that the service
    confirms with a task leaves that task in place of every cached entry of
    the id, and a call that is rejected leaves the reloaded collection; the
    rest is about development mode and a task the mock store holds under a
    unique id (nothing but the toggles touches the store, so nothing
    deletes it).
    A call flips the cached status at once and leaves the store alone
    until its timers fire.
    Whatever the schedule of the calls of [toggleTaskStatus] on the id,
    overlapping or not, once no call is in flight every call has returned a
    task, and the cache is the initial cache with every entry of that id
    replaced by the task the store holds: cache and store agree.
    If each call starts after the one before has returned, the status the
    store holds is its initial status there xor the parity of the calls,
    all of which are successful; so is the cached status once a call has
    been made, whatever the cache showed before; it is the initially cached
    status xor the parity of the successful calls if the cache showed the
    stored status. *)
Theorem toggle_calls_settle (i : Z) (v : TaskViewModel.State) (w : World)
    (stored : Task) :
  useMockData w = true ->
  NoDup (map id (mockTasks w)) ->
  find (id_is i) (mockTasks w) = Some stored ->
  (forall st0 w0 w1 r confirmed,
     TaskService.toggleTaskStatus i w0 = (Ok r, w1) ->
     success r = true -> data r = Some confirmed ->
     exists st' w',
       TaskViewModel.toggleTaskStatus i (st0, w0) = (Ok (Some confirmed), (st', w')) /\
       TaskViewModel.tasks st'
       = TaskViewModel.replace_by_id i confirmed (TaskViewModel.tasks st0) /\
       TaskViewModel.error st' = None) /\
  (forall t,
     let s := TogglesInFlight.step (TogglesInFlight.Click t i) (TogglesInFlight.idle v w) in
     TaskViewModel.cached_status i (TaskViewModel.tasks (TogglesInFlight.view s))
     = option_map TaskService.flip_status
         (TaskViewModel.cached_status i (TaskViewModel.tasks v)) /\
     mockTasks (TogglesInFlight.world s) = mockTasks w) /\
  (forall trace s,
     TogglesInFlight.clicks_on i trace = true ->
     TogglesInFlight.run trace (TogglesInFlight.idle v w) = Some s ->
     TogglesInFlight.inflight s = [] ->
     TogglesInFlight.clicks trace <> 0%nat ->
     List.length (TogglesInFlight.returned s) = TogglesInFlight.clicks trace /\
     TaskViewModel.successful (TogglesInFlight.returned s) = TogglesInFlight.clicks trace /\
     exists final,
       find (id_is i) (mockTasks (TogglesInFlight.world s)) = Some final /\
       TaskViewModel.tasks (TogglesInFlight.view s)
       = TaskViewModel.replace_by_id i final (TaskViewModel.tasks v)) /\
  (forall times,
     TogglesInFlight.spaced (clock w) times ->
     exists s final,
       TogglesInFlight.run (TogglesInFlight.awaited i times) (TogglesInFlight.idle v w)
       = Some s /\
       TogglesInFlight.inflight s = [] /\
       TaskViewModel.successful (TogglesInFlight.returned s) = List.length times /\
       List.length (TogglesInFlight.returned s) = List.length times /\
       find (id_is i) (mockTasks (TogglesInFlight.world s)) = Some final /\
       status final
       = Reconciler.xor_status (status stored) (Nat.odd (List.length times)) /\
       (times <> [] ->
        TaskViewModel.cached_status i (TaskViewModel.tasks v) <> None ->
        TaskViewModel.cached_status i (TaskViewModel.tasks (TogglesInFlight.view s))
        = Some (Reconciler.xor_status (status stored) (Nat.odd (List.length times)))) /\
       (TaskViewModel.cached_status i (TaskViewModel.tasks v) = Some (status stored) ->
        TaskViewModel.cached_status i (TaskViewModel.tasks (TogglesInFlight.view s))
        = Some (Reconciler.xor_status (status stored)
                  (Nat.odd (TaskViewModel.successful (TogglesInFlight.returned s)))))).
Proof.
  intros Hm Hnd Hfind. split; [|split; [|split]].
  - intros st0 w0 w1 r confirmed Hsvc Hok Hdata.
    destruct (toggle_confirmed_run i st0 w0 w1 r confirmed Hsvc Hok Hdata)
      as (st' & w' & Hrun & Htasks & Herr & _).
    exists st', w'. auto.
  - intros t s. split; [apply cached_status_flip|reflexivity].
  - intros trace s Hon Hrun Hidle Hclicks.
    assert (H0 : TogglesInFlight.settling i (TaskViewModel.tasks v)
                   (TogglesInFlight.idle v w)).
    { unfold TogglesInFlight.settling, TogglesInFlight.idle. cbn.
      split; [exact Hm|]. split; [exact Hnd|]. split; [eauto|].
      split; [constructor|]. split; [reflexivity|].
      split; [apply same_but_refl|]. intros _. left. auto. }
    destruct (run_settling i (TaskViewModel.tasks v) trace _ _ H0 Hon Hrun)
      as ((_ & _ & _ & _ & Hret & _ & Hsettled) & Hcount).
    rewrite Hidle in Hcount, Hsettled. cbn in Hcount.
    assert (Hlen : List.length (TogglesInFlight.returned s) = TogglesInFlight.clicks trace)
      by lia.
    split; [exact Hlen|]. split; [rewrite successful_all by exact Hret; exact Hlen|].
    destruct (Hsettled eq_refl) as [[Hnil _]|Hdone]; [|exact Hdone].
    rewrite Hnil in Hlen. cbn in Hlen. congruence.
  - intros times Hsp.
    destruct (awaited_run i times v w [] stored Hm Hnd Hfind Hsp)
      as (v' & w' & rs' & final & Hrun & Hlen & Hsome & Hfind' & Hst & Hcache & Hnone).
    cbn [app] in Hrun.
    exists (TogglesInFlight.mkSession v' w' [] rs'), final.
    cbn [TogglesInFlight.inflight TogglesInFlight.returned TogglesInFlight.world
         TogglesInFlight.view].
    assert (Hsucc : TaskViewModel.successful rs' = List.length times)
      by (rewrite successful_all by exact Hsome; exact Hlen).
    split; [exact Hrun|]. split; [reflexivity|]. split; [exact Hsucc|].
    split; [exact Hlen|]. split; [exact Hfind'|]. split; [exact Hst|].
    assert (Hmade : times <> [] ->
              TaskViewModel.cached_status i (TaskViewModel.tasks v) <> None ->
              TaskViewModel.cached_status i (TaskViewModel.tasks v')
              = Some (Reconciler.xor_status (status stored)
                        (Nat.odd (List.length times)))).
    { intros Hne Hc. destruct (Hcache Hne) as (Htasks & Hid & _).
      rewrite Htasks, (cached_status_replace i final _ Hid), Hst.
      destruct (TaskViewModel.cached_status i (TaskViewModel.tasks v));
        [reflexivity|congruence]. }
    split; [exact Hmade|].
    intros Hsync. rewrite Hsucc. destruct times as [|t times].
    + rewrite (Hnone eq_refl). exact Hsync.
    + apply Hmade; [discriminate|]. rewrite Hsync. discriminate.
Qed.

(** Witness for C3: three toggles of task 2, active in the initial mock
    store and cache, each made after the one before has returned, leave it
    completed. *)
Lemma toggle_calls_settle_witness :
  exists s,
    TogglesInFlight.run
      (TogglesInFlight.awaited 2 [1758888000000; 1758888001000; 1758888002000])
      (TogglesInFlight.idle Examples.cache_dev Examples.world_dev) = Some s /\
    TaskViewModel.successful (TogglesInFlight.returned s) = 3%nat /\
    TaskViewModel.cached_status 2 (TaskViewModel.tasks (TogglesInFlight.view s))
    = Some completed.
Proof.
  assert (Hnd : NoDup (map id (mockTasks Examples.world_dev))).
  { cbn. repeat constructor; cbn; intuition discriminate. }
  destruct (proj2 (proj2 (proj2 (toggle_calls_settle 2 Examples.cache_dev
                                   Examples.world_dev
                                   Examples.task2 eq_refl Hnd eq_refl)))
              [1758888000000; 1758888001000; 1758888002000])
    as (s & final & Hrun & _ & Hsucc & _ & _ & _ & _ & Hsync).
  - cbn. lia.
  - exists s. split; [exact Hrun|]. split; [exact Hsucc|].
    rewrite (Hsync eq_refl), Hsucc. reflexivity.
Defined.

(** C3, as stated, fails in three ways.
    Overlapping calls: in development mode, with store and cache in step,
    the checkbox of task 2 (active) is clicked twice, 100 ms apart; both
    calls read the task as active before either writes it, both succeed,
    and the task ends completed, where an even number of successful toggles
    should leave it active.
    A stale cache: the cache shows task 2 as active and the store holds it
    as completed; one toggle succeeds and the cache shows it as active.
    A server that cannot be reached: in production mode the cache shows
    task 2 as completed; the toggle fails, the reload falls back to the mock
    store, and the cache shows it as active after no successful toggle. *)
Lemma toggle_parity_fails :
  (let s := TogglesInFlight.session_after
              (TogglesInFlight.double_click 1758888000000 2)
              (TogglesInFlight.idle Examples.cache_dev Examples.world_dev) in
   TogglesInFlight.run (TogglesInFlight.double_click 1758888000000 2)
     (TogglesInFlight.idle Examples.cache_dev Examples.world_dev) = Some s /\
   TogglesInFlight.inflight s = [] /\
   TaskViewModel.cached_status 2 (TaskViewModel.tasks Examples.cache_dev) = Some active /\
   TaskViewModel.cached_status 2 (mockTasks Examples.world_dev) = Some active /\
   TaskViewModel.successful (TogglesInFlight.returned s) = 2%nat /\
   TaskViewModel.cached_status 2 (TaskViewModel.tasks (TogglesInFlight.view s))
   = Some completed /\
   Reconciler.xor_status active (Nat.odd 2) = active) /\
  (let st := Examples.cache_before_agent_update in
   let w := Examples.world_after_agent_update in
   TaskViewModel.cached_status 2 (TaskViewModel.tasks st) = Some active /\
   TaskViewModel.successful [match fst (TaskViewModel.toggleTaskStatus 2 (st, w)) with
                             | Ok r => r
                             | Throw _ => None
                             end] = 1%nat /\
   TaskViewModel.cached_status 2
     (TaskViewModel.tasks (fst (snd (TaskViewModel.toggleTaskStatus 2 (st, w)))))
   = Some active /\
   Reconciler.xor_status active (Nat.odd 1) = completed) /\
  (let st := MoreExamples.cache_task2_done in
   let w := MoreExamples.world_offline in
   TaskViewModel.cached_status 2 (TaskViewModel.tasks st) = Some completed /\
   fst (TaskViewModel.toggleTaskStatus 2 (st, w)) = Ok None /\
   TaskViewModel.cached_status 2
     (TaskViewModel.tasks (fst (snd (TaskViewModel.toggleTaskStatus 2 (st, w)))))
   = Some active /\
   Reconciler.xor_status completed (Nat.odd 0) = completed).
Proof.
  cbv zeta. repeat split; vm_compute; reflexivity.
Qed.
